(** * django-multires: the image transformation pipeline

    A shallow embedding of [multires/processors.py] and [multires/engines.py].
    Python values the code computes with are modelled as the interpreter has
    them: integers are unbounded ([Z]), floats are IEEE-754 binary64 values
    (the executable [spec_float] model with [prec = 53], [emax = 1024]),
    exceptions are an error monad, and the PIL image is a record of mode, size
    and pixel data.  The resampling kernels of PIL and the libm functions are
    external to the repository; they are the fields of a [Backend] class. *)

From Stdlib Require Import ZArith NArith List String Ascii Bool Lia.
From Stdlib Require Import Floats.SpecFloat.
From Stdlib Require Import DecimalString DecimalZ DecimalPos.
Import ListNotations.

Open Scope Z_scope.

(* ================================================================== *)
(** ** Python values: exceptions, numbers, floats *)
(* ================================================================== *)

Module Py.

(** The builtin exceptions the pipeline can raise. *)
Inductive exn : Type :=
| ValueError
| TypeError
| AttributeError
| IndexError
| ZeroDivisionError
| OverflowError.

Inductive result (A : Type) : Type :=
| Ok (a : A)
| Raise (e : exn).

Arguments Ok {A} a.
Arguments Raise {A} e.

Definition bind {A B : Type} (r : result A) (k : A -> result B) : result B :=
  match r with
  | Ok a => k a
  | Raise e => Raise e
  end.

Definition is_ok {A : Type} (r : result A) : bool :=
  match r with Ok _ => true | Raise _ => false end.

Definition map {A B : Type} (f : A -> B) (r : result A) : result B :=
  match r with
  | Ok a => Ok (f a)
  | Raise e => Raise e
  end.

(** *** binary64 *)

Definition float : Type := spec_float.

Definition prec : Z := 53.
Definition emax : Z := 1024.

Definition fmul : float -> float -> float := SFmul prec emax.
Definition fadd : float -> float -> float := SFadd prec emax.
Definition fsub : float -> float -> float := SFsub prec emax.
Definition fquo : float -> float -> float := SFdiv prec emax.
Definition fopp : float -> float := SFopp.
Definition fabs : float -> float := SFabs.

(** Float literals of the source, as their binary64 values. *)
Definition f0_5 : float := S754_finite false 4503599627370496 (-53).
Definition f1 : float := S754_finite false 4503599627370496 (-52).
Definition f2 : float := S754_finite false 4503599627370496 (-51).
Definition f100 : float := S754_finite false 7036874417766400 (-46).
(** [math.pi] is 0x400921FB54442D18. *)
Definition math_pi : float := S754_finite false 7074237752028440 (-51).

Definition is_zero (f : float) : bool :=
  match f with S754_zero _ => true | _ => false end.

Definition is_inf (f : float) : bool :=
  match f with S754_infinity _ => true | _ => false end.

(** The signed integer mantissa of a finite float. *)
Definition signed (s : bool) (m : positive) : Z :=
  if s then Zneg m else Zpos m.

(** [int(x)] for a float [x]: truncation toward zero; [nan] and the
    infinities raise. *)
Definition trunc (f : float) : result Z :=
  match f with
  | S754_zero _ => Ok 0
  | S754_nan => Raise ValueError
  | S754_infinity _ => Raise OverflowError
  | S754_finite s m e =>
      if 0 <=? e then Ok (signed s m * 2 ^ e)
      else Ok (Z.quot (signed s m) (2 ^ (- e)))
  end.

(** [int(math.ceil(x))] for a float [x]. *)
Definition ceil (f : float) : result Z :=
  match f with
  | S754_zero _ => Ok 0
  | S754_nan => Raise ValueError
  | S754_infinity _ => Raise OverflowError
  | S754_finite s m e =>
      if 0 <=? e then Ok (signed s m * 2 ^ e)
      else Ok (- ((- signed s m) / 2 ^ (- e)))
  end.

(** Conversion of a Python integer to a float rounds to nearest even and
    raises [OverflowError] when the integer is too large. *)
Definition float_of_int (z : Z) : result float :=
  let f := binary_normalize prec emax z 0 false in
  if is_inf f then Raise OverflowError else Ok f.

(** *** Numbers: Python's [int] and [float] under one dynamic type *)

Inductive num : Type :=
| Int (z : Z)
| Float (f : float).

(** The builtin [float(x)]. *)
Definition to_float (x : num) : result float :=
  match x with
  | Int z => float_of_int z
  | Float f => Ok f
  end.

(** The builtin [int(x)]. *)
Definition int (x : num) : result Z :=
  match x with
  | Int z => Ok z
  | Float f => trunc f
  end.

(** [int(math.ceil(x))]: [math.ceil] takes its argument as a float. *)
Definition int_ceil (x : num) : result Z :=
  bind (to_float x) ceil.

Definition arith (iop : Z -> Z -> Z) (fop : float -> float -> float)
    (x y : num) : result num :=
  match x, y with
  | Int a, Int b => Ok (Int (iop a b))
  | _, _ =>
      bind (to_float x) (fun a =>
      bind (to_float y) (fun b =>
      Ok (Float (fop a b))))
  end.

Definition mul : num -> num -> result num := arith Z.mul fmul.
Definition add : num -> num -> result num := arith Z.add fadd.
Definition sub : num -> num -> result num := arith Z.sub fsub.

(** [x / y].  The modules do not import [division] from [__future__], so
    two integers divide with floor; as soon as one operand is a float the
    division is the binary64 one.  A zero divisor raises. *)
Definition div (x y : num) : result num :=
  match x, y with
  | Int a, Int b =>
      if b =? 0 then Raise ZeroDivisionError else Ok (Int (a / b))
  | _, _ =>
      bind (to_float x) (fun a =>
      bind (to_float y) (fun b =>
      if is_zero b then Raise ZeroDivisionError
      else Ok (Float (fquo a b))))
  end.

(** Comparison of an integer with a float is exact in Python: the integer
    is not rounded to a float first. *)
Definition compare_int_float (z : Z) (f : float) : option comparison :=
  match f with
  | S754_nan => None
  | S754_infinity s => Some (if s then Gt else Lt)
  | S754_zero _ => Some (z ?= 0)
  | S754_finite s m e =>
      if 0 <=? e then Some (z ?= signed s m * 2 ^ e)
      else Some (z * 2 ^ (- e) ?= signed s m)
  end.

Definition compare (x y : num) : option comparison :=
  match x, y with
  | Int a, Int b => Some (a ?= b)
  | Int a, Float g => compare_int_float a g
  | Float f, Int b => option_map CompOpp (compare_int_float b f)
  | Float f, Float g => SFcompare f g
  end.

Definition lt (x y : num) : bool :=
  match compare x y with Some Lt => true | _ => false end.
Definition gt (x y : num) : bool :=
  match compare x y with Some Gt => true | _ => false end.
Definition le (x y : num) : bool :=
  match compare x y with Some (Lt | Eq) => true | _ => false end.
Definition ge (x y : num) : bool :=
  match compare x y with Some (Gt | Eq) => true | _ => false end.

(** The builtin [max(a, b)]: the first argument unless the second is
    strictly greater. *)
Definition max (a b : num) : num :=
  if gt b a then b else a.

(** [math.fabs(x)] and [abs(x)] on a float. *)
Definition math_fabs (x : num) : result float :=
  bind (to_float x) (fun f => Ok (fabs f)).

(** Truthiness of the values the pipeline tests with [if], [or], [not]. *)
Definition truthy_int (o : option Z) : bool :=
  match o with
  | None => false
  | Some z => negb (z =? 0)
  end.

Definition truthy_str (s : string) : bool :=
  negb (String.eqb s EmptyString).

Definition truthy_list {A : Type} (l : list A) : bool :=
  match l with [] => false | _ :: _ => true end.

(** [s in [name, ...]] *)
Definition str_in (s : string) (names : list string) : bool :=
  existsb (String.eqb s) names.

(** [o or d] for an optional integer [o]. *)
Definition int_or (o : option Z) (d : Z) : Z :=
  match o with
  | Some z => if z =? 0 then d else z
  | None => d
  end.

(** ['{0}'.format(z)] for an integer [z]. *)
Definition format_int (z : Z) : string :=
  NilZero.string_of_int (Z.to_int z).

End Py.

Notation "x <- c1 ;; c2" := (Py.bind c1 (fun x => c2))
  (at level 61, c1 at next level, right associativity).
Notation "' pat <- c1 ;; c2" := (Py.bind c1 (fun x => match x with pat => c2 end))
  (at level 61, pat pattern, c1 at next level, right associativity).

Abbreviation result := Py.result.
Abbreviation Ok := Py.Ok.
Abbreviation Raise := Py.Raise.
Abbreviation float := Py.float.
Abbreviation num := Py.num.
Abbreviation Int := Py.Int.
Abbreviation Float := Py.Float.

(* ================================================================== *)
(** ** PIL: the image value and the primitives the processors call *)
(* ================================================================== *)

Module PIL.

(** A pixel is the list of its band values. *)
Definition pixel : Type := list Z.

(** [Image]: color mode, size and pixel data.  A size is never negative. *)
Record image : Type := mk_image {
  mode : string;
  width : N;
  height : N;
  getpixel : Z -> Z -> pixel
}.

(** [image.size] *)
Definition size (im : image) : Z * Z :=
  (Z.of_N (width im), Z.of_N (height im)).

Definition in_bounds (im : image) (x y : Z) : bool :=
  (0 <=? x) && (x <? Z.of_N (width im)) &&
  (0 <=? y) && (y <? Z.of_N (height im)).

(** Two images hold the same picture when mode, size and every pixel
    inside the size agree. *)
Definition same_picture (a b : image) : Prop :=
  mode a = mode b /\ size a = size b /\
  forall x y, in_bounds a x y = true -> getpixel a x y = getpixel b x y.

(** The module constants [getattr(Image, name)] can find for the
    processors. *)
Inductive transpose_method : Type :=
| FLIP_LEFT_RIGHT
| FLIP_TOP_BOTTOM
| ROTATE_90
| ROTATE_180
| ROTATE_270.

Definition getattr (name : string) : result transpose_method :=
  if String.eqb name "FLIP_LEFT_RIGHT" then Ok FLIP_LEFT_RIGHT
  else if String.eqb name "FLIP_TOP_BOTTOM" then Ok FLIP_TOP_BOTTOM
  else if String.eqb name "ROTATE_90" then Ok ROTATE_90
  else if String.eqb name "ROTATE_180" then Ok ROTATE_180
  else if String.eqb name "ROTATE_270" then Ok ROTATE_270
  else Raise Py.AttributeError.

(** [image.transpose(method)]: exact, no resampling. *)
Definition transpose (im : image) (m : transpose_method) : image :=
  let w := Z.of_N (width im) in
  let h := Z.of_N (height im) in
  match m with
  | FLIP_LEFT_RIGHT =>
      mk_image (mode im) (width im) (height im)
        (fun x y => getpixel im (w - 1 - x) y)
  | FLIP_TOP_BOTTOM =>
      mk_image (mode im) (width im) (height im)
        (fun x y => getpixel im x (h - 1 - y))
  | ROTATE_90 =>
      mk_image (mode im) (height im) (width im)
        (fun x y => getpixel im (w - 1 - y) x)
  | ROTATE_180 =>
      mk_image (mode im) (width im) (height im)
        (fun x y => getpixel im (w - 1 - x) (h - 1 - y))
  | ROTATE_270 =>
      mk_image (mode im) (height im) (width im)
        (fun x y => getpixel im y (h - 1 - x))
  end.

Definition bands (m : string) : nat :=
  if String.eqb m "RGB" then 3%nat
  else if String.eqb m "RGBA" then 4%nat
  else if String.eqb m "CMYK" then 4%nat
  else if String.eqb m "LA" then 2%nat
  else 1%nat.

Definition blank (m : string) : pixel := repeat 0 (bands m).

(** [image.crop((x0, y0, x1, y1))]: the region of the box; a box whose
    right or lower edge is before the left or upper one gives an empty
    region, and what lies outside the source is blank. *)
Definition crop (im : image) (box : Z * Z * Z * Z) : image :=
  let '(x0, y0, x1, y1) := box in
  mk_image (mode im) (Z.to_N (x1 - x0)) (Z.to_N (y1 - y0))
    (fun x y =>
       if in_bounds im (x + x0) (y + y0) then getpixel im (x + x0) (y + y0)
       else blank (mode im)).

(** A fill color as a caller writes it: a tuple or a list of integers. *)
Inductive color_seq : Type :=
| ColorTuple (components : list Z)
| ColorList (components : list Z).

Definition components (c : color_seq) : list Z :=
  match c with ColorTuple l | ColorList l => l end.

(** The range of a C [int], and the clipping of a band value to a byte. *)
Definition fits_int (z : Z) : bool := (- 2 ^ 31 <=? z) && (z <? 2 ^ 31).

Definition clip8 (z : Z) : Z :=
  if z <=? 0 then 0 else if z <? 256 then z else 255.

(** [Image.new(mode, size, color)] for a mode of four bands and a color
    given as a sequence, as the rotate operator calls it.  The ink is
    parsed from a tuple of three or four integers, the alpha being 255 when
    it is not given; a tuple of another length and a list are a
    [TypeError], and a component outside the range of a C [int] is an
    [OverflowError].  The shape is checked before the components. *)
Definition new (m : string) (sz : Z * Z) (color : color_seq)
    : result image :=
  match color with
  | ColorTuple l =>
      if (List.length l =? 3)%nat || (List.length l =? 4)%nat then
        if forallb fits_int l then
          let ink :=
            List.map clip8
              (if (List.length l =? 3)%nat then l ++ [255] else l) in
          Ok (mk_image m (Z.to_N (fst sz)) (Z.to_N (snd sz))
                (fun _ _ => ink))
        else Raise Py.OverflowError
      else Raise Py.TypeError
  | ColorList _ => Raise Py.TypeError
  end.

(** What PIL and libm compute by resampling or by approximation, and so
    is not determined by the repository: the pixel values of a resized,
    converted or composited image, the rotation by an angle that is not a
    quarter turn, and the two trigonometric functions. *)
Class Backend : Type := {
  resample : image -> Z * Z -> Z -> Z -> pixel;
  convert_pixels : image -> string -> Z -> Z -> pixel;
  composite_pixels : image -> image -> image -> Z -> Z -> pixel;
  rotate_bicubic : image -> Z -> bool -> image;
  libm_sin : float -> float;
  libm_cos : float -> float
}.

Section Primitives.
Context {B : Backend}.

(** [image.resize(size, Image.ANTIALIAS)] *)
Definition resize (im : image) (sz : Z * Z) : image :=
  mk_image (mode im) (Z.to_N (fst sz)) (Z.to_N (snd sz)) (resample im sz).

(** [image.convert(mode)] *)
Definition convert (im : image) (m : string) : image :=
  mk_image m (width im) (height im) (convert_pixels im m).

(** [Image.composite(image1, image2, mask)] *)
Definition composite (im1 im2 mask : image) : image :=
  mk_image (mode im1) (width im1) (height im1)
    (composite_pixels im1 im2 mask).

(** [image.rotate(degrees, Image.BICUBIC, expand)] *)
Definition rotate (im : image) (degrees : Z) (expand : bool) : image :=
  rotate_bicubic im degrees expand.

(** [math.sin] and [math.cos] raise on an infinite argument. *)
Definition math_sin (x : float) : result float :=
  if Py.is_inf x then Raise Py.ValueError else Ok (libm_sin x).

Definition math_cos (x : float) : result float :=
  if Py.is_inf x then Raise Py.ValueError else Ok (libm_cos x).
End Primitives.

End PIL.

(* ================================================================== *)
(** ** multires/processors.py *)
(* ================================================================== *)

Module processors.
Import PIL.

(** *** AnchorCropProcessorMixin *)

(** [AnchorCropProcessorMixin.get_crop_box(image, width, height, anchor)] *)
Definition get_crop_box (image : image) (width height : Z) (anchor : string)
    : result (Z * Z * Z * Z) :=
  let '(w, h) := size image in
  let width := if width >? w then w else width in
  let height := if height >? h then h else height in
  cw <- Py.mul (Int w) (Float Py.f0_5) ;;
  center0 <- Py.int cw ;;
  ch <- Py.mul (Int h) (Float Py.f0_5) ;;
  center1 <- Py.int ch ;;
  let centered_x :=
    hw <- Py.mul (Int width) (Float Py.f0_5) ;;
    d <- Py.sub (Int center0) hw ;;
    Py.int d in
  let centered_y :=
    hh <- Py.mul (Int height) (Float Py.f0_5) ;;
    d <- Py.sub (Int center1) hh ;;
    Py.int d in
  '(x1, y1) <-
    (if Py.str_in anchor ["center"; "crop"; "fill"]%string then
       x1 <- centered_x ;; y1 <- centered_y ;; Ok (x1, y1)
     else if String.eqb anchor "top" then
       x1 <- centered_x ;; Ok (x1, 0)
     else if String.eqb anchor "left" then
       y1 <- centered_y ;; Ok (0, y1)
     else if String.eqb anchor "right" then
       y1 <- centered_y ;; Ok (w - width, y1)
     else if String.eqb anchor "bottom" then
       x1 <- centered_x ;; Ok (x1, h - height)
     else Raise Py.ValueError) ;;
  let x2 := x1 + width in
  let y2 := y1 + height in
  Ok (x1, y1, x2, y2).

(** *** CropProcessor *)

(** A crop box is a list or a tuple whose items are numbers or [None]. *)
Inductive sequence : Type :=
| PyList (items : list (option num))
| PyTuple (items : list (option num)).

Definition items (s : sequence) : list (option num) :=
  match s with PyList l => l | PyTuple l => l end.

Record crop_options : Type := {
  crop_box : option sequence;
  crop_percent : bool
}.

(** [DEFAULTS] of [CropProcessor]. *)
Definition crop_defaults : crop_options :=
  {| crop_box := None; crop_percent := true |}.

(** The loop [for i, v in enumerate(crop_box): if v is None:
    crop_box[i] = 0]; item assignment is a [TypeError] on a tuple. *)
Definition fill_missing (s : sequence) : result (list num) :=
  match s with
  | PyList l =>
      Ok (map (fun v => match v with Some x => x | None => Int 0 end) l)
  | PyTuple l =>
      if forallb (fun v => match v with Some _ => true | None => false end) l
      then Ok (map (fun v => match v with Some x => x | None => Int 0 end) l)
      else Raise Py.TypeError
  end.

(** [crop_box[i]] *)
Definition index (l : list num) (i : nat) : result num :=
  match nth_error l i with
  | Some x => Ok x
  | None => Raise Py.IndexError
  end.

(** [CropProcessor.get_crop_box()], for an image of the given input size. *)
Definition crop_get_crop_box (options : crop_options)
    (input_width input_height : Z) : result (Z * Z * Z * Z) :=
  let crop_box :=
    match crop_box options with
    | Some s => if Py.truthy_list (items s) then s
                else PyList (repeat None 4)
    | None => PyList (repeat None 4)
    end in
  crop_box <- fill_missing crop_box ;;
  '(a, b, c, d) <-
    (if crop_percent options then
       (* crop_box[0] / 100. * self.input_width *)
       c0 <- index crop_box 0 ;;
       q0 <- Py.div c0 (Float Py.f100) ;;
       a <- Py.mul q0 (Int input_width) ;;
       c1 <- index crop_box 1 ;;
       q1 <- Py.div c1 (Float Py.f100) ;;
       b <- Py.mul q1 (Int input_height) ;;
       (* self.input_width - crop_box[2] / 100. * self.input_width *)
       c2 <- index crop_box 2 ;;
       q2 <- Py.div c2 (Float Py.f100) ;;
       p2 <- Py.mul q2 (Int input_width) ;;
       c <- Py.sub (Int input_width) p2 ;;
       c3 <- index crop_box 3 ;;
       q3 <- Py.div c3 (Float Py.f100) ;;
       p3 <- Py.mul q3 (Int input_height) ;;
       d <- Py.sub (Int input_height) p3 ;;
       Ok (a, b, c, d)
     else
       a <- index crop_box 0 ;;
       b <- index crop_box 1 ;;
       c2 <- index crop_box 2 ;;
       c <- Py.sub (Int input_width) c2 ;;
       c3 <- index crop_box 3 ;;
       d <- Py.sub (Int input_height) c3 ;;
       Ok (a, b, c, d)) ;;
  (* crop_box = map(int, crop_box) *)
  x1 <- Py.int a ;;
  y1 <- Py.int b ;;
  x2 <- Py.int c ;;
  y2 <- Py.int d ;;
  Ok (x1, y1, x2, y2).

(** [crop_processor(image, **options)]: [prep], [pre], [process], [post]. *)
Definition crop_processor (image : image) (options : crop_options)
    : result PIL.image :=
  let '(input_width, input_height) := size image in
  box <- crop_get_crop_box options input_width input_height ;;
  Ok (crop image box).

(** *** FlipProcessor *)

Record flip_options : Type := {
  flip : string
}.

Definition flip_defaults : flip_options := {| flip := "" |}.

(** [flip_processor(image, **options)] *)
Definition flip_processor (image : image) (options : flip_options)
    : result PIL.image :=
  if negb (Py.truthy_str (flip options)) then Ok image
  else
    let method :=
      if Py.str_in (flip options) ["x"; "h"]%string then FLIP_LEFT_RIGHT
      else FLIP_TOP_BOTTOM in
    Ok (transpose image method).

(** *** ResizeProcessor *)

Record resize_options : Type := {
  width : option Z;
  height : option Z;
  fit : string;
  upscale : bool
}.

Definition resize_defaults : resize_options :=
  {| width := None; height := None; fit := "fit"; upscale := false |}.

(** The state [ResizeProcessor.prep] leaves on the instance: the options
    with [width] and [height] settled, and the input size. *)
Record resize_state : Type := {
  rs_width : Z;
  rs_height : Z;
  rs_fit : string;
  rs_upscale : bool;
  rs_input_size : Z * Z
}.

(** [ResizeProcessor.prep(image, options)] *)
Definition resize_prep (image : image) (options : resize_options)
    : resize_state :=
  let '(input_width, input_height) := size image in
  {| rs_width := Py.int_or (width options) input_width;
     rs_height := Py.int_or (height options) input_height;
     rs_fit := fit options;
     rs_upscale := upscale options;
     rs_input_size := size image |}.

(** The two assignments of the branches that enlarge the image. *)
Definition widen (aspect_ratio box_width : num) (wh : num * num)
    : result (num * num) :=
  if Py.lt (fst wh) box_width then
    height <- Py.div box_width aspect_ratio ;;
    Ok (box_width, height)
  else Ok wh.

Definition heighten (aspect_ratio box_height : num) (wh : num * num)
    : result (num * num) :=
  if Py.lt (snd wh) box_height then
    width <- Py.mul box_height aspect_ratio ;;
    Ok (width, box_height)
  else Ok wh.

(** The two assignments of the branches that fit the image into the
    bounding box. *)
Definition narrow (box_width : num) (wh : num * num)
    : result (num * num) :=
  if Py.gt (fst wh) box_width then
    p <- Py.mul (snd wh) box_width ;;
    q <- Py.div p (fst wh) ;;
    height <- Py.int (Py.max q (Int 1)) ;;
    width <- Py.int box_width ;;
    Ok (Int width, Int height)
  else Ok wh.

Definition shorten (box_height : num) (wh : num * num)
    : result (num * num) :=
  if Py.gt (snd wh) box_height then
    p <- Py.mul (fst wh) box_height ;;
    q <- Py.div p (snd wh) ;;
    width <- Py.int (Py.max q (Int 1)) ;;
    height <- Py.int box_height ;;
    Ok (Int width, Int height)
  else Ok wh.

(** [ResizeProcessor.get_scaled_size()] *)
Definition get_scaled_size (self : resize_state) : result (Z * Z) :=
  width <- Py.to_float (Int (fst (rs_input_size self))) ;;
  height <- Py.to_float (Int (snd (rs_input_size self))) ;;
  box_width <- Py.to_float (Int (rs_width self)) ;;
  box_height <- Py.to_float (Int (rs_height self)) ;;
  let box_width := Float box_width in
  let box_height := Float box_height in
  aspect_ratio <- Py.div (Float width) (Float height) ;;
  let wh := (Float width, Float height) in
  (* upscale if necessary *)
  wh <- (if rs_upscale self then
           wh <- widen aspect_ratio box_width wh ;;
           heighten aspect_ratio box_height wh
         else Ok wh) ;;
  (* fit into bounding box *)
  wh <- narrow box_width wh ;;
  wh <- shorten box_height wh ;;
  (* enlarge for cropping *)
  wh <- (if negb (String.eqb (rs_fit self) "fit") then
           wh <- widen aspect_ratio box_width wh ;;
           heighten aspect_ratio box_height wh
         else Ok wh) ;;
  w <- Py.int_ceil (fst wh) ;;
  h <- Py.int_ceil (snd wh) ;;
  Ok (w, h).

Section WithBackend.
Context {B : Backend}.

(** [ResizeProcessor.process(image)] *)
Definition resize_process (self : resize_state) (image : image)
    : result PIL.image :=
  sz <- get_scaled_size self ;;
  let image := resize image sz in
  if negb (String.eqb (rs_fit self) "fit") then
    box <- get_crop_box image (rs_width self) (rs_height self)
             (rs_fit self) ;;
    Ok (crop image box)
  else Ok image.

(** [resize_processor(image, **options)] *)
Definition resize_processor (image : image) (options : resize_options)
    : result PIL.image :=
  resize_process (resize_prep image options) image.
End WithBackend.

(** *** RotateProcessor *)

Record rotate_options : Type := {
  degrees : Z;
  extend : bool;
  color : option color_seq;
  preserve_transparency : bool;
  (* RotateCropProcessor only *)
  crop_mode : string
}.

(** [DEFAULTS] of [RotateProcessor], with the [crop_mode] that
    [RotateCropProcessor] adds. *)
Definition rotate_defaults : rotate_options :=
  {| degrees := 0; extend := true; color := None;
     preserve_transparency := true; crop_mode := "aspect_ratio" |}.

(** The instance after [prep]: the options, [options.transposable], and
    the input size. *)
Record rotate_state : Type := {
  options : rotate_options;
  transposable : bool;
  input_size : Z * Z
}.

(** [RotateProcessor.prep(image, options)] *)
Definition rotate_prep (image : image) (opts : rotate_options)
    : rotate_state :=
  {| options := opts;
     transposable := (degrees opts mod 90 =? 0);
     input_size := size image |}.

Definition truthy_color (c : option color_seq) : bool :=
  match c with Some l => Py.truthy_list (components l) | None => false end.

(** [self.options.color[3] == 255] *)
Definition alpha_is_opaque (c : option color_seq) : result bool :=
  match c with
  | Some l =>
      match nth_error (components l) 3 with
      | Some a => Ok (a =? 255)
      | None => Raise Py.IndexError
      end
  | None => Raise Py.TypeError
  end.

(** [RotateCropProcessor.prep(image, options)] *)
Definition rotate_crop_prep (image : image) (opts : rotate_options)
    : rotate_state :=
  let self := rotate_prep image opts in
  {| options :=
       {| degrees := degrees (options self);
          extend := true;
          color := None;
          preserve_transparency := preserve_transparency (options self);
          crop_mode := crop_mode (options self) |};
     transposable := transposable self;
     input_size := input_size self |}.

Section WithBackend.
Context {B : Backend}.

(** [RotateProcessor.process(image)] *)
Definition rotate_process (self : rotate_state) (image : image)
    : result PIL.image :=
  let o := options self in
  if transposable self then
    if degrees o =? 0 then Ok image
    else
      method <- getattr ("ROTATE_" ++ Py.format_int (degrees o)) ;;
      Ok (transpose image method)
  else if truthy_color (color o) then
    let original_mode := mode image in
    let image := convert image "RGBA" in
    let rotated := rotate image (degrees o) (extend o) in
    background <-
      new "RGBA" (size rotated)
        (match color o with Some c => c | None => ColorTuple [] end) ;;
    let image := composite rotated background rotated in
    back <- (if negb (preserve_transparency o) then Ok true
             else alpha_is_opaque (color o)) ;;
    if back then Ok (convert image original_mode) else Ok image
  else
    Ok (rotate image (degrees o) (extend o)).

(** [rotate_processor(image, **options)] *)
Definition rotate_processor (image : image) (opts : rotate_options)
    : result PIL.image :=
  rotate_process (rotate_prep image opts) image.

(** [RotateCropProcessor.get_rotated_rect_aspect_ratio(rotated)] *)
Definition get_rotated_rect_aspect_ratio (self : rotate_state)
    (rotated : image) : result (Z * Z) :=
  let '(input_width, input_height) := input_size self in
  fw <- Py.to_float (Int input_width) ;;
  aspect_ratio <- Py.div (Float fw) (Int input_height) ;;
  fr <- Py.to_float (Int (fst (size rotated))) ;;
  rotated_aspect_ratio <- Py.div (Float fr) (Int (snd (size rotated))) ;;
  fd <- Py.math_fabs (Int (degrees (options self))) ;;
  a <- Py.mul (Float fd) (Float Py.math_pi) ;;
  angle <- Py.div a (Int 180) ;;
  angle <- Py.to_float angle ;;
  total_height <-
    (if Py.lt aspect_ratio (Int 1) then
       fw <- Py.to_float (Int input_width) ;;
       Py.div (Float fw) rotated_aspect_ratio
     else
       fh <- Py.to_float (Int input_height) ;;
       Ok (Float fh)) ;;
  sin_angle <- math_sin angle ;;
  p <- Py.mul aspect_ratio (Float sin_angle) ;;
  cos_angle <- math_cos angle ;;
  den <- Py.add p (Float cos_angle) ;;
  h <- Py.div total_height den ;;
  w <- Py.mul h aspect_ratio ;;
  wi <- Py.int w ;;
  hi <- Py.int h ;;
  Ok (wi, hi).

(** The part of [get_rotated_rect_max_area] below the computation of
    [sin_a] and [cos_a]. *)
Definition max_area_of (input_width input_height : Z)
    (sin_a cos_a : float) : result (Z * Z) :=
  let width_is_longer := input_width >=? input_height in
  let '(side_long, side_short) :=
    if width_is_longer then (input_width, input_height)
    else (input_height, input_width) in
  t <- Py.mul (Float Py.f2) (Float sin_a) ;;
  t <- Py.mul t (Float cos_a) ;;
  t <- Py.mul t (Int side_long) ;;
  '(wr, hr) <-
    (if Py.le (Int side_short) t then
       x <- Py.mul (Float Py.f0_5) (Int side_short) ;;
       if width_is_longer then
         wr <- Py.div x (Float sin_a) ;;
         hr <- Py.div x (Float cos_a) ;;
         Ok (wr, hr)
       else
         wr <- Py.div x (Float cos_a) ;;
         hr <- Py.div x (Float sin_a) ;;
         Ok (wr, hr)
     else
       cc <- Py.mul (Float cos_a) (Float cos_a) ;;
       ss <- Py.mul (Float sin_a) (Float sin_a) ;;
       cos_2a <- Py.sub cc ss ;;
       wc <- Py.mul (Int input_width) (Float cos_a) ;;
       hs <- Py.mul (Int input_height) (Float sin_a) ;;
       wn <- Py.sub wc hs ;;
       wr <- Py.div wn cos_2a ;;
       hc <- Py.mul (Int input_height) (Float cos_a) ;;
       ws <- Py.mul (Int input_width) (Float sin_a) ;;
       hn <- Py.sub hc ws ;;
       hr <- Py.div hn cos_2a ;;
       Ok (wr, hr)) ;;
  wi <- Py.int wr ;;
  hi <- Py.int hr ;;
  Ok (wi, hi).

(** [self.options.degrees * math.pi / 180] *)
Definition radians (degrees : Z) : result float :=
  a <- Py.mul (Int degrees) (Float Py.math_pi) ;;
  angle <- Py.div a (Int 180) ;;
  Py.to_float angle.

(** [RotateCropProcessor.get_rotated_rect_max_area(rotated)] *)
Definition get_rotated_rect_max_area (self : rotate_state)
    (rotated : image) : result (Z * Z) :=
  let '(input_width, input_height) := input_size self in
  if (input_width <=? 0) || (input_height <=? 0) then Ok (0, 0)
  else
    angle <- radians (degrees (options self)) ;;
    s <- math_sin angle ;;
    c <- math_cos angle ;;
    max_area_of input_width input_height (Py.fabs s) (Py.fabs c).

(** [getattr(self, 'get_rotated_rect_{0}'.format(crop_mode))] *)
Definition get_rotated_rect (self : rotate_state) (rotated : image)
    : result (Z * Z) :=
  let name := ("get_rotated_rect_" ++ crop_mode (options self))%string in
  if String.eqb name "get_rotated_rect_aspect_ratio" then
    get_rotated_rect_aspect_ratio self rotated
  else if String.eqb name "get_rotated_rect_max_area" then
    get_rotated_rect_max_area self rotated
  else Raise Py.AttributeError.

(** [RotateCropProcessor.process(image)] *)
Definition rotate_crop_process (self : rotate_state) (image : image)
    : result PIL.image :=
  rotated <- rotate_process self image ;;
  if transposable self then Ok rotated
  else
    '(w, h) <- get_rotated_rect self rotated ;;
    crop_box <- get_crop_box rotated w h "center" ;;
    Ok (crop rotated crop_box).

(** [rotate_crop_processor(image, **options)] *)
Definition rotate_crop_processor (image : image) (opts : rotate_options)
    : result PIL.image :=
  rotate_crop_process (rotate_crop_prep image opts) image.
End WithBackend.

End processors.

(* ================================================================== *)
(** ** multires/engines.py *)
(* ================================================================== *)

Module engines.
Import PIL.

(** The fields of [MultiresRecipe] the engine reads. *)
Record recipe : Type := {
  flip : string;
  rotate : option Z;
  rotate_crop : string;
  rotate_color : color_seq;
  crop : option processors.sequence;
  width : option Z;
  height : option Z;
  upscale : bool;
  fit : string;
  file_type : string;
  quality : option Z
}.

(** What [save] hands to PIL: the [ContentFile] name and the arguments of
    [image.save(fid, format=file_type, **save_kwargs)]. *)
Record content_file : Type := {
  name : string;
  format : string;
  save_kwargs : list (string * Z);
  saved : image
}.

(** [DefaultEngine.FILE_TYPE_EXT_MAPPING.get(file_type, file_type)] *)
Definition file_type_ext (file_type : string) : string :=
  if String.eqb file_type "jpeg" then "jpg"
  else if String.eqb file_type "png" then "png"
  else file_type.

Definition truthy_crop (c : option processors.sequence) : bool :=
  match c with
  | Some s => Py.truthy_list (processors.items s)
  | None => false
  end.

Section WithBackend.
Context {B : Backend}.

(** [DefaultEngine.process(image)] *)
Definition process (self : recipe) (image : image) : result PIL.image :=
  image <-
    (if Py.truthy_str (flip self) then
       processors.flip_processor image
         {| processors.flip := flip self |}
     else Ok image) ;;
  image <-
    (match rotate self with
     | Some d =>
         if Py.truthy_int (Some d) then
           let rotate_kwargs crop_mode :=
             {| processors.degrees := d;
                processors.extend :=
                  processors.extend processors.rotate_defaults;
                processors.color :=
                  if Py.truthy_list (components (rotate_color self))
                  then Some (rotate_color self) else None;
                processors.preserve_transparency := false;
                processors.crop_mode := crop_mode |} in
           if negb (Py.truthy_str (rotate_crop self)) then
             processors.rotate_processor image
               (rotate_kwargs
                  (processors.crop_mode processors.rotate_defaults))
           else
             processors.rotate_crop_processor image
               (rotate_kwargs (rotate_crop self))
         else Ok image
     | None => Ok image
     end) ;;
  image <-
    (if truthy_crop (crop self) then
       processors.crop_processor image
         {| processors.crop_box := crop self;
            processors.crop_percent :=
              processors.crop_percent processors.crop_defaults |}
     else Ok image) ;;
  image <-
    (if Py.truthy_int (width self) || Py.truthy_int (height self) then
       processors.resize_processor image
         {| processors.width :=
              Some (Py.int_or (width self) (fst (size image)));
            processors.height :=
              Some (Py.int_or (height self) (snd (size image)));
            processors.fit := fit self;
            processors.upscale := upscale self |}
     else Ok image) ;;
  Ok image.

(** [BaseEngine.full_process(image)]: the [pre] and [post] hooks are the
    identity. *)
Definition full_process (self : recipe) (image : image)
    : result PIL.image :=
  process self image.

(** [DefaultEngine.save(image)] *)
Definition save (self : recipe) (image : image) : content_file :=
  let file_type := file_type self in
  let name := ("." ++ file_type_ext file_type)%string in
  let save_kwargs :=
    match quality self with
    | Some q =>
        if Py.str_in file_type ["jpeg"]%string && Py.truthy_int (Some q)
        then [("quality"%string, q)]
        else []
    | None => []
    end in
  (* normalize mode *)
  let image :=
    if String.eqb file_type "jpeg" then
      if negb (Py.str_in (mode image) ["RGB"; "RGBA"]%string)
      then convert image "RGB"
      else image
    else image in
  {| name := name; format := file_type; save_kwargs := save_kwargs;
     saved := image |}.

(** [BaseEngine.__call__(image, recipe)] *)
Definition call (image : image) (recipe : recipe) : result content_file :=
  image <- full_process recipe image ;;
  Ok (save recipe image).
End WithBackend.

End engines.

(* ================================================================== *)
(** ** multires/utils.py *)
(* ================================================================== *)

Module utils.

(** The Python values [AttrDict] tells apart: dictionaries (plain, or
    already an [AttrDict]), lists, tuples, and everything else. *)
#[local] Unset Elimination Schemes.
Inductive value : Type :=
| VAtom (repr : string)
| VDict (attr : bool) (entries : list (string * value))
| VList (items : list value)
| VTuple (items : list value).
#[local] Set Elimination Schemes.

(** The body of the loop of [AttrDict._convert(root, items)] for one item
    [v] of [root]: what [root] holds at that key afterwards.  A dictionary
    is replaced by [AttrDict(v)], which is built first and then assigned,
    and the assignment [root[k] = ...] is a [TypeError] when [root] is a
    tuple; a list or a tuple is converted in place. *)
Fixpoint convert_item (assignable : bool) (v : value) : result value :=
  match v with
  | VAtom _ => Ok v
  | VDict _ entries =>
      entries' <-
        (fix convert_entries (es : list (string * value))
             : result (list (string * value)) :=
           match es with
           | [] => Ok []
           | (k, x) :: rest =>
               x' <- convert_item true x ;;
               rest' <- convert_entries rest ;;
               Ok ((k, x') :: rest')
           end) entries ;;
      if assignable then Ok (VDict true entries') else Raise Py.TypeError
  | VList items =>
      items' <-
        (fix convert_items (l : list value) : result (list value) :=
           match l with
           | [] => Ok []
           | x :: rest =>
               x' <- convert_item true x ;;
               rest' <- convert_items rest ;;
               Ok (x' :: rest')
           end) items ;;
      Ok (VList items')
  | VTuple items =>
      items' <-
        (fix convert_items (l : list value) : result (list value) :=
           match l with
           | [] => Ok []
           | x :: rest =>
               x' <- convert_item false x ;;
               rest' <- convert_items rest ;;
               Ok (x' :: rest')
           end) items ;;
      Ok (VTuple items')
  end.

(** [AttrDict(data)] *)
Definition AttrDict (data : list (string * value)) : result value :=
  convert_item true (VDict false data).

(** The value an [AttrDict] holds at [key], which [d[key]] and, the
    instance dictionary being the mapping itself, [d.key] both give. *)
Definition entry (v : value) (key : string) : option value :=
  match v with
  | VDict true entries =>
      option_map snd (find (fun kv => String.eqb (fst kv) key) entries)
  | _ => None
  end.

Definition is_dict (v : value) : bool :=
  match v with VDict _ _ => true | _ => false end.

(** Some tuple inside [v] has a dictionary among its items. *)
Fixpoint tuple_holds_dict (v : value) : bool :=
  match v with
  | VAtom _ => false
  | VDict _ entries => existsb (fun kv => tuple_holds_dict (snd kv)) entries
  | VList items => existsb tuple_holds_dict items
  | VTuple items =>
      existsb (fun x => is_dict x || tuple_holds_dict x) items
  end.

(** [v] with every dictionary in it an [AttrDict]. *)
Fixpoint marked (v : value) : value :=
  match v with
  | VAtom _ => v
  | VDict _ entries =>
      VDict true (map (fun kv => (fst kv, marked (snd kv))) entries)
  | VList items => VList (map marked items)
  | VTuple items => VTuple (map marked items)
  end.

(** Induction on a value, through the lists it nests. *)
Section ValueInduction.
Variable P : value -> Prop.
Hypothesis Hatom : forall repr, P (VAtom repr).
Hypothesis Hdict :
  forall attr entries,
    Forall (fun kv => P (snd kv)) entries -> P (VDict attr entries).
Hypothesis Hlist :
  forall items, Forall P items -> P (VList items).
Hypothesis Htuple :
  forall items, Forall P items -> P (VTuple items).

Fixpoint value_induction (v : value) : P v :=
  match v with
  | VAtom repr => Hatom repr
  | VDict attr entries =>
      Hdict attr entries
        ((fix go (es : list (string * value))
            : Forall (fun kv => P (snd kv)) es :=
            match es with
            | [] => Forall_nil _
            | kv :: rest =>
                Forall_cons kv
                  (match kv as kv0 return P (snd kv0) with
                   | (_, x) => value_induction x
                   end)
                  (go rest)
            end) entries)
  | VList items =>
      Hlist items
        ((fix go (l : list value) : Forall P l :=
            match l with
            | [] => Forall_nil _
            | x :: rest => Forall_cons x (value_induction x) (go rest)
            end) items)
  | VTuple items =>
      Htuple items
        ((fix go (l : list value) : Forall P l :=
            match l with
            | [] => Forall_nil _
            | x :: rest => Forall_cons x (value_induction x) (go rest)
            end) items)
  end.
End ValueInduction.

End utils.

(* ================================================================== *)
(** ** multires/fields.py *)
(* ================================================================== *)

Module fields.

(** [s.split(sep)] for a separator of one character, as its first piece
    and the pieces after it: the result of [split] is never empty. *)
Fixpoint split (sep : ascii) (s : string) : string * list string :=
  match s with
  | EmptyString => (EmptyString, [])
  | String c rest =>
      let '(piece, pieces) := split sep rest in
      if Ascii.eqb c sep then (EmptyString, piece :: pieces)
      else (String c piece, pieces)
  end.

(** [s.split(sep)[-1]] *)
Definition last_piece (sep : ascii) (s : string) : string :=
  let '(piece, pieces) := split sep s in last pieces piece.

Definition startswith (c : ascii) (s : string) : bool :=
  match s with
  | String c' _ => Ascii.eqb c' c
  | EmptyString => false
  end.

Fixpoint endswith (c : ascii) (s : string) : bool :=
  match s with
  | EmptyString => false
  | String c' EmptyString => Ascii.eqb c' c
  | String _ rest => endswith c rest
  end.

(** [os.path.join(a, b)] of [posixpath] *)
Definition os_path_join (a b : string) : string :=
  if startswith "/" b then b
  else if String.eqb a "" || endswith "/" a then a ++ b
  else a ++ "/" ++ b.

(** The handler [f(instance, filename)] that
    [LazyMultiresImageField.random_upload_to(path)] returns.  [lazy_entropy]
    is [getattr(settings, 'MULTIRES_LAZY_ENTROPY', True)], [instance] gives
    the text of an attribute of the model instance when it has one, and
    [fresh] is the text of [uuid4().hex]. *)
Definition upload_to (path : string) (uuid_field : option string)
    (lazy_entropy : bool) (instance : string -> option string)
    (fresh : string) (filename : string) : result string :=
  let ext := last_piece "." filename in
  uuid <-
    (if lazy_entropy then
       match uuid_field with
       | Some field =>
           Ok (match instance field with Some u => u | None => fresh end)
       | None => Raise Py.TypeError
       end
     else Ok fresh) ;;
  let filename := (uuid ++ "." ++ ext)%string in
  Ok (os_path_join path filename).

(** [c in s] *)
Fixpoint contains (c : ascii) (s : string) : bool :=
  match s with
  | EmptyString => false
  | String c' rest => Ascii.eqb c' c || contains c rest
  end.

End fields.

(* ================================================================== *)
(** ** The end-to-end scenario *)
(* ================================================================== *)

Section Scenario.
Context {B : PIL.Backend}.

Definition scenario_recipe : engines.recipe :=
  {| engines.flip := "";
     engines.rotate := Some 90;
     engines.rotate_crop := "";
     engines.rotate_color := PIL.ColorList [];
     engines.crop := None;
     engines.width := Some 50;
     engines.height := Some 50;
     engines.upscale := false;
     engines.fit := "fit";
     engines.file_type := "jpeg";
     engines.quality := Some 80 |}.

Definition scenario_source (pixels : Z -> Z -> PIL.pixel) : PIL.image :=
  PIL.mk_image "RGB" 200 100 pixels.
End Scenario.

(* ================================================================== *)
(** ** A sample backend

    One concrete choice of the external primitives, to run the pipeline on
    inputs that leave the exact paths: nearest-neighbour resampling, a
    rotation that computes the extended canvas, and polynomial sine and
    cosine. *)
(* ================================================================== *)

Module sample.
Import PIL.

Definition fdiv_int (x : float) (n : Z) : float :=
  Py.fquo x (binary_normalize Py.prec Py.emax n 0 false).

(** [1 - x2/a * rest] *)
Definition step (x2 : float) (a : Z) (rest : float) : float :=
  Py.fsub Py.f1 (Py.fmul (fdiv_int x2 a) rest).

Definition poly_sin (x : float) : float :=
  let x2 := Py.fmul x x in
  Py.fmul x
    (step x2 6 (step x2 20 (step x2 42 (step x2 72 (step x2 110
      (step x2 156 (step x2 210 Py.f1))))))).

Definition poly_cos (x : float) : float :=
  let x2 := Py.fmul x x in
  step x2 2 (step x2 12 (step x2 30 (step x2 56 (step x2 90
    (step x2 132 (step x2 182 Py.f1)))))).

Definition nearest (im : image) (sz : Z * Z) (x y : Z) : pixel :=
  getpixel im (x * Z.of_N (width im) / Z.max 1 (fst sz))
              (y * Z.of_N (height im) / Z.max 1 (snd sz)).

Definition rebanded (im : image) (m : string) (x y : Z) : pixel :=
  firstn (bands m) (getpixel im x y ++ repeat 255 4).

Definition masked (im1 im2 mask : image) (x y : Z) : pixel :=
  match nth_error (getpixel mask x y) 3 with
  | Some 0 => getpixel im2 x y
  | _ => getpixel im1 x y
  end.

(** The canvas that holds the image turned by [degrees]:
    [w*|cos| + h*|sin|] by [w*|sin| + h*|cos|], rounded up. *)
Definition extended_size (w h degrees : Z) : result (Z * Z) :=
  a <- Py.mul (Int degrees) (Float Py.math_pi) ;;
  angle <- Py.div a (Int 180) ;;
  angle <- Py.to_float angle ;;
  let s := Float (Py.fabs (poly_sin angle)) in
  let c := Float (Py.fabs (poly_cos angle)) in
  wc <- Py.mul (Int w) c ;;
  hs <- Py.mul (Int h) s ;;
  ws <- Py.mul (Int w) s ;;
  hc <- Py.mul (Int h) c ;;
  cw <- Py.add wc hs ;;
  ch <- Py.add ws hc ;;
  cw <- Py.int_ceil cw ;;
  ch <- Py.int_ceil ch ;;
  Ok (cw, ch).

Definition turned (im : image) (degrees : Z) (expand : bool) : image :=
  let '(w, h) := size im in
  let '(cw, ch) :=
    if expand then
      match extended_size w h degrees with
      | Ok sz => sz
      | Raise _ => (w, h)
      end
    else (w, h) in
  mk_image (mode im) (Z.to_N cw) (Z.to_N ch) (fun _ _ => blank (mode im)).

Definition backend : Backend :=
  {| resample := nearest;
     convert_pixels := rebanded;
     composite_pixels := masked;
     rotate_bicubic := turned;
     libm_sin := poly_sin;
     libm_cos := poly_cos |}.

Definition gray (w h : N) : image :=
  mk_image "L" w h (fun x y => [(x + y) mod 256]).

Definition rgb (w h : N) : image :=
  mk_image "RGB" w h (fun x y => [x mod 256; y mod 256; 0]).

(** Options for the sample calls. *)
Definition turn_30_max_area : processors.rotate_options :=
  {| processors.degrees := 30;
     processors.extend := false;
     processors.color := Some (ColorTuple [0; 0; 0; 255]);
     processors.preserve_transparency := true;
     processors.crop_mode := "max_area" |}.

Definition turn_by (d : Z) : processors.rotate_options :=
  {| processors.degrees := d;
     processors.extend := true;
     processors.color := None;
     processors.preserve_transparency := true;
     processors.crop_mode := "aspect_ratio" |}.

Definition box_of (w h : option Z) (fit : string) : processors.resize_options :=
  {| processors.width := w; processors.height := h;
     processors.fit := fit; processors.upscale := false |}.

(** Recipes for the sample runs of the engine. *)
Definition fill_png_recipe : engines.recipe :=
  {| engines.flip := "y";
     engines.rotate := Some 30;
     engines.rotate_crop := "";
     engines.rotate_color := ColorTuple [255; 255; 255; 0];
     engines.crop := None;
     engines.width := Some 10;
     engines.height := None;
     engines.upscale := false;
     engines.fit := "fit";
     engines.file_type := "png";
     engines.quality := None |}.

Definition width_only_recipe (W : Z) : engines.recipe :=
  {| engines.flip := "";
     engines.rotate := None;
     engines.rotate_crop := "";
     engines.rotate_color := PIL.ColorList [];
     engines.crop := None;
     engines.width := Some W;
     engines.height := None;
     engines.upscale := false;
     engines.fit := "fit";
     engines.file_type := "jpeg";
     engines.quality := None |}.

Definition turn_30_by_mode (crop_mode : string) : processors.rotate_options :=
  {| processors.degrees := 30;
     processors.extend := true;
     processors.color := None;
     processors.preserve_transparency := true;
     processors.crop_mode := crop_mode |}.

(** A nested dictionary, and one that holds a dictionary in a tuple. *)
Definition nested_options : list (string * utils.value) :=
  [("size"%string,
    utils.VDict false [("width"%string, utils.VAtom "50");
                       ("height"%string, utils.VAtom "50")]);
   ("steps"%string,
    utils.VList [utils.VDict false [("flip"%string, utils.VAtom "x")];
                 utils.VTuple [utils.VAtom "rotate"; utils.VAtom "90"]])].

Definition options_in_tuple : list (string * utils.value) :=
  [("steps"%string,
    utils.VTuple [utils.VDict false [("flip"%string, utils.VAtom "x")]])].

(** The attributes of a model instance that has a uuid. *)
Definition instance_with_uuid (field : string) : option string :=
  if String.eqb field "uuid" then Some "0f3a"%string else None.

End sample.

(* ================================================================== *)
(** ** Values of binary64 floats

    The vocabulary in which the properties below speak about floats: the
    value of a float as an integer number of units of [2 ^ -1074], so that
    comparisons, truncation and rounding are statements on integers. *)
(* ================================================================== *)

Module Binary64.
(** The value of a finite float, in units of [2 ^ -1074]. *)
Definition K : Z := 2 ^ 1074.

Definition V (f : float) : Z :=
  match f with
  | S754_finite s m e => Py.signed s m * 2 ^ (e + 1074)
  | _ => 0
  end.

(** A positive normal float whose exponent is within [k] of zero. *)
Definition normal (k : Z) (f : float) : Prop :=
  match f with
  | S754_finite false m e => Zpos (digits2_pos m) = 53 /\ - k <= e <= k
  | _ => False
  end.

(** A zero or a finite float that is not below the least exponent. *)
Definition finite (f : float) : Prop :=
  match f with
  | S754_zero _ => True
  | S754_finite _ _ e => -1074 <= e <= 971
  | _ => False
  end.

(** The values, in units of [2 ^ -1074], that a float can take. *)
Definition representable (z : Z) : Prop :=
  exists m e : Z, Z.abs m <= 2 ^ 53 /\ 0 <= e /\ z = m * 2 ^ e.

(** [r] is one of the two representable neighbours of the exact quotient
    [N / D], and is the quotient when that is representable. *)
Definition faithful (N D r : Z) : Prop :=
  representable r /\
  (forall z, representable z -> z * D <= N -> z <= r) /\
  (forall z, representable z -> N <= z * D -> r <= z).
End Binary64.

(** What the resize operator computes, on integers. *)
Module Resize.
Import Binary64.
(** [x] is the positive integer [n], as a Python integer or as the float
    of that value. *)
Definition denotes (n : Z) (x : num) : Prop :=
  x = Int n \/ exists f, x = Float f /\ normal 52 f /\ V f = n * K.

(** The scaled size of the fit mode, on integers. *)
Definition fit_size (w h W H : Z) : Z * Z :=
  let '(w1, h1) := if w >? W then (W, Z.max (h * W / w) 1) else (w, h) in
  if h1 >? H then (Z.max (w1 * H / h1) 1, H) else (w1, h1).
End Resize.

(** What the crop operator reads in a crop box: a missing item is a zero. *)
Module Crop.
Definition or_zero (v : option num) : option num :=
  match v with Some x => Some x | None => Some (Int 0) end.

(** [x] is the whole number of pixels in [percent] hundredths of [side],
    or, when these are a whole number of pixels and [percent] is neither 0
    nor 100, one pixel less. *)
Definition percent_pixels (percent side x : Z) : Prop :=
  x = percent * side / 100 \/
  (0 < percent < 100 /\ (percent * side) mod 100 = 0 /\
   x = percent * side / 100 - 1).
End Crop.

(* ================================================================== *)
(** ** Properties *)
(* ================================================================== *)

Import Binary64.
Import Resize.

(** *** Binary64: digits, shifts and rounding *)

(** Number of binary digits. *)
Lemma digits2_pos_log2 (p : positive) :
  Zpos (digits2_pos p) = Z.log2 (Zpos p) + 1.
Proof.
  induction p as [p IH|p IH|]; simpl digits2_pos.
  - rewrite Pos2Z.inj_succ, IH.
    change (Z.pos p~1) with (2 * Z.pos p + 1).
    rewrite Z.log2_succ_double by lia. lia.
  - rewrite Pos2Z.inj_succ, IH.
    change (Z.pos p~0) with (2 * Z.pos p).
    rewrite Z.log2_double by lia. lia.
  - reflexivity.
Qed.

Lemma digits2_pos_bounds (p : positive) :
  2 ^ (Zpos (digits2_pos p) - 1) <= Zpos p < 2 ^ Zpos (digits2_pos p).
Proof.
  rewrite digits2_pos_log2.
  replace (Z.log2 (Z.pos p) + 1 - 1) with (Z.log2 (Z.pos p)) by lia.
  pose proof (Z.log2_spec (Zpos p) ltac:(lia)) as H.
  replace (Z.succ (Z.log2 (Z.pos p))) with (Z.log2 (Z.pos p) + 1) in H by lia.
  exact H.
Qed.

Lemma digits2_pos_unique (p : positive) (d : Z) :
  2 ^ (d - 1) <= Zpos p < 2 ^ d -> Zpos (digits2_pos p) = d.
Proof.
  intros H. rewrite digits2_pos_log2.
  assert (0 < d).
  { destruct (Z.ltb_spec 0 d); [assumption|].
    assert (2 ^ d <= 2 ^ 0) by (apply Z.pow_le_mono_r; lia).
    simpl in H1. lia. }
  rewrite (Z.log2_unique (Zpos p) (d - 1)); try lia.
  replace (Z.succ (d - 1)) with d by lia. exact H.
Qed.

Lemma iter_pos_eq {A : Type} (f : A -> A) (p : positive) (x : A) :
  iter_pos f p x = Pos.iter f x p.
Proof.
  revert x. induction p as [p IH|p IH|]; intros x; simpl.
  - rewrite !IH. rewrite <- Pos.iter_swap. f_equal.
    now rewrite Pos.iter_swap.
  - now rewrite !IH.
  - reflexivity.
Qed.

Lemma pos_iter_xO (m k : positive) :
  Zpos (Pos.iter xO m k) = Zpos m * 2 ^ Zpos k.
Proof.
  induction k as [|k IH] using Pos.peano_ind.
  - simpl. lia.
  - rewrite Pos.iter_succ, Pos2Z.inj_succ, Z.pow_succ_r by lia.
    change (Z.pos (Pos.iter xO m k)~0) with (2 * Z.pos (Pos.iter xO m k)).
    rewrite IH. lia.
Qed.

(** One right shift of a non-negative mantissa. *)
Lemma shr_1_nonneg (m : Z) (r s : bool) :
  0 <= m ->
  shr_1 (Build_shr_record m r s) = Build_shr_record (m / 2) (Z.odd m) (r || s).
Proof.
  intros Hm. destruct m as [|p|p]; [reflexivity| |lia].
  destruct p as [p|p|]; simpl shr_1.
  - f_equal. rewrite Pos2Z.inj_xI.
    rewrite Z.mul_comm, Z.div_add_l by lia. simpl. lia.
  - f_equal. rewrite Pos2Z.inj_xO, Z.mul_comm.
    now rewrite Z.div_mul by lia.
  - reflexivity.
Qed.

Lemma shr_iter_m (m : Z) (r s : bool) (p : positive) :
  0 <= m ->
  shr_m (Pos.iter shr_1 (Build_shr_record m r s) p) = m / 2 ^ Zpos p.
Proof.
  intros Hm. induction p as [|p IH] using Pos.peano_ind.
  - cbn [Pos.iter]. rewrite shr_1_nonneg by assumption. reflexivity.
  - rewrite Pos.iter_succ.
    destruct (Pos.iter shr_1 (Build_shr_record m r s) p) as [m' r' s'] eqn:E.
    simpl in IH. subst m'.
    rewrite shr_1_nonneg by (apply Z.div_pos; lia). simpl shr_m.
    rewrite Pos2Z.inj_succ, Z.pow_succ_r by lia.
    rewrite Z.div_div by lia. f_equal. lia.
Qed.

Lemma shr_iter_exact (m : Z) (p : positive) :
  0 <= m -> m mod 2 ^ Zpos p = 0 ->
  Pos.iter shr_1 (Build_shr_record m false false) p
    = Build_shr_record (m / 2 ^ Zpos p) false false.
Proof.
  intros Hm. induction p as [|p IH] using Pos.peano_ind; intros Hmod.
  - cbn [Pos.iter]. rewrite shr_1_nonneg by assumption. f_equal.
    change (2 ^ 1) with 2 in Hmod.
    rewrite Zodd_mod, Hmod. reflexivity.
  - rewrite Pos.iter_succ.
    rewrite Pos2Z.inj_succ, Z.pow_succ_r in Hmod |- * by lia.
    assert (H2 : 0 < 2 ^ Z.pos p) by (apply Z.pow_pos_nonneg; lia).
    apply Z.mod_divide in Hmod; [|lia]. destruct Hmod as [k Hk].
    assert (Hp : m mod 2 ^ Z.pos p = 0).
    { apply Z.mod_divide; [lia|]. exists (k * 2). lia. }
    rewrite IH by assumption.
    rewrite shr_1_nonneg by (apply Z.div_pos; lia). f_equal.
    + rewrite Z.div_div by lia. f_equal. lia.
    + replace m with (2 * k * 2 ^ Z.pos p) by lia.
      rewrite Z.div_mul by lia.
      rewrite Z.odd_mul. reflexivity.
Qed.

Lemma fexp_normal (x : Z) :
  -1074 <= x - 53 -> fexp 53 1024 x = x - 53.
Proof. unfold fexp, emin. lia. Qed.

Lemma round_nearest_even_cases (m : Z) (l : location) :
  round_nearest_even m l = m \/ round_nearest_even m l = m + 1.
Proof.
  destruct l as [|[| |]]; simpl; auto.
  destruct (Z.even m); auto.
Qed.

(** A right shift by [n] of a located mantissa divides it by [2 ^ n], and
    keeps an exact location when no set bit is lost. *)
Lemma shr_spec (m : Z) (l : location) (e n : Z) :
  0 <= m -> 0 <= n ->
  exists mrs,
    shr (shr_record_of_loc m l) e n = (mrs, e + n) /\
    shr_m mrs = m / 2 ^ n /\
    (l = loc_Exact -> m mod 2 ^ n = 0 -> loc_of_shr_record mrs = loc_Exact).
Proof.
  intros Hm Hn. destruct n as [|p|p]; [| |lia].
  - exists (shr_record_of_loc m l). simpl shr.
    rewrite Z.add_0_r, Z.div_1_r. repeat split.
    + destruct l as [|[| |]]; reflexivity.
    + intros ->. reflexivity.
  - exists (Pos.iter shr_1 (shr_record_of_loc m l) p). simpl shr.
    rewrite iter_pos_eq. repeat split.
    + destruct l as [|[| |]]; simpl shr_record_of_loc;
        apply shr_iter_m; assumption.
    + intros -> Hmod. simpl shr_record_of_loc.
      rewrite shr_iter_exact by assumption. reflexivity.
Qed.

Lemma div_pow2_bounds (m d n : Z) :
  0 <= n -> n < d ->
  2 ^ (d - 1) <= m < 2 ^ d ->
  2 ^ (d - 1 - n) <= m / 2 ^ n < 2 ^ (d - n).
Proof.
  intros Hn Hd [Hlo Hhi].
  assert (Hp : 0 < 2 ^ n) by (apply Z.pow_pos_nonneg; lia).
  split.
  - apply Z.div_le_lower_bound; [lia|].
    rewrite <- Z.pow_add_r by lia.
    replace (n + (d - 1 - n)) with (d - 1) by lia. exact Hlo.
  - apply Z.div_lt_upper_bound; [lia|].
    rewrite <- Z.pow_add_r by lia.
    replace (n + (d - n)) with d by lia. exact Hhi.
Qed.

(** Rounding a located mantissa of at least 53 digits in the normal range:
    the result is a normal float whose mantissa, at the exponent of the
    truncated mantissa, is that mantissa or the next integer. *)
Lemma binary_round_aux_spec (s : bool) (p : positive) (ex : Z) (lx : location) :
  let n := Zpos (digits2_pos p) - 53 in
  let e1 := ex + n in
  0 <= n -> -1074 <= e1 <= 970 ->
  exists m e,
    binary_round_aux 53 1024 s (Zpos p) ex lx = S754_finite s m e /\
    Zpos (digits2_pos m) = 53 /\
    e1 <= e <= e1 + 1 /\
    (Zpos m * 2 ^ (e - e1) = Zpos p / 2 ^ n \/
     Zpos m * 2 ^ (e - e1) = Zpos p / 2 ^ n + 1) /\
    (lx = loc_Exact -> Zpos p mod 2 ^ n = 0 ->
     e = e1 /\ Zpos m = Zpos p / 2 ^ n).
Proof.
  intros n e1 Hn He1.
  unfold binary_round_aux, shr_fexp.
  cbn [Zdigits2].
  rewrite fexp_normal by (subst e1 n; lia).
  replace (Z.pos (digits2_pos p) + ex - 53 - ex) with n by (subst n; lia).
  destruct (shr_spec (Zpos p) lx ex n ltac:(lia) Hn) as (mrs & -> & Hm1 & Hex).
  fold e1.
  set (m1 := Zpos p / 2 ^ n) in *.
  assert (Hb : 2 ^ 52 <= m1 < 2 ^ 53).
  { pose proof (digits2_pos_bounds p) as Hd.
    pose proof (div_pow2_bounds (Zpos p) (Zpos (digits2_pos p)) n Hn
                  ltac:(subst n; lia) Hd) as Hq.
    replace (Z.pos (digits2_pos p) - 1 - n) with 52 in Hq by (subst n; lia).
    replace (Z.pos (digits2_pos p) - n) with 53 in Hq by (subst n; lia).
    exact Hq. }
  rewrite Hm1.
  set (m2 := round_nearest_even m1 (loc_of_shr_record mrs)).
  assert (Hm2 : m2 = m1 \/ m2 = m1 + 1) by apply round_nearest_even_cases.
  assert (Hexact : lx = loc_Exact -> Zpos p mod 2 ^ n = 0 -> m2 = m1).
  { intros Hl Hmod. subst m2. rewrite (Hex Hl Hmod). reflexivity. }
  clearbody m2. clear Hex Hm1 mrs.
  assert (Hpos : 0 < m2) by lia.
  destruct m2 as [|q|q]; try lia.
  destruct (Z.ltb_spec (Zpos q) (2 ^ 53)) as [Hlt|Hge].
  - (* the rounded mantissa still has 53 digits *)
    assert (Hdq : Zpos (digits2_pos q) = 53)
      by (apply digits2_pos_unique; simpl Z.sub; lia).
    cbn [Zdigits2]. rewrite Hdq.
    rewrite fexp_normal by lia.
    replace (53 + e1 - 53 - e1) with 0 by lia.
    cbn [shr shr_record_of_loc shr_m].
    replace (e1 <=? 1024 - 53) with true by (symmetry; apply Z.leb_le; lia).
    exists q, e1. rewrite Z.sub_diag, Z.mul_1_r.
    split; [reflexivity|]. split; [exact Hdq|]. split; [lia|].
    split; [exact Hm2|]. intros Hl Hmod. split; [reflexivity|].
    exact (Hexact Hl Hmod).
  - (* the mantissa was rounded up to 2 ^ 53 *)
    assert (Hq : Zpos q = 2 ^ 53) by lia.
    assert (Hdq : Zpos (digits2_pos q) = 54)
      by (apply digits2_pos_unique; rewrite Hq; simpl; lia).
    cbn [Zdigits2]. rewrite Hdq.
    rewrite fexp_normal by lia.
    replace (54 + e1 - 53 - e1) with 1 by lia.
    injection Hq as ->.
    cbn [shr shr_record_of_loc iter_pos shr_1 shr_m].
    replace (e1 + 1 <=? 1024 - 53) with true by (symmetry; apply Z.leb_le; lia).
    exists 4503599627370496%positive, (e1 + 1).
    split; [reflexivity|]. split; [reflexivity|]. split; [lia|].
    replace (e1 + 1 - e1) with 1 by lia.
    split.
    + right. destruct Hm2 as [E|E]; [lia|]. rewrite <- E. reflexivity.
    + intros Hl Hmod. specialize (Hexact Hl Hmod). lia.
Qed.

(** Between two consecutive multiples of [2 ^ g] of 53 digits there is no
    representable value. *)
Lemma representable_gap (z m1 g : Z) :
  representable z -> 2 ^ 52 <= m1 -> 0 <= g ->
  (m1 * 2 ^ g < z -> (m1 + 1) * 2 ^ g <= z) /\
  (z < (m1 + 1) * 2 ^ g -> z <= m1 * 2 ^ g).
Proof.
  intros (m & e & Hm & He & ->) Hm1 Hg.
  assert (Hpe : 0 < 2 ^ e) by (apply Z.pow_pos_nonneg; lia).
  assert (Hpg : 0 < 2 ^ g) by (apply Z.pow_pos_nonneg; lia).
  destruct (Z.le_gt_cases g e) as [Hge|Hlt].
  - replace e with ((e - g) + g) by lia.
    rewrite Z.pow_add_r by lia.
    assert (0 < 2 ^ (e - g)) by (apply Z.pow_pos_nonneg; lia).
    rewrite Z.mul_assoc.
    set (k := m * 2 ^ (e - g)). set (G := 2 ^ g) in *.
    clearbody k G. clear - Hpg.
    split; intros H1.
    + apply Z.mul_lt_mono_pos_r in H1; [|assumption].
      apply Z.mul_le_mono_nonneg_r; lia.
    + apply Z.mul_lt_mono_pos_r in H1; [|assumption].
      apply Z.mul_le_mono_nonneg_r; lia.
  - assert (Hgg : 2 ^ g = 2 ^ (g - e) * 2 ^ e).
    { rewrite <- Z.pow_add_r by lia. f_equal. lia. }
    assert (2 <= 2 ^ (g - e)).
    { change 2 with (2 ^ 1) at 1. apply Z.pow_le_mono_r; lia. }
    assert (Hcap : m * 2 ^ e <= m1 * 2 ^ g).
    { rewrite Hgg, Z.mul_assoc.
      apply Z.mul_le_mono_nonneg_r; [lia|].
      assert (Hm' : m <= 2 ^ 52 * 2) by (change (2 ^ 52 * 2) with (2 ^ 53); lia).
      set (c := 2 ^ 52) in *. set (t := 2 ^ (g - e)) in *.
      assert (0 < c) by (subst c; reflexivity).
      clearbody c t. nia. }
    split; intros H1; lia.
Qed.

Lemma faithful_between (m1 g N D R : Z) :
  2 ^ 52 <= m1 < 2 ^ 53 -> 0 <= g -> 0 < D ->
  m1 * 2 ^ g * D <= N < (m1 + 1) * 2 ^ g * D ->
  (R = m1 * 2 ^ g \/ R = (m1 + 1) * 2 ^ g) ->
  (N = m1 * 2 ^ g * D -> R = m1 * 2 ^ g) ->
  faithful N D R.
Proof.
  intros Hm1 Hg HD HN HR Hexact.
  assert (Hpg : 0 < 2 ^ g) by (apply Z.pow_pos_nonneg; lia).
  split; [|split].
  - destruct HR as [->| ->].
    + exists m1, g. repeat split; lia.
    + exists (m1 + 1), g. repeat split; lia.
  - intros z Hz Hle.
    destruct (representable_gap z m1 g Hz ltac:(lia) Hg) as [_ Hdown].
    assert (z <= m1 * 2 ^ g) by (apply Hdown; nia).
    destruct HR as [->| ->]; nia.
  - intros z Hz Hle.
    destruct (representable_gap z m1 g Hz ltac:(lia) Hg) as [Hup _].
    destruct (Z.eq_dec N (m1 * 2 ^ g * D)) as [E|Hne].
    + rewrite (Hexact E). nia.
    + assert ((m1 + 1) * 2 ^ g <= z) by (apply Hup; nia).
      destruct HR as [->| ->]; nia.
Qed.

(** Rounding, stated on values: the located mantissa [p] stands for the
    exact quotient [N / D], where [N = A * U], [2^(e1+1074) * D = 2^n * B * U]
    and [p <= A / B < p + 1]. *)
Lemma round_faithful (s : bool) (p : positive) (ex : Z) (lx : location)
    (A B U N D : Z) :
  let n := Zpos (digits2_pos p) - 53 in
  let e1 := ex + n in
  0 <= n -> -1074 <= e1 <= 970 ->
  0 < B -> 0 < U -> 0 < D ->
  Zpos p * B <= A < (Zpos p + 1) * B ->
  (A = Zpos p * B -> lx = loc_Exact) ->
  N = A * U ->
  2 ^ (e1 + 1074) * D = 2 ^ n * B * U ->
  exists m e,
    binary_round_aux 53 1024 s (Zpos p) ex lx = S754_finite s m e /\
    Zpos (digits2_pos m) = 53 /\
    e1 <= e <= e1 + 1 /\
    faithful N D (Zpos m * 2 ^ (e + 1074)).
Proof.
  intros n e1 Hn He1 HB HU HD HA Hloc HN Hscale.
  destruct (binary_round_aux_spec s p ex lx Hn He1)
    as (m & e & Hr & Hd & He & Hm & Hexact).
  fold n e1 in Hm, Hexact, He.
  exists m, e. split; [exact Hr|]. split; [exact Hd|]. split; [exact He|].
  set (m1 := Zpos p / 2 ^ n) in *.
  assert (Hpn : 0 < 2 ^ n) by (apply Z.pow_pos_nonneg; lia).
  assert (Hdiv : m1 * 2 ^ n <= Zpos p < (m1 + 1) * 2 ^ n).
  { subst m1. pose proof (Z.div_mod (Zpos p) (2 ^ n) ltac:(lia)).
    pose proof (Z.mod_pos_bound (Zpos p) (2 ^ n) Hpn). nia. }
  assert (Hb : 2 ^ 52 <= m1 < 2 ^ 53).
  { pose proof (digits2_pos_bounds p) as Hdp.
    pose proof (div_pow2_bounds (Zpos p) (Zpos (digits2_pos p)) n Hn
                  ltac:(subst n; lia) Hdp) as Hq.
    replace (Z.pos (digits2_pos p) - 1 - n) with 52 in Hq by (subst n; lia).
    replace (Z.pos (digits2_pos p) - n) with 53 in Hq by (subst n; lia).
    exact Hq. }
  assert (Hval : Zpos m * 2 ^ (e + 1074)
                 = (Zpos m * 2 ^ (e - e1)) * 2 ^ (e1 + 1074)).
  { rewrite <- Z.mul_assoc, <- Z.pow_add_r by lia. do 2 f_equal. lia. }
  set (G := 2 ^ (e1 + 1074)) in *.
  assert (HG : 0 < G) by (apply Z.pow_pos_nonneg; lia).
  assert (Hbetween : m1 * G * D <= N < (m1 + 1) * G * D).
  { subst N.
    assert (E : m1 * G * D = m1 * 2 ^ n * B * U).
    { rewrite <- !Z.mul_assoc. f_equal. rewrite !Z.mul_assoc. exact Hscale. }
    assert (E' : (m1 + 1) * G * D = (m1 + 1) * 2 ^ n * B * U).
    { rewrite <- !Z.mul_assoc. f_equal. rewrite !Z.mul_assoc. exact Hscale. }
    rewrite E, E'. split.
    - apply Z.mul_le_mono_nonneg_r; [lia|]. nia.
    - apply Z.mul_lt_mono_pos_r; [lia|]. nia. }
  assert (HR : Zpos m * 2 ^ (e + 1074) = m1 * G \/
               Zpos m * 2 ^ (e + 1074) = (m1 + 1) * G).
  { rewrite Hval. destruct Hm as [-> | ->]; auto. }
  assert (HE : N = m1 * G * D -> Zpos m * 2 ^ (e + 1074) = m1 * G).
  { intros E. rewrite Hval.
    assert (EA : A * U = m1 * 2 ^ n * B * U).
    { rewrite <- HN, E. rewrite <- !Z.mul_assoc. f_equal.
      rewrite !Z.mul_assoc. exact Hscale. }
    assert (EA' : A = m1 * 2 ^ n * B).
    { apply Z.mul_cancel_r in EA; lia. }
    assert (Ep : Zpos p = m1 * 2 ^ n) by nia.
    assert (Hmod : Zpos p mod 2 ^ n = 0).
    { rewrite Ep. apply Z.mod_mul. lia. }
    assert (Hl : lx = loc_Exact) by (apply Hloc; nia).
    destruct (Hexact Hl Hmod) as [-> ->].
    rewrite Z.sub_diag, Z.mul_1_r. reflexivity. }
  exact (faithful_between m1 (e1 + 1074) N D _ Hb ltac:(lia) HD Hbetween HR HE).
Qed.

Lemma pow2_pos (e : Z) : 0 <= e -> 0 < 2 ^ e.
Proof. intros; apply Z.pow_pos_nonneg; lia. Qed.

Lemma mul_compare_r (n m p : Z) :
  0 < p -> (n * p ?= m * p) = (n ?= m).
Proof.
  intros Hp. destruct (Z.compare_spec n m) as [->|H|H].
  - apply Z.compare_refl.
  - apply Z.compare_lt_iff. nia.
  - apply Z.compare_gt_iff. nia.
Qed.

Lemma digits_of_bounds (p : positive) (lo hi : Z) :
  0 <= lo -> 2 ^ lo <= Zpos p < 2 ^ hi ->
  lo < Zpos (digits2_pos p) <= hi.
Proof.
  intros Hlo [H1 H2]. pose proof (digits2_pos_bounds p) as [H3 H4].
  split.
  - destruct (Z.lt_ge_cases lo (Zpos (digits2_pos p))); [assumption|].
    assert (2 ^ Zpos (digits2_pos p) <= 2 ^ lo)
      by (apply Z.pow_le_mono_r; lia). lia.
  - destruct (Z.le_gt_cases (Zpos (digits2_pos p)) hi); [assumption|].
    assert (2 ^ hi <= 2 ^ (Zpos (digits2_pos p) - 1))
      by (apply Z.pow_le_mono_r; lia). lia.
Qed.

Lemma normal_inv (k : Z) (f : float) :
  normal k f ->
  exists m e, f = S754_finite false m e /\
              Zpos (digits2_pos m) = 53 /\ - k <= e <= k /\
              2 ^ 52 <= Zpos m < 2 ^ 53.
Proof.
  destruct f as [| | |[|] m e]; simpl; try contradiction.
  intros [Hd He]. exists m, e. repeat split; try lia.
  - pose proof (digits2_pos_bounds m) as H. rewrite Hd in H.
    replace (53 - 1) with 52 in H by lia. lia.
  - pose proof (digits2_pos_bounds m) as H. rewrite Hd in H. lia.
Qed.

(** The product of two normal floats is faithfully rounded. *)
Lemma fmul_spec (a b : Z) (x y : float) :
  normal a x -> normal b y -> 0 <= a -> 0 <= b -> a + b <= 916 ->
  normal (a + b + 54) (Py.fmul x y) /\
  faithful (V x * V y) K (V (Py.fmul x y)).
Proof.
  intros Hx Hy Ha Hb Hab.
  destruct (normal_inv a x Hx) as (mx & ex & -> & Hdx & Hex & Hmx).
  destruct (normal_inv b y Hy) as (my & ey & -> & Hdy & Hey & Hmy).
  unfold Py.fmul, Py.prec, Py.emax. cbn [SFmul xorb].
  set (P := (mx * my)%positive).
  assert (HP : Zpos P = Zpos mx * Zpos my) by reflexivity.
  assert (HPb : 2 ^ 104 <= Zpos P < 2 ^ 106).
  { rewrite HP.
    change (2 ^ 104) with (2 ^ 52 * 2 ^ 52).
    change (2 ^ 106) with (2 ^ 53 * 2 ^ 53).
    set (c := 2 ^ 52) in *. set (c' := 2 ^ 53) in *.
    assert (0 < c) by reflexivity. clearbody c c'. nia. }
  pose proof (digits_of_bounds P 104 106 ltac:(lia) HPb) as Hd.
  set (U := 2 ^ (ex + 1074) * 2 ^ (ey + 1074)).
  assert (HU : 0 < U).
  { apply Z.mul_pos_pos; apply pow2_pos; lia. }
  destruct (round_faithful false P (ex + ey) loc_Exact (Zpos P) 1 U
              (V (S754_finite false mx ex) * V (S754_finite false my ey)) K)
    as (m & e & Hr & Hdm & He & Hf); try lia.
  - reflexivity.
  - reflexivity.
  - cbn [V Py.signed]. rewrite HP. subst U. ring.
  - unfold K. subst U. rewrite Z.mul_1_r.
    rewrite <- !Z.pow_add_r by lia. f_equal. lia.
  - rewrite Hr. split.
    + simpl. split; [exact Hdm|lia].
    + exact Hf.
Qed.

Lemma new_location_zero (nb : Z) : new_location nb 0 = loc_Exact.
Proof.
  unfold new_location, new_location_even, new_location_odd.
  destruct (Z.even nb); reflexivity.
Qed.

(** The quotient of two normal floats is faithfully rounded. *)
Lemma fquo_spec (a b : Z) (x y : float) :
  normal a x -> normal b y -> 0 <= a -> 0 <= b -> a + b <= 917 ->
  normal (a + b + 53) (Py.fquo x y) /\
  faithful (V x * K) (V y) (V (Py.fquo x y)).
Proof.
  intros Hx Hy Ha Hb Hab.
  destruct (normal_inv a x Hx) as (mx & ex & -> & Hdx & Hex & Hmx).
  destruct (normal_inv b y Hy) as (my & ey & -> & Hdy & Hey & Hmy).
  unfold Py.fquo, Py.prec, Py.emax. cbn [SFdiv xorb].
  unfold SFdiv_core_binary. cbn [Zdigits2]. rewrite Hdx, Hdy.
  rewrite fexp_normal by lia.
  replace (Z.min (53 + ex - (53 + ey) - 53) (ex - ey)) with (ex - ey - 53)
    by lia.
  replace (ex - ey - (ex - ey - 53)) with 53 by lia.
  cbv iota. rewrite Z.shiftl_mul_pow2 by lia.
  pose proof (Z_div_mod (Zpos mx * 2 ^ 53) (Zpos my) ltac:(lia)) as Hdm.
  destruct (Z.div_eucl (Zpos mx * 2 ^ 53) (Zpos my)) as [q r].
  destruct Hdm as [Hq Hr].
  assert (Hqb : 2 ^ 52 <= q < 2 ^ 54).
  { change (2 ^ 54) with (2 ^ 53 * 2).
    set (c := 2 ^ 52) in *. set (c' := 2 ^ 53) in *.
    assert (Hc : c' = 2 * c) by reflexivity.
    assert (0 < c) by reflexivity. clearbody c c'. nia. }
  destruct q as [|pq|pq]; try lia.
  pose proof (digits_of_bounds pq 52 54 ltac:(lia) Hqb) as Hd.
  set (U := 2 ^ (ex + 2095)).
  assert (HU : 0 < U) by (apply pow2_pos; lia).
  assert (HVy : 0 < V (S754_finite false my ey)).
  { cbn [V Py.signed]. apply Z.mul_pos_pos; [lia|apply pow2_pos; lia]. }
  destruct (round_faithful false pq (ex - ey - 53)
              (new_location (Zpos my) r) (Zpos mx * 2 ^ 53) (Zpos my) U
              (V (S754_finite false mx ex) * K) (V (S754_finite false my ey)))
    as (m & e & Hres & Hdm & He & Hf); try lia.
  - intros E. assert (r = 0) by lia. subst r. apply new_location_zero.
  - cbn [V Py.signed]. unfold K. subst U.
    rewrite <- !Z.mul_assoc. f_equal.
    rewrite <- !Z.pow_add_r by lia. f_equal. lia.
  - cbn [V Py.signed]. subst U.
    replace (2 ^ (ex - ey - 53 + (Z.pos (digits2_pos pq) - 53) + 1074)
             * (Z.pos my * 2 ^ (ey + 1074)))
      with (Z.pos my * (2 ^ (ex - ey - 53 + (Z.pos (digits2_pos pq) - 53) + 1074)
                        * 2 ^ (ey + 1074))) by ring.
    replace (2 ^ (Z.pos (digits2_pos pq) - 53) * Z.pos my * 2 ^ (ex + 2095))
      with (Z.pos my * (2 ^ (Z.pos (digits2_pos pq) - 53) * 2 ^ (ex + 2095)))
      by ring.
    f_equal. rewrite <- !Z.pow_add_r by lia. f_equal. lia.
  - rewrite Hres. split.
    + simpl. split; [exact Hdm|lia].
    + exact Hf.
Qed.

Lemma normal_finite (k : Z) (f : float) :
  k <= 971 -> normal k f -> finite f.
Proof.
  intros Hk Hf. destruct (normal_inv k f Hf) as (m & e & -> & _ & He & _).
  simpl. lia.
Qed.

Lemma normal_V_pos (k : Z) (f : float) :
  k <= 1074 -> normal k f -> 0 < V f.
Proof.
  intros Hk Hf. destruct (normal_inv k f Hf) as (m & e & -> & _ & He & _).
  cbn [V Py.signed]. apply Z.mul_pos_pos; [lia|apply pow2_pos; lia].
Qed.

Lemma normal_weaken (k k' : Z) (f : float) :
  k <= k' -> normal k f -> normal k' f.
Proof.
  intros Hk Hf. destruct (normal_inv k f Hf) as (m & e & -> & Hd & He & _).
  simpl. split; [exact Hd|lia].
Qed.

(** [int(x)] of a finite float truncates its value. *)
Lemma trunc_V (f : float) :
  finite f -> Py.trunc f = Ok (Z.quot (V f) K).
Proof.
  destruct f as [ | | |s m e]; simpl; try contradiction; intros He.
  - reflexivity.
  - unfold K. destruct (Z.leb_spec 0 e) as [H0|H0]; f_equal.
    + replace (Py.signed s m * 2 ^ (e + 1074))
        with (Py.signed s m * 2 ^ e * 2 ^ 1074)
        by (rewrite Z.pow_add_r by lia; ring).
      rewrite Z.quot_mul; [reflexivity|]. pose proof (pow2_pos 1074); lia.
    + assert (E : 2 ^ 1074 = 2 ^ (- e) * 2 ^ (e + 1074)).
      { rewrite <- Z.pow_add_r by lia. f_equal. lia. }
      rewrite E.
      pose proof (pow2_pos (- e)). pose proof (pow2_pos (e + 1074)).
      rewrite Z.quot_mul_cancel_r by lia. reflexivity.
Qed.

(** [int(math.ceil(x))] of a finite float. *)
Lemma ceil_V (f : float) :
  finite f -> Py.ceil f = Ok (- ((- V f) / K)).
Proof.
  destruct f as [ | | |s m e]; simpl; try contradiction; intros He.
  - reflexivity.
  - unfold K. destruct (Z.leb_spec 0 e) as [H0|H0]; f_equal.
    + replace (- (Py.signed s m * 2 ^ (e + 1074)))
        with (- (Py.signed s m * 2 ^ e) * 2 ^ 1074)
        by (rewrite Z.pow_add_r by lia; ring).
      rewrite Z.div_mul; [ring|]. pose proof (pow2_pos 1074); lia.
    + assert (E : 2 ^ 1074 = 2 ^ (- e) * 2 ^ (e + 1074)).
      { rewrite <- Z.pow_add_r by lia. f_equal. lia. }
      rewrite E, <- Z.mul_opp_l.
      pose proof (pow2_pos (- e)). pose proof (pow2_pos (e + 1074)).
      rewrite Z.div_mul_cancel_r by lia. reflexivity.
Qed.

(** Comparison of normal floats is comparison of values. *)
Lemma SFcompare_V (a b : Z) (x y : float) :
  normal a x -> normal b y -> a <= 1074 -> b <= 1074 ->
  SFcompare x y = Some (V x ?= V y).
Proof.
  intros Hx Hy Ha Hb.
  destruct (normal_inv a x Hx) as (mx & ex & -> & Hdx & Hex & Hmx).
  destruct (normal_inv b y Hy) as (my & ey & -> & Hdy & Hey & Hmy).
  cbn [SFcompare V Py.signed]. f_equal.
  assert (Hstep : forall m1 e1 m2 e2,
            2 ^ 52 <= m1 < 2 ^ 53 -> 2 ^ 52 <= m2 < 2 ^ 53 ->
            0 <= e1 -> e1 < e2 -> m1 * 2 ^ e1 < m2 * 2 ^ e2).
  { intros m1 e1 m2 e2 H1 H2 H0 Hlt.
    assert (E : 2 ^ e2 = 2 ^ (e2 - e1) * 2 ^ e1).
    { rewrite <- Z.pow_add_r by lia. f_equal. lia. }
    assert (2 <= 2 ^ (e2 - e1)).
    { change 2 with (2 ^ 1) at 1. apply Z.pow_le_mono_r; lia. }
    rewrite E, Z.mul_assoc. apply Z.mul_lt_mono_pos_r; [apply pow2_pos; lia|].
    change (2 ^ 53) with (2 ^ 52 * 2) in *.
    set (c := 2 ^ 52) in *. assert (0 < c) by reflexivity.
    set (t := 2 ^ (e2 - e1)) in *. clearbody c t. nia. }
  destruct (Z.compare_spec ex ey) as [->|Hlt|Hgt].
  - rewrite mul_compare_r by (apply pow2_pos; lia). reflexivity.
  - symmetry. apply Z.compare_lt_iff. apply Hstep; lia.
  - symmetry. apply Z.compare_gt_iff. apply Hstep; lia.
Qed.

Lemma compare_int_float_V (z : Z) (f : float) :
  finite f -> Py.compare_int_float z f = Some (z * K ?= V f).
Proof.
  destruct f as [ | | |s m e]; simpl; try contradiction; intros He.
  - unfold K. pose proof (pow2_pos 1074).
    f_equal. change 0 with (0 * 2 ^ 1074) at 2.
    rewrite mul_compare_r by lia. reflexivity.
  - unfold K. destruct (Z.leb_spec 0 e) as [H0|H0]; f_equal.
    + replace (Py.signed s m * 2 ^ (e + 1074))
        with (Py.signed s m * 2 ^ e * 2 ^ 1074)
        by (rewrite Z.pow_add_r by lia; ring).
      rewrite mul_compare_r by (apply pow2_pos; lia). reflexivity.
    + assert (E : 2 ^ 1074 = 2 ^ (- e) * 2 ^ (e + 1074)).
      { rewrite <- Z.pow_add_r by lia. f_equal. lia. }
      rewrite E, Z.mul_assoc.
      rewrite mul_compare_r by (apply pow2_pos; lia). reflexivity.
Qed.

(** Rounding a mantissa that has at most 53 significant bits is exact. *)
Lemma binary_round_exact (s : bool) (p : positive) (e k j : Z) :
  let d := Zpos (digits2_pos p) in
  Zpos p = k * 2 ^ j -> 0 <= j -> 0 < k < 2 ^ 53 ->
  -1074 <= e -> -1074 <= e + d - 53 <= 970 ->
  exists m,
    binary_round 53 1024 s p e = S754_finite s m (e + d - 53) /\
    Zpos (digits2_pos m) = 53 /\
    Zpos m * 2 ^ (e + d - 53 + 1074) = Zpos p * 2 ^ (e + 1074).
Proof.
  intros d Hp Hj Hk He Hed.
  pose proof (digits2_pos_bounds p) as Hdb. fold d in Hdb.
  unfold binary_round.
  rewrite fexp_normal by (fold d; lia). fold d.
  unfold shl_align.
  replace (d + e - 53 - e) with (d - 53) by lia.
  destruct (d - 53) as [|n|n] eqn:Hn.
  - (* exactly 53 digits *)
    destruct (binary_round_aux_spec s p e loc_Exact) as (m & e' & Hr & Hdm & _ & _ & Hx);
      fold d; rewrite ?Hn; try lia.
    fold d in Hx. rewrite Hn in Hx.
    destruct (Hx eq_refl) as [-> Hm]; [apply Z.mod_1_r|].
    exists m. rewrite Hr. replace (e + d - 53) with (e + 0) by lia.
    repeat split; try assumption.
    rewrite Hm, Z.div_1_r. do 2 f_equal. lia.
  - (* more than 53 digits: the bits shifted out are zero *)
    assert (Hnj : Zpos n <= j).
    { destruct (Z.le_gt_cases (Zpos n) j); [assumption|].
      assert (2 ^ (53 + j) <= 2 ^ (d - 1)) by (apply Z.pow_le_mono_r; lia).
      rewrite Z.pow_add_r in H0 by lia.
      pose proof (pow2_pos j Hj). nia. }
    assert (Hmod : Zpos p mod 2 ^ Zpos n = 0).
    { apply Z.mod_divide; [pose proof (pow2_pos (Zpos n)); lia|].
      exists (k * 2 ^ (j - Zpos n)). rewrite Hp, <- Z.mul_assoc.
      rewrite <- Z.pow_add_r by lia. do 2 f_equal. lia. }
    destruct (binary_round_aux_spec s p e loc_Exact) as (m & e' & Hr & Hdm & _ & _ & Hx);
      fold d; rewrite ?Hn; try lia.
    fold d in Hx. rewrite Hn in Hx.
    destruct (Hx eq_refl Hmod) as [-> Hm].
    exists m. rewrite Hr. replace (e + d - 53) with (e + Zpos n) by lia.
    repeat split; try assumption.
    rewrite Hm. apply Z.mod_divide in Hmod;
      [|pose proof (pow2_pos (Zpos n)); lia].
    destruct Hmod as [c Hc]. rewrite Hc, Z.div_mul
      by (pose proof (pow2_pos (Zpos n)); lia).
    replace (e + Z.pos n + 1074) with (Zpos n + (e + 1074)) by lia.
    rewrite (Z.pow_add_r 2 (Zpos n) (e + 1074)) by lia. ring.
  - (* fewer than 53 digits: the mantissa is shifted left *)
    set (mz := Pos.iter xO p n).
    assert (Hmz : Zpos mz = Zpos p * 2 ^ Zpos n) by apply pos_iter_xO.
    assert (Hdz : Zpos (digits2_pos mz) = 53).
    { apply digits2_pos_unique. rewrite Hmz.
      assert (E1 : 2 ^ (53 - 1) = 2 ^ (d - 1) * 2 ^ Zpos n).
      { rewrite <- Z.pow_add_r by lia. f_equal. lia. }
      assert (E2 : 2 ^ 53 = 2 ^ d * 2 ^ Zpos n).
      { rewrite <- Z.pow_add_r by lia. f_equal. lia. }
      rewrite E1, E2.
      pose proof (pow2_pos (Zpos n)). nia. }
    destruct (binary_round_aux_spec s mz (d + e - 53) loc_Exact)
      as (m & e' & Hr & Hdm & _ & _ & Hx); rewrite ?Hdz; try lia.
    rewrite Hdz in Hx. replace (53 - 53) with 0 in Hx by lia.
    destruct (Hx eq_refl) as [-> Hm]; [apply Z.mod_1_r|].
    exists m. rewrite Hr. replace (d + e - 53 + 0) with (e + d - 53) by lia.
    repeat split; try assumption.
    rewrite Hm, Z.div_1_r, Hmz.
    replace (e + 1074) with (Zpos n + (e + d - 53 + 1074)) by lia.
    rewrite (Z.pow_add_r 2 (Zpos n) (e + d - 53 + 1074)) by lia. ring.
Qed.

(** A positive integer below [2 ^ 53] converts to a float exactly. *)
Lemma float_of_int_spec (z : Z) :
  0 < z < 2 ^ 53 ->
  exists f, Py.float_of_int z = Ok f /\ normal 52 f /\ V f = z * K.
Proof.
  intros Hz. destruct z as [|p|p]; try lia.
  assert (Hd : 0 < Zpos (digits2_pos p) <= 53).
  { apply digits_of_bounds; [lia|]. change (2 ^ 0) with 1. lia. }
  pose proof (binary_round_exact false p 0 (Zpos p) 0) as Hx.
  cbv zeta in Hx.
  destruct Hx as (m & Hr & Hdm & Hv); try lia.
  unfold Py.float_of_int, Py.prec, Py.emax. cbn [binary_normalize].
  rewrite Hr. cbn [Py.is_inf].
  eexists. split; [reflexivity|]. split.
  - cbn [normal]. split; [exact Hdm|lia].
  - cbn [V Py.signed]. rewrite Hv. reflexivity.
Qed.

Lemma float_of_int_0 : Py.float_of_int 0 = Ok (S754_zero false).
Proof. reflexivity. Qed.

Lemma shl_align_fst (m : positive) (e e' : Z) :
  e' <= e ->
  Zpos (fst (shl_align m e e')) = Zpos m * 2 ^ (e - e').
Proof.
  intros He. unfold shl_align.
  destruct (e' - e) as [|d|d] eqn:Hd; try lia.
  - replace (e - e') with 0 by lia. simpl fst. lia.
  - simpl fst. rewrite pos_iter_xO. do 2 f_equal. lia.
Qed.

(** Rounding a signed integer mantissa that has at most 53 significant bits
    is exact. *)
Lemma binary_normalize_exact (z e k j : Z) :
  Z.abs z = k * 2 ^ j -> 0 <= j -> 0 <= k < 2 ^ 53 ->
  Z.abs z < 2 ^ 900 -> -1000 <= e <= 60 ->
  finite (binary_normalize 53 1024 z e false) /\
  V (binary_normalize 53 1024 z e false) = z * 2 ^ (e + 1074).
Proof.
  intros Hz Hj Hk Hzb He.
  destruct z as [|p|p].
  - simpl. split; [exact I|reflexivity].
  - assert (Hd : 0 < Zpos (digits2_pos p) <= 900).
    { apply digits_of_bounds; [lia|]. change (2 ^ 0) with 1. simpl in Hzb. lia. }
    pose proof (binary_round_exact false p e k j) as Hx. cbv zeta in Hx.
    destruct Hx as (m & Hr & Hdm & Hv); try lia;
      try (simpl in Hz; pose proof (pow2_pos j Hj); nia).
    cbn [binary_normalize]. rewrite Hr. split.
    + simpl. lia.
    + cbn [V Py.signed]. exact Hv.
  - assert (Hd : 0 < Zpos (digits2_pos p) <= 900).
    { apply digits_of_bounds; [lia|]. change (2 ^ 0) with 1. simpl in Hzb. lia. }
    pose proof (binary_round_exact true p e k j) as Hx. cbv zeta in Hx.
    destruct Hx as (m & Hr & Hdm & Hv); try lia;
      try (simpl in Hz; pose proof (pow2_pos j Hj); nia).
    cbn [binary_normalize]. rewrite Hr. split.
    + simpl. lia.
    + cbn [V Py.signed].
      change (Z.neg m) with (- Zpos m). change (Z.neg p) with (- Zpos p).
      rewrite !Z.mul_opp_l. f_equal. exact Hv.
Qed.

(** Subtraction of two non-negative floats is exact when the difference has
    at most 53 significant bits. *)
Lemma fsub_exact (x y : float) (t g : Z) :
  x = S754_zero false \/ normal 60 x ->
  y = S754_zero false \/ normal 60 y ->
  V x - V y = t * 2 ^ g -> Z.abs t < 2 ^ 53 -> 0 <= g ->
  finite (Py.fsub x y) /\ V (Py.fsub x y) = V x - V y.
Proof.
  intros [->|Hx] [->|Hy] Hv Ht Hg.
  - simpl. split; [exact I|reflexivity].
  - destruct (normal_inv 60 y Hy) as (my & ey & -> & Hdy & Hey & Hmy).
    cbn [Py.fsub SFsub finite V Py.signed negb]. split; [lia|].
    change (Z.neg my) with (- Zpos my). lia.
  - destruct (normal_inv 60 x Hx) as (mx & ex & -> & Hdx & Hex & Hmx).
    cbn [Py.fsub SFsub finite V Py.signed]. split; lia.
  - destruct (normal_inv 60 x Hx) as (mx & ex & -> & Hdx & Hex & Hmx).
    destruct (normal_inv 60 y Hy) as (my & ey & -> & Hdy & Hey & Hmy).
    unfold Py.fsub, Py.prec, Py.emax. cbn [SFsub cond_Zopp].
    set (ez := Z.min ex ey).
    rewrite !shl_align_fst by (subst ez; lia).
    set (z := Z.pos mx * 2 ^ (ex - ez) - Z.pos my * 2 ^ (ey - ez)).
    assert (Hzv : z * 2 ^ (ez + 1074)
                  = V (S754_finite false mx ex) - V (S754_finite false my ey)).
    { subst z. cbn [V Py.signed]. rewrite Z.mul_sub_distr_r.
      rewrite <- !Z.mul_assoc, <- !Z.pow_add_r by (subst ez; lia).
      f_equal; do 2 f_equal; lia. }
    rewrite <- Hzv.
    assert (Hp1 : 0 < 2 ^ (ez + 1074)) by (apply pow2_pos; subst ez; lia).
    assert (Hzb : Z.abs z < 2 ^ 900).
    { assert (Hb : forall m e, 2 ^ 52 <= Zpos m < 2 ^ 53 -> 0 <= e <= 120 ->
                               0 < Zpos m * 2 ^ e < 2 ^ 899).
      { intros m e Hm He. split; [pose proof (pow2_pos e); nia|].
        assert (2 ^ e <= 2 ^ 120) by (apply Z.pow_le_mono_r; lia).
        change (2 ^ 899) with (2 ^ 53 * 2 ^ 846).
        pose proof (pow2_pos e).
        assert (2 ^ 120 < 2 ^ 846) by (apply Z.pow_lt_mono_r; lia).
        set (c := 2 ^ 53) in *. set (c' := 2 ^ 846) in *.
        set (c'' := 2 ^ 120) in *. set (u := 2 ^ e) in *.
        clearbody c c' c'' u. nia. }
      pose proof (Hb mx (ex - ez) Hmx ltac:(subst ez; lia)).
      pose proof (Hb my (ey - ez) Hmy ltac:(subst ez; lia)).
      change (2 ^ 900) with (2 * 2 ^ 899). subst z.
      set (c := 2 ^ 899) in *. clearbody c. lia. }
    rewrite <- Hzv in Hv.
    destruct (Z.le_gt_cases (ez + 1074) g) as [Hge|Hlt].
    + apply (binary_normalize_exact z ez (Z.abs t) (g - (ez + 1074)));
        try lia; try (subst ez; lia).
      assert (E : z = t * 2 ^ (g - (ez + 1074))).
      { apply (Z.mul_cancel_r _ _ (2 ^ (ez + 1074))); [lia|].
        rewrite Hv, <- Z.mul_assoc, <- Z.pow_add_r by lia.
        do 2 f_equal. lia. }
      rewrite E, Z.abs_mul. f_equal.
      apply Z.abs_eq. pose proof (pow2_pos (g - (ez + 1074))). lia.
    + apply (binary_normalize_exact z ez (Z.abs z) 0);
        try lia; try (subst ez; lia).
      assert (E : t = z * 2 ^ (ez + 1074 - g)).
      { apply (Z.mul_cancel_r _ _ (2 ^ g)); [pose proof (pow2_pos g); lia|].
        rewrite <- Hv, <- Z.mul_assoc, <- Z.pow_add_r by lia.
        do 2 f_equal. lia. }
      split; [lia|].
      rewrite E, Z.abs_mul in Ht.
      pose proof (pow2_pos (ez + 1074 - g)).
      rewrite (Z.abs_eq (2 ^ (ez + 1074 - g))) in Ht by lia.
      nia.
Qed.

(** *** Python numbers on small integers *)

Lemma representable_int (n e : Z) :
  0 <= n <= 2 ^ 53 -> 0 <= e -> representable (n * 2 ^ e).
Proof. intros Hn He. exists n, e. repeat split; lia. Qed.

(** A faithful rounding of a representable quotient is that quotient. *)
Lemma faithful_exact (N D r q : Z) :
  faithful N D r -> representable q -> N = q * D -> r = q.
Proof.
  intros (_ & Hlo & Hhi) Hq HN.
  pose proof (Hlo q Hq ltac:(lia)). pose proof (Hhi q Hq ltac:(lia)). lia.
Qed.

(** The exponent of a normal float follows from its value. *)
Lemma normal_of_value (k : Z) (f : float) :
  normal k f -> k <= 1074 -> 2 ^ 1066 <= V f < 2 ^ 1186 -> normal 60 f.
Proof.
  intros Hf Hk Hv.
  destruct (normal_inv k f Hf) as (m & e & -> & Hd & He & Hm).
  cbn [V Py.signed] in Hv. cbn [normal]. split; [exact Hd|].
  assert (Hp : 0 < 2 ^ (e + 1074)) by (apply pow2_pos; lia).
  split.
  - destruct (Z.le_gt_cases (-60) e); [assumption|].
    assert (2 ^ (e + 1074) <= 2 ^ 1013) by (apply Z.pow_le_mono_r; lia).
    assert (Z.pos m * 2 ^ (e + 1074) < 2 ^ 53 * 2 ^ 1013).
    { apply Z.lt_le_trans with (2 ^ 53 * 2 ^ (e + 1074)).
      - apply Z.mul_lt_mono_pos_r; lia.
      - apply Z.mul_le_mono_nonneg_l; lia. }
    change (2 ^ 53 * 2 ^ 1013) with (2 ^ 1066) in *. lia.
  - destruct (Z.le_gt_cases e 60); [assumption|].
    assert (2 ^ 1135 <= 2 ^ (e + 1074)) by (apply Z.pow_le_mono_r; lia).
    assert (2 ^ 52 * 2 ^ 1135 <= Z.pos m * 2 ^ (e + 1074)).
    { apply Z.mul_le_mono_nonneg; lia. }
    change (2 ^ 52 * 2 ^ 1135) with (2 ^ 1187) in *.
    assert (2 ^ 1186 < 2 ^ 1187) by (apply Z.pow_lt_mono_r; lia). lia.
Qed.

Lemma normal_f0_5 : normal 53 Py.f0_5.
Proof. simpl. split; [reflexivity|lia]. Qed.

Lemma V_f0_5 : V Py.f0_5 = 2 ^ 1073.
Proof. reflexivity. Qed.

(** [n * 0.5] for a non-negative integer [n]. *)
Lemma mul_half (n : Z) :
  0 <= n < 2 ^ 52 ->
  exists f, Py.mul (Int n) (Float Py.f0_5) = Ok (Float f) /\
            (f = S754_zero false \/ normal 60 f) /\
            Binary64.finite f /\
            V f = n * 2 ^ 1073.
Proof.
  intros Hn. unfold Py.mul, Py.arith. cbn [Py.to_float].
  destruct (Z.eq_dec n 0) as [->|Hnz].
  - rewrite float_of_int_0. cbn [Py.bind].
    eexists. split; [reflexivity|]. split; [left; reflexivity|].
    split; [exact I|reflexivity].
  - assert (Hlt : 2 ^ 52 < 2 ^ 53) by (apply Z.pow_lt_mono_r; lia).
    destruct (float_of_int_spec n ltac:(lia)) as (fn & -> & Hfn & Hvn).
    cbn [Py.bind].
    destruct (fmul_spec 52 53 fn Py.f0_5 Hfn normal_f0_5) as [Hnorm Hf];
      try lia.
    assert (Hval : V (Py.fmul fn Py.f0_5) = n * 2 ^ 1073).
    { apply (faithful_exact _ _ _ _ Hf).
      - apply representable_int; lia.
      - rewrite Hvn, V_f0_5. unfold K.
        change (2 ^ 1074) with (2 * 2 ^ 1073). ring. }
    assert (H60 : normal 60 (Py.fmul fn Py.f0_5)).
    { apply (normal_of_value _ _ Hnorm); [lia|]. rewrite Hval.
      assert (2 ^ 1066 <= 2 ^ 1073) by (apply Z.pow_le_mono_r; lia).
      change (2 ^ 1186) with (2 ^ 113 * 2 ^ 1073).
      assert (2 ^ 52 < 2 ^ 113) by (apply Z.pow_lt_mono_r; lia).
      pose proof (pow2_pos 1073). nia. }
    eexists. split; [reflexivity|]. split; [right; exact H60|].
    split; [|exact Hval].
    apply (normal_finite 60); [lia|exact H60].
Qed.

(** [float(n)] for a non-negative integer [n]. *)
Lemma float_of_nonneg (n : Z) :
  0 <= n < 2 ^ 53 ->
  exists f, Py.float_of_int n = Ok f /\
            (f = S754_zero false \/ normal 52 f) /\ V f = n * K.
Proof.
  intros Hn. destruct (Z.eq_dec n 0) as [->|Hnz].
  - exists (S754_zero false). split; [reflexivity|].
    split; [left; reflexivity|reflexivity].
  - destruct (float_of_int_spec n ltac:(lia)) as (f & Hf & Hnorm & Hv).
    exists f. split; [exact Hf|]. split; [right; exact Hnorm|exact Hv].
Qed.

(** [int(c - n * 0.5)] for non-negative integers [c] and [n]. *)
Lemma centered_offset (c n : Z) :
  0 <= c < 2 ^ 52 -> 0 <= n < 2 ^ 52 ->
  (hw <- Py.mul (Int n) (Float Py.f0_5) ;;
   d <- Py.sub (Int c) hw ;;
   Py.int d) = Ok (Z.quot (2 * c - n) 2).
Proof.
  intros Hc Hn.
  assert (Hlt : 2 ^ 52 < 2 ^ 53) by (apply Z.pow_lt_mono_r; lia).
  destruct (mul_half n Hn) as (fh & -> & Hfh & _ & Hvh). cbn [Py.bind].
  unfold Py.sub, Py.arith. cbn [Py.to_float].
  destruct (float_of_nonneg c ltac:(lia)) as (fc & -> & Hfc & Hvc).
  cbn [Py.bind Py.int].
  assert (Hfc' : fc = S754_zero false \/ normal 60 fc).
  { destruct Hfc as [->|Hfc]; [left; reflexivity|right].
    apply (normal_weaken 52); [lia|exact Hfc]. }
  assert (Hdiff : V fc - V fh = (2 * c - n) * 2 ^ 1073).
  { rewrite Hvc, Hvh. unfold K. change (2 ^ 1074) with (2 * 2 ^ 1073). ring. }
  assert (Habs : Z.abs (2 * c - n) < 2 ^ 53).
  { change (2 ^ 53) with (2 * 2 ^ 52). lia. }
  destruct (fsub_exact fc fh (2 * c - n) 1073 Hfc' Hfh Hdiff Habs ltac:(lia))
    as [Hfin Hv].
  rewrite (trunc_V _ Hfin). f_equal.
  rewrite Hv, Hdiff. unfold K. change (2 ^ 1074) with (2 * 2 ^ 1073).
  apply Z.quot_mul_cancel_r; [lia|]. pose proof (pow2_pos 1073). lia.
Qed.

(** [int(n * 0.5)] for a non-negative integer [n]. *)
Lemma half_of (n : Z) :
  0 <= n < 2 ^ 52 ->
  (cw <- Py.mul (Int n) (Float Py.f0_5) ;; Py.int cw) = Ok (n / 2).
Proof.
  intros Hn. destruct (mul_half n Hn) as (f & -> & _ & Hfin & Hv).
  cbn [Py.bind Py.int]. rewrite (trunc_V _ Hfin). f_equal.
  rewrite Hv. unfold K. change (2 ^ 1074) with (2 * 2 ^ 1073).
  rewrite <- (Z.mul_1_l (2 ^ 1073)) at 1.
  replace (n * (1 * 2 ^ 1073)) with (n * 2 ^ 1073) by ring.
  rewrite Z.quot_mul_cancel_r; [|lia|pose proof (pow2_pos 1073); lia].
  apply Z.quot_div_nonneg; lia.
Qed.

(** The anchor crop box in closed form. *)
Lemma get_crop_box_closed (im : PIL.image) (width height : Z) (anchor : string) :
  let '(w, h) := PIL.size im in
  let tw := Z.min width w in
  let th := Z.min height h in
  let cx := Z.quot (2 * (w / 2) - tw) 2 in
  let cy := Z.quot (2 * (h / 2) - th) 2 in
  0 <= width -> 0 <= height -> w < 2 ^ 52 -> h < 2 ^ 52 ->
  processors.get_crop_box im width height anchor =
    if Py.str_in anchor ["center"; "crop"; "fill"]%string
    then Ok (cx, cy, cx + tw, cy + th)
    else if String.eqb anchor "top" then Ok (cx, 0, cx + tw, 0 + th)
    else if String.eqb anchor "left" then Ok (0, cy, 0 + tw, cy + th)
    else if String.eqb anchor "right" then Ok (w - tw, cy, w - tw + tw, cy + th)
    else if String.eqb anchor "bottom" then Ok (cx, h - th, cx + tw, h - th + th)
    else Raise Py.ValueError.
Proof.
  unfold processors.get_crop_box.
  assert (Hw0 : 0 <= fst (PIL.size im)) by (unfold PIL.size; simpl; lia).
  assert (Hh0 : 0 <= snd (PIL.size im)) by (unfold PIL.size; simpl; lia).
  destruct (PIL.size im) as [w h]. simpl in Hw0, Hh0.
  intros Hwidth Hheight Hw Hh.
  replace (if width >? w then w else width) with (Z.min width w)
    by (destruct (Z.gtb_spec width w); lia).
  replace (if height >? h then h else height) with (Z.min height h)
    by (destruct (Z.gtb_spec height h); lia).
  set (tw := Z.min width w). set (th := Z.min height h).
  pose proof (half_of w ltac:(lia)) as Hcw.
  destruct (Py.mul (Int w) (Float Py.f0_5)) as [cw|]; [|discriminate].
  cbn [Py.bind] in Hcw |- *. rewrite Hcw. cbn [Py.bind].
  pose proof (half_of h ltac:(lia)) as Hch.
  destruct (Py.mul (Int h) (Float Py.f0_5)) as [ch|]; [|discriminate].
  cbn [Py.bind] in Hch |- *. rewrite Hch. cbn [Py.bind].
  assert (Hw2 : 0 <= w / 2 < 2 ^ 52).
  { split; [apply Z.div_pos; lia|].
    apply Z.div_lt_upper_bound; lia. }
  assert (Hh2 : 0 <= h / 2 < 2 ^ 52).
  { split; [apply Z.div_pos; lia|].
    apply Z.div_lt_upper_bound; lia. }
  rewrite (centered_offset (w / 2) tw Hw2 ltac:(subst tw; lia)).
  rewrite (centered_offset (h / 2) th Hh2 ltac:(subst th; lia)).
  destruct (Py.str_in anchor _); [reflexivity|].
  destruct (String.eqb anchor "top"); [reflexivity|].
  destruct (String.eqb anchor "left"); [reflexivity|].
  destruct (String.eqb anchor "right"); [reflexivity|].
  destruct (String.eqb anchor "bottom"); reflexivity.
Qed.

(** *** The resize operator on integers *)

Lemma K_pos : 0 < K.
Proof. unfold K. apply pow2_pos. lia. Qed.

Lemma to_float_denotes (n : Z) (x : num) :
  0 < n < 2 ^ 53 -> denotes n x ->
  exists f, Py.to_float x = Ok f /\ normal 52 f /\ V f = n * K.
Proof.
  intros Hn [->|(f & -> & Hf & Hv)].
  - exact (float_of_int_spec n Hn).
  - exists f. repeat split; assumption.
Qed.

Lemma compare_denotes (a b : Z) (x y : num) :
  0 < a < 2 ^ 53 -> 0 < b < 2 ^ 53 -> denotes a x -> denotes b y ->
  Py.compare x y = Some (a ?= b).
Proof.
  pose proof K_pos as HK.
  intros Ha Hb [->|(f & -> & Hf & Hv)] [->|(g & -> & Hg & Hw)];
    cbn [Py.compare].
  - reflexivity.
  - rewrite compare_int_float_V by (apply (normal_finite 52); [lia|exact Hg]).
    rewrite Hw, mul_compare_r by exact HK. reflexivity.
  - rewrite compare_int_float_V by (apply (normal_finite 52); [lia|exact Hf]).
    rewrite Hv, mul_compare_r by exact HK. cbn [option_map].
    rewrite <- Z.compare_antisym. reflexivity.
  - rewrite (SFcompare_V 52 52) by (assumption || lia).
    rewrite Hv, Hw, mul_compare_r by exact HK. reflexivity.
Qed.

Lemma gt_denotes (a b : Z) (x y : num) :
  0 < a < 2 ^ 53 -> 0 < b < 2 ^ 53 -> denotes a x -> denotes b y ->
  Py.gt x y = (a >? b).
Proof.
  intros Ha Hb Hx Hy. unfold Py.gt.
  rewrite (compare_denotes a b) by assumption.
  unfold Z.gtb. destruct (a ?= b); reflexivity.
Qed.

Lemma lt_denotes (a b : Z) (x y : num) :
  0 < a < 2 ^ 53 -> 0 < b < 2 ^ 53 -> denotes a x -> denotes b y ->
  Py.lt x y = (a <? b).
Proof.
  intros Ha Hb Hx Hy. unfold Py.lt.
  rewrite (compare_denotes a b) by assumption.
  unfold Z.ltb. destruct (a ?= b); reflexivity.
Qed.

Lemma int_denotes (n : Z) (x : num) :
  0 < n < 2 ^ 53 -> denotes n x -> Py.int x = Ok n.
Proof.
  pose proof K_pos as HK.
  intros Hn [->|(f & -> & Hf & Hv)]; cbn [Py.int]; [reflexivity|].
  rewrite trunc_V by (apply (normal_finite 52); [lia|exact Hf]).
  rewrite Hv, Z.quot_mul by lia. reflexivity.
Qed.

Lemma int_ceil_denotes (n : Z) (x : num) :
  0 < n < 2 ^ 53 -> denotes n x -> Py.int_ceil x = Ok n.
Proof.
  pose proof K_pos as HK.
  intros Hn Hx. unfold Py.int_ceil.
  destruct (to_float_denotes n x Hn Hx) as (f & -> & Hf & Hv).
  cbn [Py.bind].
  rewrite ceil_V by (apply (normal_finite 52); [lia|exact Hf]).
  rewrite Hv, <- Z.mul_opp_l, Z.div_mul by lia. f_equal. lia.
Qed.

(** The faithfully rounded quotient of two small integers has the integer
    quotient as its integral part. *)
Lemma faithful_quotient_floor (A B r : Z) :
  faithful (A * K * K) (B * K) r ->
  0 <= A < 2 ^ 36 -> 0 < B <= 2 ^ 16 ->
  (A / B) * K <= r < (A / B + 1) * K.
Proof.
  pose proof K_pos as HK.
  intros (_ & Hlo & Hhi) HA HB.
  set (n := A / B).
  assert (Hn : n * B <= A < (n + 1) * B).
  { subst n. pose proof (Z.div_mod A B ltac:(lia)).
    pose proof (Z.mod_pos_bound A B ltac:(lia)). nia. }
  assert (Hn0 : 0 <= n <= A).
  { subst n. split; [apply Z.div_pos; lia|].
    apply Z.div_le_upper_bound; nia. }
  split.
  - apply Hlo.
    + unfold K. apply representable_int; [|lia].
      assert (2 ^ 36 < 2 ^ 53) by (apply Z.pow_lt_mono_r; lia). lia.
    + replace (n * K * (B * K)) with ((n * B) * (K * K)) by ring.
      replace (A * K * K) with (A * (K * K)) by ring.
      apply Z.mul_le_mono_nonneg_r; nia.
  - set (c := (n + 1) * 2 ^ 16 - 1).
    assert (Hc : r <= c * 2 ^ 1058).
    { apply Hhi.
      - apply representable_int; [|lia]. subst c.
        assert (E : 2 ^ 53 = 2 ^ 37 * 2 ^ 16) by reflexivity.
        assert (n + 1 <= 2 ^ 36) by lia.
        assert (2 ^ 36 < 2 ^ 37) by (apply Z.pow_lt_mono_r; lia).
        rewrite E. pose proof (pow2_pos 16). nia.
      - assert (EK : K = 2 ^ 16 * 2 ^ 1058) by reflexivity.
        replace (c * 2 ^ 1058 * (B * K)) with ((c * B) * (2 ^ 1058 * K)) by ring.
        replace (A * K * K) with ((A * 2 ^ 16) * (2 ^ 1058 * K))
          by (rewrite EK; ring).
        apply Z.mul_le_mono_nonneg_r.
        + pose proof (pow2_pos 1058). nia.
        + subst c. pose proof (pow2_pos 16). nia. }
    assert (EK : K = 2 ^ 16 * 2 ^ 1058) by reflexivity.
    rewrite EK. subst c. pose proof (pow2_pos 1058). pose proof (pow2_pos 16).
    nia.
Qed.

Lemma arith_float_r (iop : Z -> Z -> Z) (fop : float -> float -> float)
    (x : num) (g : float) :
  Py.arith iop fop x (Float g) =
    (a <- Py.to_float x ;; Ok (Float (fop a g))).
Proof. destruct x; reflexivity. Qed.

Lemma div_float_l (f : float) (y : num) :
  Py.div (Float f) y =
    (b <- Py.to_float y ;;
     if Py.is_zero b then Raise Py.ZeroDivisionError
     else Ok (Float (Py.fquo f b))).
Proof. reflexivity. Qed.

Lemma div_float_r (x : num) (g : float) :
  Py.div x (Float g) =
    (a <- Py.to_float x ;;
     if Py.is_zero g then Raise Py.ZeroDivisionError
     else Ok (Float (Py.fquo a g))).
Proof. destruct x; reflexivity. Qed.

Lemma normal_nonzero (k : Z) (f : float) :
  normal k f -> Py.is_zero f = false.
Proof.
  intros Hf. destruct (normal_inv k f Hf) as (m & e & -> & _). reflexivity.
Qed.

Lemma div_between (v n k : Z) :
  0 < k -> n * k <= v < (n + 1) * k -> v / k = n.
Proof.
  intros Hk Hv. symmetry. apply (Z.div_unique v k n (v - n * k)); lia.
Qed.

(** [int(max(x * y / z, 1))] on positive integers, the divisor at most
    [2 ^ 16] and the product below [2 ^ 36]. *)
Lemma scale_denotes (a b c : Z) (x z : num) (fy : float) :
  0 < a -> 0 < b -> a * b < 2 ^ 36 -> 0 < c <= 2 ^ 16 ->
  denotes a x -> normal 52 fy -> V fy = b * K -> denotes c z ->
  (p <- Py.mul x (Float fy) ;;
   q <- Py.div p z ;;
   Py.int (Py.max q (Int 1))) = Ok (Z.max (a * b / c) 1).
Proof.
  pose proof K_pos as HK.
  intros Ha Hb Hab Hc Hx Hfy Hvy Hz.
  assert (H36 : 2 ^ 36 < 2 ^ 53) by (apply Z.pow_lt_mono_r; lia).
  assert (H16 : 2 ^ 16 < 2 ^ 53) by (apply Z.pow_lt_mono_r; lia).
  assert (Ha' : 0 < a < 2 ^ 53) by nia.
  unfold Py.mul. rewrite arith_float_r.
  destruct (to_float_denotes a x Ha' Hx) as (fx & -> & Hfx & Hvx).
  cbn [Py.bind].
  destruct (fmul_spec 52 52 fx fy Hfx Hfy) as [Hnp Hfp]; try lia.
  set (p := Py.fmul fx fy) in *.
  assert (Hvp : V p = a * b * K).
  { apply (faithful_exact _ _ _ _ Hfp).
    - unfold K. apply representable_int; [nia|lia].
    - rewrite Hvx, Hvy. ring. }
  rewrite div_float_l.
  destruct (to_float_denotes c z ltac:(lia) Hz) as (fz & -> & Hfz & Hvz).
  cbn [Py.bind]. rewrite (normal_nonzero 52 fz Hfz).
  destruct (fquo_spec (52 + 52 + 54) 52 p fz Hnp Hfz) as [Hnq Hfq]; try lia.
  set (q := Py.fquo p fz) in *.
  rewrite Hvp, Hvz in Hfq.
  pose proof (faithful_quotient_floor (a * b) c (V q) Hfq ltac:(nia) Hc)
    as Hfloor.
  set (n := a * b / c) in *.
  assert (Hn0 : 0 <= n) by (subst n; apply Z.div_pos; nia).
  assert (Hfin : Binary64.finite q).
  { apply (normal_finite (52 + 52 + 54 + 52 + 53)); [lia|exact Hnq]. }
  cbn [Py.bind]. unfold Py.max, Py.gt. cbn [Py.compare].
  rewrite (compare_int_float_V 1 q Hfin), Z.mul_1_l.
  destruct (Z.compare_spec K (V q)) as [E|E|E]; cbn [Py.int].
  - rewrite (trunc_V q Hfin). f_equal.
    rewrite Z.quot_div_nonneg by lia.
    rewrite (div_between (V q) n K HK Hfloor). nia.
  - rewrite (trunc_V q Hfin). f_equal.
    rewrite Z.quot_div_nonneg by lia.
    rewrite (div_between (V q) n K HK Hfloor). nia.
  - f_equal. nia.
Qed.

Lemma denotes_float (n : Z) (f : float) :
  normal 52 f -> V f = n * K -> denotes n (Float f).
Proof. intros Hf Hv. right. exists f. auto. Qed.

Lemma small_lt_2_53 (n : Z) : n <= 2 ^ 16 -> n < 2 ^ 53.
Proof.
  intros Hn. assert (2 ^ 16 < 2 ^ 53) by (apply Z.pow_lt_mono_r; lia). lia.
Qed.

(** The step that fits the width into the box. *)
Lemma narrow_spec (w h W : Z) (x y : num) (fW : float) :
  0 < w <= 2 ^ 16 -> 0 < h <= 2 ^ 16 -> 0 < W <= 2 ^ 16 ->
  denotes w x -> denotes h y -> normal 52 fW -> V fW = W * K ->
  exists x' y',
    processors.narrow (Float fW) (x, y) = Ok (x', y') /\
    denotes (if w >? W then W else w) x' /\
    denotes (if w >? W then Z.max (h * W / w) 1 else h) y'.
Proof.
  intros Hw Hh HW Hx Hy HfW HvW.
  pose proof (small_lt_2_53 w ltac:(lia)). pose proof (small_lt_2_53 W ltac:(lia)).
  unfold processors.narrow. cbn [fst snd].
  rewrite (gt_denotes w W x (Float fW)); try lia; try assumption;
    [|apply denotes_float; assumption].
  destruct (w >? W) eqn:Hgt.
  - assert (Hhw : h * W < 2 ^ 36).
    { change (2 ^ 36) with (2 ^ 16 * 2 ^ 20).
      assert (2 ^ 16 < 2 ^ 20) by (apply Z.pow_lt_mono_r; lia).
      pose proof (pow2_pos 16). nia. }
    pose proof (scale_denotes h W w y x fW ltac:(lia) ltac:(lia) Hhw
                  ltac:(lia) Hy HfW HvW Hx) as Hs.
    destruct (Py.mul y (Float fW)) as [p|]; [|discriminate].
    cbn [Py.bind] in Hs |- *.
    destruct (Py.div p x) as [q|]; [|discriminate].
    cbn [Py.bind] in Hs |- *. rewrite Hs. cbn [Py.bind].
    rewrite (int_denotes W (Float fW)); try lia;
      [|apply denotes_float; assumption].
    cbn [Py.bind]. do 2 eexists. split; [reflexivity|].
    split; left; reflexivity.
  - do 2 eexists. split; [reflexivity|]. split; assumption.
Qed.

(** The step that fits the height into the box. *)
Lemma shorten_spec (w h H : Z) (x y : num) (fH : float) :
  0 < w <= 2 ^ 16 -> 0 < h <= 2 ^ 16 -> 0 < H <= 2 ^ 16 ->
  denotes w x -> denotes h y -> normal 52 fH -> V fH = H * K ->
  exists x' y',
    processors.shorten (Float fH) (x, y) = Ok (x', y') /\
    denotes (if h >? H then Z.max (w * H / h) 1 else w) x' /\
    denotes (if h >? H then H else h) y'.
Proof.
  intros Hw Hh HH Hx Hy HfH HvH.
  pose proof (small_lt_2_53 h ltac:(lia)). pose proof (small_lt_2_53 H ltac:(lia)).
  unfold processors.shorten. cbn [fst snd].
  rewrite (gt_denotes h H y (Float fH)); try lia; try assumption;
    [|apply denotes_float; assumption].
  destruct (h >? H) eqn:Hgt.
  - assert (Hhw : w * H < 2 ^ 36).
    { change (2 ^ 36) with (2 ^ 16 * 2 ^ 20).
      assert (2 ^ 16 < 2 ^ 20) by (apply Z.pow_lt_mono_r; lia).
      pose proof (pow2_pos 16). nia. }
    pose proof (scale_denotes w H h x y fH ltac:(lia) ltac:(lia) Hhw
                  ltac:(lia) Hx HfH HvH Hy) as Hs.
    destruct (Py.mul x (Float fH)) as [p|]; [|discriminate].
    cbn [Py.bind] in Hs |- *.
    destruct (Py.div p y) as [q|]; [|discriminate].
    cbn [Py.bind] in Hs |- *. rewrite Hs. cbn [Py.bind].
    rewrite (int_denotes H (Float fH)); try lia;
      [|apply denotes_float; assumption].
    cbn [Py.bind]. do 2 eexists. split; [reflexivity|].
    split; left; reflexivity.
  - do 2 eexists. split; [reflexivity|]. split; assumption.
Qed.

(** What the integer size of the fit mode satisfies. *)
Lemma fit_size_bounds (w h W H : Z) :
  0 < w -> 0 < h -> 0 < W -> 0 < H ->
  let '(w2, h2) := fit_size w h W H in
  0 < w2 <= W /\ 0 < h2 <= H /\ w2 <= w /\ h2 <= h /\
  (w2 = W -> h2 < H -> h * W < w * H).
Proof.
  intros Hw Hh HW HH. unfold fit_size.
  assert (Hdiv : forall a b, 0 <= a -> 0 < b -> b * (a / b) <= a < b * (a / b + 1)).
  { intros a b Ha Hb. pose proof (Z.div_mod a b ltac:(lia)).
    pose proof (Z.mod_pos_bound a b Hb). nia. }
  destruct (Z.gtb_spec w W) as [Hgt|Hle].
  - pose proof (Hdiv (h * W) w ltac:(nia) Hw) as Hq.
    set (q := h * W / w) in *.
    assert (Hqh : q <= h) by nia.
    destruct (Z.gtb_spec (Z.max q 1) H) as [Hgt2|Hle2].
    + pose proof (Hdiv (W * H) (Z.max q 1) ltac:(nia) ltac:(lia)) as Hq2.
      set (q2 := W * H / Z.max q 1) in *.
      assert (q2 <= W) by nia.
      repeat split; try lia.
    + repeat split; try lia. intros _ Hlt. nia.
  - destruct (Z.gtb_spec h H) as [Hgt2|Hle2].
    + pose proof (Hdiv (w * H) h ltac:(nia) Hh) as Hq2.
      set (q2 := w * H / h) in *.
      assert (q2 <= w) by nia.
      repeat split; try lia.
    + repeat split; try lia. intros -> Hlt. nia.
Qed.

(** The integer size of the fit mode keeps the aspect ratio to within one
    pixel: some exactly proportional size [(s * w, s * h)] is within one pixel
    of it in both dimensions, which on integers reads as follows. *)
Lemma fit_size_aspect (w h W H : Z) :
  0 < w -> 0 < h -> 0 < W -> 0 < H ->
  let '(w2, h2) := fit_size w h W H in
  (w2 - 1) * h <= (h2 + 1) * w /\ (h2 - 1) * w <= (w2 + 1) * h.
Proof.
  intros Hw Hh HW HH. unfold fit_size.
  assert (Hdiv : forall a b, 0 <= a -> 0 < b -> b * (a / b) <= a < b * (a / b + 1)).
  { intros a b Ha Hb. pose proof (Z.div_mod a b ltac:(lia)).
    pose proof (Z.mod_pos_bound a b Hb). nia. }
  destruct (Z.gtb_spec w W) as [Hgt|Hle].
  - pose proof (Hdiv (h * W) w ltac:(nia) Hw) as Hq.
    set (q := h * W / w) in *.
    assert (Hq0 : 0 <= q) by (subst q; apply Z.div_pos; nia).
    destruct (Z.gtb_spec (Z.max q 1) H) as [Hgt2|Hle2].
    + assert (Hm : Z.max q 1 = q) by lia. rewrite Hm in *.
      pose proof (Hdiv (W * H) q ltac:(nia) ltac:(lia)) as Hq2.
      set (q2 := W * H / q) in *.
      assert (Hq20 : 0 <= q2) by (subst q2; apply Z.div_pos; nia).
      split.
      * (* (max q2 1 - 1) * h <= (H + 1) * w *)
        assert (Z.max q2 1 - 1 <= q2) by lia.
        assert (q2 * h <= (H + 1) * w); [|nia].
        (* q2 * q <= W * H and q + 1 > h W / w, H + 1 <= q *)
        assert (q2 * q * w <= W * H * w) by nia.
        assert (h * W * q2 < w * (q + 1) * q2 \/ q2 = 0) by nia.
        nia.
      * assert (w * (H - 1) <= w * H) by nia.
        assert (w * H * q <= h * W * H) by nia.
        assert (W * H < q * (q2 + 1)) by nia.
        assert (q2 + 1 <= Z.max q2 1 + 1) by lia.
        nia.
    + split.
      * assert (Z.max q 1 + 1 >= q + 1) by lia. nia.
      * assert (Z.max q 1 - 1 <= q) by lia. nia.
  - destruct (Z.gtb_spec h H) as [Hgt2|Hle2].
    + pose proof (Hdiv (w * H) h ltac:(nia) Hh) as Hq2.
      set (q2 := w * H / h) in *.
      assert (Hq20 : 0 <= q2) by (subst q2; apply Z.div_pos; nia).
      split.
      * assert (Z.max q2 1 - 1 <= q2) by lia. nia.
      * assert (q2 + 1 <= Z.max q2 1 + 1) by lia. nia.
    + split; nia.
Qed.

(** The scaled size of the fit mode, without upscaling. *)
Lemma get_scaled_size_fit (w h W H : Z) :
  0 < w <= 2 ^ 16 -> 0 < h <= 2 ^ 16 -> 0 < W <= 2 ^ 16 -> 0 < H <= 2 ^ 16 ->
  processors.get_scaled_size
    {| processors.rs_width := W; processors.rs_height := H;
       processors.rs_fit := "fit"; processors.rs_upscale := false;
       processors.rs_input_size := (w, h) |}
  = Ok (fit_size w h W H).
Proof.
  intros Hw Hh HW HH.
  pose proof (small_lt_2_53 w ltac:(lia)). pose proof (small_lt_2_53 h ltac:(lia)).
  pose proof (small_lt_2_53 W ltac:(lia)). pose proof (small_lt_2_53 H ltac:(lia)).
  unfold processors.get_scaled_size.
  cbn [processors.rs_input_size processors.rs_width processors.rs_height
       processors.rs_fit processors.rs_upscale fst snd Py.to_float].
  destruct (float_of_int_spec w ltac:(lia)) as (fw & -> & Hfw & Hvw).
  destruct (float_of_int_spec h ltac:(lia)) as (fh & -> & Hfh & Hvh).
  destruct (float_of_int_spec W ltac:(lia)) as (fW & -> & HfW & HvW).
  destruct (float_of_int_spec H ltac:(lia)) as (fH & -> & HfH & HvH).
  cbn [Py.bind]. rewrite div_float_l. cbn [Py.to_float Py.bind].
  rewrite (normal_nonzero 52 fh Hfh). cbn [Py.bind].
  destruct (narrow_spec w h W (Float fw) (Float fh) fW Hw Hh HW
              (denotes_float w fw Hfw Hvw) (denotes_float h fh Hfh Hvh)
              HfW HvW) as (x1 & y1 & -> & Hx1 & Hy1).
  cbn [Py.bind].
  set (w1 := if w >? W then W else w) in *.
  set (h1 := if w >? W then Z.max (h * W / w) 1 else h) in *.
  assert (Hw1 : 0 < w1 <= 2 ^ 16) by (subst w1; destruct (w >? W); lia).
  assert (Hh1 : 0 < h1 <= 2 ^ 16).
  { subst h1. destruct (Z.gtb_spec w W); [|lia]. split; [lia|].
    assert (h * W / w <= h); [|lia].
    apply Z.div_le_upper_bound; nia. }
  destruct (shorten_spec w1 h1 H x1 y1 fH Hw1 Hh1 HH Hx1 Hy1 HfH HvH)
    as (x2 & y2 & -> & Hx2 & Hy2).
  cbn [Py.bind]. change (String.eqb "fit" "fit") with true.
  cbn [negb Py.bind fst snd].
  assert (E : fit_size w h W H
              = (if h1 >? H then Z.max (w1 * H / h1) 1 else w1,
                 if h1 >? H then H else h1)).
  { unfold fit_size. subst w1 h1.
    destruct (w >? W); destruct (_ >? H); reflexivity. }
  rewrite E.
  pose proof (fit_size_bounds w h W H ltac:(lia) ltac:(lia) ltac:(lia) ltac:(lia))
    as Hb. rewrite E in Hb.
  set (w2 := if h1 >? H then Z.max (w1 * H / h1) 1 else w1) in *.
  set (h2 := if h1 >? H then H else h1) in *.
  assert (Hw2 : 0 < w2 < 2 ^ 53) by (split; [lia|apply small_lt_2_53; lia]).
  assert (Hh2 : 0 < h2 < 2 ^ 53) by (split; [lia|apply small_lt_2_53; lia]).
  rewrite (int_ceil_denotes w2 x2 Hw2 Hx2). cbn [Py.bind].
  rewrite (int_ceil_denotes h2 y2 Hh2 Hy2). reflexivity.
Qed.

Lemma ceil_bounds (v a b : Z) :
  a * K <= v <= b * K -> a <= - ((- v) / K) <= b.
Proof.
  pose proof K_pos as HK. intros Hv.
  pose proof (Z.div_mod (- v) K ltac:(lia)).
  pose proof (Z.mod_pos_bound (- v) K HK). nia.
Qed.

Lemma representable_pow2 (e : Z) : 0 <= e -> representable (2 ^ e).
Proof.
  intros He. exists 1, e. repeat split; lia.
Qed.

(** The rounded aspect ratio of an image whose sides are at most
    [2 ^ 16]. *)
Lemma aspect_ratio_spec (w h : Z) (fw fh : float) :
  0 < w <= 2 ^ 16 -> 0 < h <= 2 ^ 16 ->
  normal 52 fw -> V fw = w * K -> normal 52 fh -> V fh = h * K ->
  let ar := Py.fquo fw fh in
  normal 157 ar /\ faithful (w * K * K) (h * K) (V ar) /\
  2 ^ 1058 <= V ar <= 2 ^ 1090.
Proof.
  pose proof K_pos as HK.
  intros Hw Hh Hfw Hvw Hfh Hvh ar.
  destruct (fquo_spec 52 52 fw fh Hfw Hfh) as [Hn Hf]; try lia.
  fold ar in Hn, Hf. rewrite Hvw, Hvh in Hf.
  split; [exact Hn|]. split; [exact Hf|].
  destruct Hf as (_ & Hlo & Hhi).
  assert (EK : K = 2 ^ 16 * 2 ^ 1058) by reflexivity.
  assert (EK' : 2 ^ 1090 = 2 ^ 16 * K) by reflexivity.
  pose proof (pow2_pos 1058) as H1058. pose proof (pow2_pos 16) as H16.
  split.
  - apply Hlo; [apply representable_pow2; lia|].
    replace (2 ^ 1058 * (h * K)) with (h * 2 ^ 1058 * K) by ring.
    apply Z.mul_le_mono_nonneg_r; [lia|]. rewrite EK. nia.
  - apply Hhi; [apply representable_pow2; lia|].
    rewrite EK'.
    replace (2 ^ 16 * K * (h * K)) with (2 ^ 16 * h * K * K) by ring.
    apply Z.mul_le_mono_nonneg_r; [lia|].
    apply Z.mul_le_mono_nonneg_r; [lia|]. nia.
Qed.

(** The rounded aspect ratio is not below a ratio [W / H] that the exact
    one exceeds. *)
Lemma aspect_ratio_above (w h W H var : Z) :
  0 < w <= 2 ^ 16 -> 0 < h <= 2 ^ 16 -> 0 < W <= 2 ^ 16 -> 0 < H <= 2 ^ 16 ->
  faithful (w * K * K) (h * K) var ->
  h * W < w * H ->
  W * K <= H * var.
Proof.
  pose proof K_pos as HK.
  intros Hw Hh HW HH (_ & Hlo & _) Hlt.
  (* a representable value between W / H and w / h *)
  set (c := (W * 2 ^ 34 + H - 1) / H).
  assert (Hc : H * c <= W * 2 ^ 34 + H - 1 < H * (c + 1)).
  { subst c. pose proof (Z.div_mod (W * 2 ^ 34 + H - 1) H ltac:(lia)).
    pose proof (Z.mod_pos_bound (W * 2 ^ 34 + H - 1) H ltac:(lia)). nia. }
  pose proof (pow2_pos 34) as H34. pose proof (pow2_pos 1040) as H1040.
  assert (EK : K = 2 ^ 34 * 2 ^ 1040) by reflexivity.
  assert (E16 : 2 ^ 34 = 2 ^ 16 * 2 ^ 18) by reflexivity.
  assert (E53 : 2 ^ 53 = 2 ^ 16 * 2 ^ 34 * 8) by reflexivity.
  pose proof (pow2_pos 16) as H16. pose proof (pow2_pos 18) as H18.
  assert (Hc0 : 0 <= c) by nia.
  assert (Hcw : W * 2 ^ 34 <= H * c) by nia.
  assert (Hcb : c <= W * 2 ^ 34) by nia.
  assert (Hz : c * 2 ^ 1040 <= var).
  { apply Hlo.
    - apply representable_int; [|lia]. split; [lia|]. rewrite E53. nia.
    - replace (c * 2 ^ 1040 * (h * K)) with ((c * h) * (2 ^ 1040 * K)) by ring.
      replace (w * K * K) with ((w * 2 ^ 34) * (2 ^ 1040 * K))
        by (rewrite EK; ring).
      apply Z.mul_le_mono_nonneg_r; [nia|].
      (* c * h <= w * 2 ^ 34, from c * H <= W * 2^34 + H - 1 *)
      assert (c * h * H <= w * 2 ^ 34 * H); [|nia].
      assert (c * H * h <= (W * 2 ^ 34 + H - 1) * h) by nia.
      assert (W * h + 1 <= w * H) by lia.
      assert (h * H <= 2 ^ 16 * 2 ^ 16) by nia.
      assert (2 ^ 16 * 2 ^ 16 < 2 ^ 34) by (rewrite E16; nia).
      nia. }
  rewrite EK.
  assert (H * (c * 2 ^ 1040) <= H * var) by nia.
  nia.
Qed.

Lemma int_ceil_float (f : float) (k a b : Z) :
  normal k f -> k <= 971 -> a * K <= V f <= b * K ->
  exists n, Py.int_ceil (Float f) = Ok n /\ a <= n <= b.
Proof.
  intros Hf Hk Hv. unfold Py.int_ceil. cbn [Py.to_float Py.bind].
  rewrite ceil_V by (apply (normal_finite k); assumption).
  eexists. split; [reflexivity|]. apply ceil_bounds. exact Hv.
Qed.

(** [box_height * aspect_ratio], the width that [heighten] assigns. *)
Lemma mul_box_ar (W H : Z) (fH ar : float) :
  0 < W <= 2 ^ 16 -> 0 < H <= 2 ^ 16 ->
  normal 52 fH -> V fH = H * K ->
  normal 157 ar -> 2 ^ 1058 <= V ar <= 2 ^ 1090 ->
  W * K <= H * V ar ->
  exists n, Py.int_ceil (Float (Py.fmul fH ar)) = Ok n /\ W <= n <= 2 ^ 32.
Proof.
  pose proof K_pos as HK.
  intros HW HH HfH HvH Har Hvar Hle.
  destruct (fmul_spec 52 157 fH ar HfH Har) as [Hn (_ & Hlo & Hhi)]; try lia.
  apply (int_ceil_float _ _ _ _ Hn); [lia|].
  rewrite HvH in Hlo, Hhi. split.
  - apply Hlo.
    + unfold K. apply representable_int; [|lia].
      pose proof (small_lt_2_53 W ltac:(lia)). lia.
    + replace (H * K * V ar) with (H * V ar * K) by ring.
      apply Z.mul_le_mono_nonneg_r; lia.
  - apply Hhi.
    + unfold K. apply representable_int; [|lia].
      assert (2 ^ 32 < 2 ^ 53) by (apply Z.pow_lt_mono_r; lia).
      pose proof (pow2_pos 32). lia.
    + replace (H * K * V ar) with (H * V ar * K) by ring.
      apply Z.mul_le_mono_nonneg_r; [lia|].
      assert (E : 2 ^ 32 * K = 2 ^ 16 * 2 ^ 1090) by reflexivity.
      rewrite E. pose proof (pow2_pos 1090). pose proof (pow2_pos 16). nia.
Qed.

(** [box_width / aspect_ratio], the height that [widen] assigns. *)
Lemma div_box_ar (W : Z) (fW ar : float) :
  0 < W <= 2 ^ 16 ->
  normal 52 fW -> V fW = W * K ->
  normal 157 ar -> 2 ^ 1058 <= V ar <= 2 ^ 1090 ->
  let t := Py.fquo fW ar in
  normal 262 t /\ faithful (W * K * K) (V ar) (V t) /\ 0 < V t <= 2 ^ 32 * K.
Proof.
  pose proof K_pos as HK.
  intros HW HfW HvW Har Hvar t.
  destruct (fquo_spec 52 157 fW ar HfW Har) as [Hn Hf]; try lia.
  fold t in Hn, Hf. rewrite HvW in Hf.
  split; [exact Hn|]. split; [exact Hf|].
  split; [apply (normal_V_pos 262); [lia|exact Hn]|].
  destruct Hf as (_ & _ & Hhi). apply Hhi.
  - unfold K. apply representable_int; [|lia].
    assert (2 ^ 32 < 2 ^ 53) by (apply Z.pow_lt_mono_r; lia).
    pose proof (pow2_pos 32). lia.
  - assert (E : 2 ^ 32 * K = 2 ^ 16 * 2 ^ 1090) by reflexivity.
    assert (EK : 2 ^ 1090 = K * 2 ^ 16) by reflexivity.
    assert (EK' : K = 2 ^ 16 * 2 ^ 1058) by reflexivity.
    pose proof (pow2_pos 1058). pose proof (pow2_pos 16).
    apply Z.le_trans with (2 ^ 32 * K * 2 ^ 1058); [|nia].
    rewrite E, EK. rewrite EK' at 2.
    replace (2 ^ 16 * (K * 2 ^ 16) * 2 ^ 1058)
      with (2 ^ 16 * (2 ^ 16 * 2 ^ 1058) * K) by ring.
    rewrite <- EK'.
    apply Z.mul_le_mono_nonneg_r; [lia|].
    apply Z.mul_le_mono_nonneg_r; lia.
Qed.

(** The branches that enlarge the image for cropping leave a size that
    covers the box. *)
Lemma enlarge_spec (w h W H w2 h2 : Z) (x2 y2 : num) (fW fH ar : float) :
  0 < w <= 2 ^ 16 -> 0 < h <= 2 ^ 16 -> 0 < W <= 2 ^ 16 -> 0 < H <= 2 ^ 16 ->
  normal 52 fW -> V fW = W * K -> normal 52 fH -> V fH = H * K ->
  normal 157 ar -> faithful (w * K * K) (h * K) (V ar) ->
  2 ^ 1058 <= V ar <= 2 ^ 1090 ->
  0 < w2 <= W -> 0 < h2 <= H -> (w2 = W -> h2 < H -> h * W < w * H) ->
  denotes w2 x2 -> denotes h2 y2 ->
  exists x3 y3 sw sh,
    (wh <- processors.widen (Float ar) (Float fW) (x2, y2) ;;
     processors.heighten (Float ar) (Float fH) wh) = Ok (x3, y3) /\
    Py.int_ceil x3 = Ok sw /\ Py.int_ceil y3 = Ok sh /\
    W <= sw <= 2 ^ 32 /\ H <= sh <= 2 ^ 32.
Proof.
  pose proof K_pos as HK.
  intros Hw Hh HW HH HfW HvW HfH HvH Har Hfar Hvar Hw2 Hh2 Hfact Hx2 Hy2.
  pose proof (small_lt_2_53 W ltac:(lia)) as HW53.
  pose proof (small_lt_2_53 H ltac:(lia)) as HH53.
  assert (H32 : 2 ^ 16 <= 2 ^ 32) by (apply Z.pow_le_mono_r; lia).
  assert (HdW : denotes W (Float fW)) by (apply denotes_float; assumption).
  assert (HdH : denotes H (Float fH)) by (apply denotes_float; assumption).
  unfold processors.widen. cbn [fst snd].
  rewrite (lt_denotes w2 W x2 (Float fW)) by (assumption || lia).
  destruct (Z.ltb_spec w2 W) as [Hlt|Hge].
  - (* widened *)
    rewrite div_float_l. cbn [Py.to_float Py.bind].
    rewrite (normal_nonzero 157 ar Har). cbn [Py.bind].
    destruct (div_box_ar W fW ar HW HfW HvW Har Hvar) as (Hnt & Hft & Hvt).
    set (t := Py.fquo fW ar) in *.
    unfold processors.heighten. cbn [fst snd].
    unfold Py.lt. cbn [Py.compare].
    rewrite (SFcompare_V 262 52 t fH Hnt HfH) by lia. rewrite HvH.
    destruct (Z.compare_spec (V t) (H * K)) as [E|E|E].
    + exists (Float fW), (Float t).
      destruct (int_ceil_float t 262 H (2 ^ 32) Hnt ltac:(lia) ltac:(lia))
        as (sh & Hsh & Hshb).
      exists W, sh. split; [reflexivity|].
      split; [apply int_ceil_denotes; [lia|exact HdW]|].
      split; [exact Hsh|]. split; lia.
    + unfold Py.mul. rewrite arith_float_r. cbn [Py.to_float Py.bind].
      assert (Hle : W * K <= H * V ar).
      { destruct Hft as (_ & Hlo & _).
        destruct (Z.le_gt_cases (W * K) (H * V ar)) as [Hok|Hbad];
          [exact Hok|].
        assert (H * K <= V t); [|lia].
        apply Hlo.
        - unfold K. apply representable_int; lia.
        - replace (H * K * V ar) with (H * V ar * K) by ring.
          apply Z.mul_le_mono_nonneg_r; lia. }
      destruct (mul_box_ar W H fH ar HW HH HfH HvH Har Hvar Hle)
        as (sw & Hsw & Hswb).
      exists (Float (Py.fmul fH ar)), (Float fH), sw, H.
      split; [reflexivity|]. split; [exact Hsw|].
      split; [apply int_ceil_denotes; [lia|exact HdH]|]. split; lia.
    + exists (Float fW), (Float t).
      destruct (int_ceil_float t 262 H (2 ^ 32) Hnt ltac:(lia) ltac:(lia))
        as (sh & Hsh & Hshb).
      exists W, sh. split; [reflexivity|].
      split; [apply int_ceil_denotes; [lia|exact HdW]|].
      split; [exact Hsh|]. split; lia.
  - (* the width already covers the box *)
    assert (Ew : w2 = W) by lia. subst w2.
    cbn [Py.bind]. unfold processors.heighten. cbn [fst snd].
    rewrite (lt_denotes h2 H y2 (Float fH)) by (assumption || lia).
    destruct (Z.ltb_spec h2 H) as [Hlt|Hge2].
    + unfold Py.mul. rewrite arith_float_r. cbn [Py.to_float Py.bind].
      pose proof (aspect_ratio_above w h W H (V ar) Hw Hh HW HH Hfar
                    (Hfact eq_refl Hlt)) as Hle.
      destruct (mul_box_ar W H fH ar HW HH HfH HvH Har Hvar Hle)
        as (sw & Hsw & Hswb).
      exists (Float (Py.fmul fH ar)), (Float fH), sw, H.
      split; [reflexivity|]. split; [exact Hsw|].
      split; [apply int_ceil_denotes; [lia|exact HdH]|]. split; lia.
    + assert (Eh : h2 = H) by lia. subst h2.
      exists x2, y2, W, H. split; [reflexivity|].
      split; [apply int_ceil_denotes; [lia|exact Hx2]|].
      split; [apply int_ceil_denotes; [lia|exact Hy2]|]. split; lia.
Qed.

(** The scaled size of an anchor mode, without upscaling, covers the box. *)
Lemma get_scaled_size_anchor (w h W H : Z) (fit : string) :
  0 < w <= 2 ^ 16 -> 0 < h <= 2 ^ 16 -> 0 < W <= 2 ^ 16 -> 0 < H <= 2 ^ 16 ->
  String.eqb fit "fit" = false ->
  exists sw sh,
    processors.get_scaled_size
      {| processors.rs_width := W; processors.rs_height := H;
         processors.rs_fit := fit; processors.rs_upscale := false;
         processors.rs_input_size := (w, h) |}
    = Ok (sw, sh) /\
    W <= sw <= 2 ^ 32 /\ H <= sh <= 2 ^ 32.
Proof.
  intros Hw Hh HW HH Hfit.
  pose proof (small_lt_2_53 w ltac:(lia)). pose proof (small_lt_2_53 h ltac:(lia)).
  pose proof (small_lt_2_53 W ltac:(lia)). pose proof (small_lt_2_53 H ltac:(lia)).
  unfold processors.get_scaled_size.
  cbn [processors.rs_input_size processors.rs_width processors.rs_height
       processors.rs_fit processors.rs_upscale fst snd Py.to_float].
  destruct (float_of_int_spec w ltac:(lia)) as (fw & -> & Hfw & Hvw).
  destruct (float_of_int_spec h ltac:(lia)) as (fh & -> & Hfh & Hvh).
  destruct (float_of_int_spec W ltac:(lia)) as (fW & -> & HfW & HvW).
  destruct (float_of_int_spec H ltac:(lia)) as (fH & -> & HfH & HvH).
  cbn [Py.bind]. rewrite div_float_l. cbn [Py.to_float Py.bind].
  rewrite (normal_nonzero 52 fh Hfh). cbn [Py.bind].
  destruct (aspect_ratio_spec w h fw fh Hw Hh Hfw Hvw Hfh Hvh)
    as (Har & Hfar & Hvar).
  set (ar := Py.fquo fw fh) in *.
  destruct (narrow_spec w h W (Float fw) (Float fh) fW Hw Hh HW
              (denotes_float w fw Hfw Hvw) (denotes_float h fh Hfh Hvh)
              HfW HvW) as (x1 & y1 & -> & Hx1 & Hy1).
  cbn [Py.bind].
  set (w1 := if w >? W then W else w) in *.
  set (h1 := if w >? W then Z.max (h * W / w) 1 else h) in *.
  assert (Hw1 : 0 < w1 <= 2 ^ 16) by (subst w1; destruct (w >? W); lia).
  assert (Hh1 : 0 < h1 <= 2 ^ 16).
  { subst h1. destruct (Z.gtb_spec w W); [|lia]. split; [lia|].
    assert (h * W / w <= h); [|lia].
    apply Z.div_le_upper_bound; nia. }
  destruct (shorten_spec w1 h1 H x1 y1 fH Hw1 Hh1 HH Hx1 Hy1 HfH HvH)
    as (x2 & y2 & -> & Hx2 & Hy2).
  cbn [Py.bind]. rewrite Hfit. cbn [negb].
  assert (E : fit_size w h W H
              = (if h1 >? H then Z.max (w1 * H / h1) 1 else w1,
                 if h1 >? H then H else h1)).
  { unfold fit_size. subst w1 h1.
    destruct (w >? W); destruct (_ >? H); reflexivity. }
  pose proof (fit_size_bounds w h W H ltac:(lia) ltac:(lia) ltac:(lia) ltac:(lia))
    as Hb. rewrite E in Hb.
  set (w2 := if h1 >? H then Z.max (w1 * H / h1) 1 else w1) in *.
  set (h2 := if h1 >? H then H else h1) in *.
  destruct Hb as (Hw2 & Hh2 & _ & _ & Hfact).
  destruct (enlarge_spec w h W H w2 h2 x2 y2 fW fH ar Hw Hh HW HH
              HfW HvW HfH HvH Har Hfar Hvar Hw2 Hh2 Hfact Hx2 Hy2)
    as (x3 & y3 & sw & sh & -> & Hsw & Hsh & Hbw & Hbh).
  cbn [Py.bind fst snd]. rewrite Hsw. cbn [Py.bind]. rewrite Hsh.
  cbn [Py.bind]. exists sw, sh. repeat split; lia.
Qed.

Section ResizeOperator.
Context {B : PIL.Backend}.

(** The resize operator in fit mode returns the image resized to
    [fit_size]. *)
Lemma resize_processor_fit (image : PIL.image) (W H : Z) :
  let '(w, h) := PIL.size image in
  0 < w <= 2 ^ 16 -> 0 < h <= 2 ^ 16 -> 0 < W <= 2 ^ 16 -> 0 < H <= 2 ^ 16 ->
  processors.resize_processor image
    {| processors.width := Some W; processors.height := Some H;
       processors.fit := "fit"; processors.upscale := false |}
  = Ok (PIL.resize image (fit_size w h W H)).
Proof.
  destruct (PIL.size image) as [w h] eqn:Hsz.
  intros Hw Hh HW HH.
  unfold processors.resize_processor, processors.resize_process,
    processors.resize_prep.
  rewrite Hsz.
  cbn [processors.width processors.height processors.fit processors.upscale
       Py.int_or processors.rs_fit].
  replace (W =? 0) with false by (symmetry; apply Z.eqb_neq; lia).
  replace (H =? 0) with false by (symmetry; apply Z.eqb_neq; lia).
  rewrite (get_scaled_size_fit w h W H Hw Hh HW HH).
  reflexivity.
Qed.

(** The resize operator in an anchor mode returns an image of exactly the
    size of the box. *)
Lemma resize_processor_anchor (image : PIL.image) (W H : Z) (fit : string) :
  let '(w, h) := PIL.size image in
  0 < w <= 2 ^ 16 -> 0 < h <= 2 ^ 16 -> 0 < W <= 2 ^ 16 -> 0 < H <= 2 ^ 16 ->
  Py.str_in fit ["center"; "crop"; "fill"; "top"; "left"; "right"; "bottom"]%string
    = true ->
  exists out,
    processors.resize_processor image
      {| processors.width := Some W; processors.height := Some H;
         processors.fit := fit; processors.upscale := false |}
    = Ok out /\
    PIL.size out = (W, H).
Proof.
  destruct (PIL.size image) as [w h] eqn:Hsz.
  intros Hw Hh HW HH Hfit.
  assert (Hnf : String.eqb fit "fit" = false).
  { destruct (String.eqb_spec fit "fit") as [->|]; [discriminate|reflexivity]. }
  unfold processors.resize_processor, processors.resize_process,
    processors.resize_prep.
  rewrite Hsz.
  cbn [processors.width processors.height processors.fit processors.upscale
       Py.int_or processors.rs_fit processors.rs_width processors.rs_height].
  replace (W =? 0) with false by (symmetry; apply Z.eqb_neq; lia).
  replace (H =? 0) with false by (symmetry; apply Z.eqb_neq; lia).
  destruct (get_scaled_size_anchor w h W H fit Hw Hh HW HH Hnf)
    as (sw & sh & -> & Hsw & Hsh).
  cbn [Py.bind]. rewrite Hnf. cbn [negb].
  set (resized := PIL.resize image (sw, sh)).
  assert (Hrs : PIL.size resized = (sw, sh)).
  { unfold resized, PIL.resize, PIL.size. cbn [PIL.width PIL.height fst snd].
    rewrite !Z2N.id by lia. reflexivity. }
  assert (H52 : 2 ^ 32 < 2 ^ 52) by (apply Z.pow_lt_mono_r; lia).
  pose proof (get_crop_box_closed resized W H fit) as Hbox.
  rewrite Hrs in Hbox. cbv zeta in Hbox.
  specialize (Hbox ltac:(lia) ltac:(lia) ltac:(lia) ltac:(lia)).
  rewrite Hbox.
  replace (Z.min W sw) with W by lia. replace (Z.min H sh) with H by lia.
  assert (Hsize : forall x1 y1,
            PIL.size (PIL.crop resized (x1, y1, x1 + W, y1 + H)) = (W, H)).
  { intros x1 y1. unfold PIL.crop, PIL.size. cbn [PIL.width PIL.height].
    replace (x1 + W - x1) with W by lia. replace (y1 + H - y1) with H by lia.
    rewrite !Z2N.id by lia. reflexivity. }
  unfold Py.str_in in Hfit. cbn [existsb] in Hfit.
  unfold Py.str_in. cbn [existsb].
  destruct (String.eqb fit "center"); [eexists; split; [reflexivity|apply Hsize]|].
  destruct (String.eqb fit "crop"); [eexists; split; [reflexivity|apply Hsize]|].
  destruct (String.eqb fit "fill"); [eexists; split; [reflexivity|apply Hsize]|].
  cbn [orb].
  destruct (String.eqb fit "top"); [eexists; split; [reflexivity|apply Hsize]|].
  destruct (String.eqb fit "left"); [eexists; split; [reflexivity|apply Hsize]|].
  destruct (String.eqb fit "right"); [eexists; split; [reflexivity|apply Hsize]|].
  destruct (String.eqb fit "bottom"); [eexists; split; [reflexivity|apply Hsize]|].
  discriminate.
Qed.
End ResizeOperator.

(** *** The error monad *)

Lemma bind_ok_inv {A B : Type} (c : result A) (k : A -> result B) (b : B) :
  Py.bind c k = Ok b -> exists a, c = Ok a /\ k a = Ok b.
Proof.
  destruct c as [a|e]; simpl; intros H; [eauto | discriminate].
Qed.

Ltac bind_inv H :=
  let a := fresh "a" in
  let Ha := fresh "Ha" in
  apply bind_ok_inv in H; destruct H as (a & Ha & H).

(** *** The anchor crop box *)

(** Whatever the anchor, the box has the extent of the target size clamped
    to the image. *)
Lemma get_crop_box_extent (im : PIL.image) (width height : Z) (anchor : string)
    (x1 y1 x2 y2 : Z) :
  processors.get_crop_box im width height anchor = Ok (x1, y1, x2, y2) ->
  x2 - x1 = Z.min width (fst (PIL.size im)) /\
  y2 - y1 = Z.min height (snd (PIL.size im)).
Proof.
  unfold processors.get_crop_box.
  destruct (PIL.size im) as [w h]; simpl fst; simpl snd.
  intros H.
  do 5 bind_inv H.
  destruct a3 as [u v].
  injection H as <- <- <- <-.
  split.
  - destruct (Z.gtb_spec width w); lia.
  - destruct (Z.gtb_spec height h); lia.
Qed.

(** *** Formatting an integer *)

Lemma format_int_inj (a b : Z) :
  Py.format_int a = Py.format_int b -> a = b.
Proof.
  unfold Py.format_int; intros H.
  assert (Hnil : forall z, Z.to_int z <> Decimal.Pos Decimal.Nil /\
                           Z.to_int z <> Decimal.Neg Decimal.Nil).
  { intros [|q|q]; simpl; split; try discriminate;
      intros E; injection E as E; exact (Unsigned.to_uint_nonnil q E). }
  assert (E : Some (Z.to_int a) = Some (Z.to_int b)).
  { rewrite <- (NilZero.isi (Z.to_int a)) by apply Hnil.
    rewrite <- (NilZero.isi (Z.to_int b)) by apply Hnil.
    now rewrite H. }
  injection E as E.
  rewrite <- (DecimalZ.of_to a), <- (DecimalZ.of_to b).
  now rewrite E.
Qed.

(** The constant [ROTATE_<degrees>] exists for 90, 180 and 270 only. *)
Lemma getattr_rotate (d : Z) :
  PIL.getattr ("ROTATE_" ++ Py.format_int d) =
    if d =? 90 then Ok PIL.ROTATE_90
    else if d =? 180 then Ok PIL.ROTATE_180
    else if d =? 270 then Ok PIL.ROTATE_270
    else Raise Py.AttributeError.
Proof.
  assert (Hk : forall k, String.eqb (Py.format_int d) (Py.format_int k)
                         = (d =? k)).
  { intros k. destruct (Z.eqb_spec d k) as [->|Hne].
    - apply String.eqb_refl.
    - apply String.eqb_neq. intros E. apply Hne, format_int_inj, E. }
  unfold PIL.getattr.
  change (String.eqb ("ROTATE_" ++ Py.format_int d) "FLIP_LEFT_RIGHT")
    with false.
  change (String.eqb ("ROTATE_" ++ Py.format_int d) "FLIP_TOP_BOTTOM")
    with false.
  change (String.eqb ("ROTATE_" ++ Py.format_int d) "ROTATE_90")
    with (String.eqb (Py.format_int d) (Py.format_int 90)).
  change (String.eqb ("ROTATE_" ++ Py.format_int d) "ROTATE_180")
    with (String.eqb (Py.format_int d) (Py.format_int 180)).
  change (String.eqb ("ROTATE_" ++ Py.format_int d) "ROTATE_270")
    with (String.eqb (Py.format_int d) (Py.format_int 270)).
  rewrite !Hk. reflexivity.
Qed.

(** *** Sign symmetry of binary64 arithmetic *)

Lemma fopp_involutive (x : float) : Py.fopp (Py.fopp x) = x.
Proof. destruct x; simpl; rewrite ?negb_involutive; reflexivity. Qed.

Lemma binary_round_aux_opp (s : bool) (m e : Z) (l : location) :
  binary_round_aux 53 1024 (negb s) m e l
    = SFopp (binary_round_aux 53 1024 s m e l).
Proof.
  unfold binary_round_aux.
  destruct (shr_fexp 53 1024 m e l) as [mrs' e'].
  destruct (shr_fexp 53 1024 _ e' loc_Exact) as [mrs'' e''].
  destruct (shr_m mrs''); try reflexivity.
  destruct (e'' <=? 1024 - 53); reflexivity.
Qed.

Lemma binary_round_opp (s : bool) (m : positive) (e : Z) :
  binary_round 53 1024 (negb s) m e = SFopp (binary_round 53 1024 s m e).
Proof.
  unfold binary_round.
  destruct (shl_align m e _) as [mz ez]. apply binary_round_aux_opp.
Qed.

Lemma xorb_negb_l (a b : bool) : xorb (negb a) b = negb (xorb a b).
Proof. destruct a, b; reflexivity. Qed.

Lemma xorb_negb_r (a b : bool) : xorb a (negb b) = negb (xorb a b).
Proof. destruct a, b; reflexivity. Qed.

Lemma fmul_opp_l (x y : float) :
  Py.fmul (Py.fopp x) y = Py.fopp (Py.fmul x y).
Proof.
  unfold Py.fmul, Py.fopp, Py.prec, Py.emax.
  destruct x as [sx|sx| |sx mx ex], y as [sy|sy| |sy my ey];
    cbn [SFmul SFopp]; rewrite ?xorb_negb_l; try reflexivity.
  apply binary_round_aux_opp.
Qed.

Lemma fmul_opp_r (x y : float) :
  Py.fmul x (Py.fopp y) = Py.fopp (Py.fmul x y).
Proof.
  unfold Py.fmul, Py.fopp, Py.prec, Py.emax.
  destruct x as [sx|sx| |sx mx ex], y as [sy|sy| |sy my ey];
    cbn [SFmul SFopp]; rewrite ?xorb_negb_r; try reflexivity.
  apply binary_round_aux_opp.
Qed.

Lemma fmul_opp_opp (x : float) :
  Py.fmul (Py.fopp x) (Py.fopp x) = Py.fmul x x.
Proof. now rewrite fmul_opp_l, fmul_opp_r, fopp_involutive. Qed.

Lemma fquo_opp_l (x y : float) :
  Py.fquo (Py.fopp x) y = Py.fopp (Py.fquo x y).
Proof.
  unfold Py.fquo, Py.fopp, Py.prec, Py.emax.
  destruct x as [sx|sx| |sx mx ex], y as [sy|sy| |sy my ey];
    cbn [SFdiv SFopp]; rewrite ?xorb_negb_l; try reflexivity.
  destruct (SFdiv_core_binary 53 1024 (Z.pos mx) ex (Z.pos my) ey)
    as [[mz ez] lz].
  apply binary_round_aux_opp.
Qed.

Lemma is_inf_opp (x : float) : Py.is_inf (Py.fopp x) = Py.is_inf x.
Proof. destruct x; reflexivity. Qed.

Lemma is_zero_opp (x : float) : Py.is_zero (Py.fopp x) = Py.is_zero x.
Proof. destruct x; reflexivity. Qed.

Lemma fabs_opp (x : float) : Py.fabs (Py.fopp x) = Py.fabs x.
Proof. destruct x; reflexivity. Qed.

(** The float of the opposite of a non-zero integer is the opposite float. *)
Lemma float_of_int_opp (z : Z) :
  z <> 0 ->
  Py.float_of_int (- z) = Py.map Py.fopp (Py.float_of_int z).
Proof.
  intros Hz. unfold Py.float_of_int, Py.prec, Py.emax.
  destruct z as [|p|p]; [contradiction| |]; cbn [Z.opp binary_normalize].
  - pose proof (binary_round_opp false p 0) as E. cbn [negb] in E.
    rewrite E. fold Py.fopp. rewrite is_inf_opp.
    destruct (Py.is_inf _); reflexivity.
  - pose proof (binary_round_opp true p 0) as E. cbn [negb] in E.
    rewrite E. fold Py.fopp. rewrite is_inf_opp.
    destruct (Py.is_inf _); reflexivity.
Qed.

Section Radians.
Context {B : PIL.Backend}.

(** The angle of the opposite degrees is the opposite angle. *)
Lemma radians_opp (d : Z) :
  d <> 0 ->
  processors.radians (- d) = Py.map Py.fopp (processors.radians d).
Proof.
  intros Hd. unfold processors.radians, Py.mul.
  rewrite !arith_float_r. cbn [Py.to_float].
  rewrite (float_of_int_opp d Hd).
  destruct (Py.float_of_int d) as [a|e]; [|reflexivity].
  cbn [Py.map Py.bind]. rewrite fmul_opp_l.
  rewrite !div_float_l. cbn [Py.to_float].
  destruct (Py.float_of_int 180) as [b|e]; [|reflexivity].
  cbn [Py.bind]. destruct (Py.is_zero b); [reflexivity|].
  cbn [Py.bind Py.to_float Py.map]. now rewrite fquo_opp_l.
Qed.
End Radians.

Lemma poly_sin_odd (x : float) :
  sample.poly_sin (Py.fopp x) = Py.fopp (sample.poly_sin x).
Proof.
  unfold sample.poly_sin. rewrite fmul_opp_opp. cbv zeta.
  apply fmul_opp_l.
Qed.

Lemma poly_cos_even (x : float) :
  sample.poly_cos (Py.fopp x) = sample.poly_cos x.
Proof.
  unfold sample.poly_cos. now rewrite fmul_opp_opp.
Qed.

(** *** The crop operator with a box of zeros *)

Lemma zero_percent : Py.div (Int 0) (Float Py.f100) = Ok (Float (S754_zero false)).
Proof. reflexivity. Qed.

Lemma mul_zero_int (n : Z) :
  0 <= n < 2 ^ 53 ->
  Py.mul (Float (S754_zero false)) (Int n) = Ok (Float (S754_zero false)).
Proof.
  intros Hn. unfold Py.mul, Py.arith. cbn [Py.to_float Py.bind].
  destruct (float_of_nonneg n Hn) as (f & -> & [->|Hf] & _); cbn [Py.bind].
  - reflexivity.
  - destruct (normal_inv 52 f Hf) as (m & e & -> & _). reflexivity.
Qed.

Lemma sub_zero_float (n : Z) :
  0 <= n < 2 ^ 53 ->
  exists c, Py.sub (Int n) (Float (S754_zero false)) = Ok c /\ Py.int c = Ok n.
Proof.
  pose proof K_pos as HK.
  intros Hn. unfold Py.sub, Py.arith. cbn [Py.to_float].
  destruct (float_of_nonneg n Hn) as (f & -> & [->|Hf] & Hv); cbn [Py.bind].
  - eexists. split; [reflexivity|]. cbn [V] in Hv. cbn. f_equal. nia.
  - destruct (normal_inv 52 f Hf) as (m & e & -> & _ & He & _).
    eexists. split; [reflexivity|].
    cbn [Py.fsub SFsub Py.int].
    rewrite trunc_V by (simpl; lia).
    rewrite Hv, Z.quot_mul by lia. reflexivity.
Qed.

(** With a box of four zeros the crop box is the whole image. *)
Lemma crop_box_of_zeros (s : processors.sequence) (percent : bool) (w h : Z) :
  processors.items s = [Some (Int 0); Some (Int 0); Some (Int 0); Some (Int 0)] ->
  0 <= w < 2 ^ 53 -> 0 <= h < 2 ^ 53 ->
  processors.crop_get_crop_box
    {| processors.crop_box := Some s; processors.crop_percent := percent |} w h
  = Ok (0, 0, w, h).
Proof.
  intros Hs Hw Hh. unfold processors.crop_get_crop_box.
  cbn [processors.crop_box processors.crop_percent].
  rewrite Hs. cbn [Py.truthy_list].
  assert (Hfill : processors.fill_missing s = Ok [Int 0; Int 0; Int 0; Int 0]).
  { destruct s as [l|l]; simpl in Hs; subst l; reflexivity. }
  rewrite Hfill. cbn [Py.bind].
  destruct percent.
  - cbn [processors.index nth_error Py.bind].
    rewrite zero_percent. cbn [Py.bind].
    rewrite (mul_zero_int w Hw), (mul_zero_int h Hh). cbn [Py.bind].
    destruct (sub_zero_float w Hw) as (c & -> & Hc).
    destruct (sub_zero_float h Hh) as (d & -> & Hd).
    cbn [Py.bind Py.int Py.trunc]. rewrite Hc. cbn [Py.bind]. rewrite Hd.
    reflexivity.
  - cbn [processors.index nth_error Py.bind Py.sub Py.arith Py.int].
    rewrite !Z.sub_0_r. reflexivity.
Qed.

(** Cropping to the whole image gives the same picture. *)
Lemma crop_whole_same_picture (image : PIL.image) :
  PIL.same_picture
    (PIL.crop image (0, 0, fst (PIL.size image), snd (PIL.size image))) image.
Proof.
  unfold PIL.same_picture, PIL.crop, PIL.size.
  cbn [PIL.mode PIL.width PIL.height PIL.getpixel fst snd].
  rewrite !Z.sub_0_r, !N2Z.id.
  split; [reflexivity|]. split; [reflexivity|].
  intros x y Hin. rewrite !Z.add_0_r.
  unfold PIL.in_bounds in Hin |- *.
  cbn [PIL.width PIL.height] in Hin. rewrite Hin. reflexivity.
Qed.

Section Claims.
Context {B : PIL.Backend}.

(** C1.  The end-to-end scenario: on a 200x100 RGB source the recipe
    [{flip:'', rotate:90, rotate_crop:'', crop:None, width:50, height:50,
    fit:'fit', file_type:'jpeg', quality:80}] takes the quarter-turn fast
    path of the rotate operator, which gives the 100x200 transposed image;
    the resize operator then computes the size (25,50) in fit mode; and the
    result is handed to the encoder as a JPEG, in RGB mode, under a name
    with extension [.jpg], with quality 80 among the save arguments. *)
Theorem scenario_rotate_fit_jpeg :
  forall pixels : Z -> Z -> PIL.pixel,
    let source := scenario_source pixels in
    let rotated := PIL.transpose source PIL.ROTATE_90 in
    let final := PIL.resize rotated (25, 50) in
    processors.rotate_processor source
      {| processors.degrees := 90;
         processors.extend := true;
         processors.color := None;
         processors.preserve_transparency := false;
         processors.crop_mode := "aspect_ratio" |} = Ok rotated /\
    PIL.size rotated = (100, 200) /\
    processors.get_scaled_size
      (processors.resize_prep rotated
         {| processors.width := Some 50; processors.height := Some 50;
            processors.fit := "fit"; processors.upscale := false |})
      = Ok (25, 50) /\
    engines.process scenario_recipe source = Ok final /\
    PIL.size final = (25, 50) /\
    PIL.mode final = "RGB"%string /\
    engines.call source scenario_recipe =
      Ok {| engines.name := ".jpg";
            engines.format := "jpeg";
            engines.save_kwargs := [("quality"%string, 80)];
            engines.saved := final |}.
Proof.
  intros pixels source rotated final.
  repeat split; reflexivity.
Qed.


(** C8.  With [file_type='jpeg'] an image whose mode is neither RGB nor
    RGBA is converted to RGB before it is handed to the encoder (an RGB or
    RGBA image is handed over as it is); with [file_type='png'] the image
    is handed over unconverted, whatever its mode. *)
Theorem save_converts_for_jpeg_only :
  forall (r : engines.recipe) (image : PIL.image),
    (engines.file_type r = "jpeg"%string ->
     PIL.mode image <> "RGB"%string -> PIL.mode image <> "RGBA"%string ->
     engines.saved (engines.save r image) = PIL.convert image "RGB" /\
     PIL.mode (engines.saved (engines.save r image)) = "RGB"%string) /\
    (engines.file_type r = "jpeg"%string ->
     PIL.mode image = "RGB"%string \/ PIL.mode image = "RGBA"%string ->
     engines.saved (engines.save r image) = image) /\
    (engines.file_type r = "png"%string ->
     engines.saved (engines.save r image) = image /\
     engines.format (engines.save r image) = "png"%string).
Proof.
  intros r image. unfold engines.save. repeat split.
  - rewrite H. simpl.
    apply String.eqb_neq in H0, H1. rewrite H0, H1. reflexivity.
  - rewrite H. simpl.
    apply String.eqb_neq in H0, H1. rewrite H0, H1. reflexivity.
  - intros Hj [Hm|Hm]; rewrite Hj, Hm; reflexivity.
  - rewrite H. reflexivity.
  - assumption.
Qed.

(** C10.  The quarter-turn fast path of the rotate operator exists for the
    degrees 0, 90, 180 and 270 only: for every other multiple of 90 (-90,
    -180, 360, ...) the lookup of the transpose constant raises
    [AttributeError] and no image is returned. *)
Theorem rotate_other_multiples_of_90_raise :
  forall (image : PIL.image) (opts : processors.rotate_options),
    processors.degrees opts mod 90 = 0 ->
    processors.degrees opts <> 0 ->
    processors.degrees opts <> 90 ->
    processors.degrees opts <> 180 ->
    processors.degrees opts <> 270 ->
    PIL.getattr ("ROTATE_" ++ Py.format_int (processors.degrees opts))
      = Raise Py.AttributeError /\
    processors.rotate_processor image opts = Raise Py.AttributeError.
Proof.
  intros image opts Hmod H0 H90 H180 H270.
  assert (Hget : PIL.getattr
                   ("ROTATE_" ++ Py.format_int (processors.degrees opts))
                 = Raise Py.AttributeError).
  { rewrite getattr_rotate.
    apply Z.eqb_neq in H90, H180, H270. now rewrite H90, H180, H270. }
  split; [exact Hget|].
  unfold processors.rotate_processor, processors.rotate_process,
    processors.rotate_prep.
  cbn [processors.options processors.transposable].
  apply Z.eqb_neq in H0.
  rewrite Hmod, Z.eqb_refl, H0, Hget. reflexivity.
Qed.

(** C4.  Whenever the rotate+crop operator returns an image, for every
    [degrees] and every [crop_mode], its width and height are each at most
    the width and height of the canvas the rotation produced. *)
Theorem rotate_crop_within_rotated_canvas :
  forall (image : PIL.image) (opts : processors.rotate_options)
         (out : PIL.image),
    processors.rotate_crop_processor image opts = Ok out ->
    exists rotated : PIL.image,
      processors.rotate_process
        (processors.rotate_crop_prep image opts) image = Ok rotated /\
      (PIL.width out <= PIL.width rotated)%N /\
      (PIL.height out <= PIL.height rotated)%N.
Proof.
  intros image opts out H.
  unfold processors.rotate_crop_processor, processors.rotate_crop_process in H.
  bind_inv H. exists a. split; [exact Ha|].
  destruct (processors.transposable _).
  - injection H as <-. split; apply N.le_refl.
  - bind_inv H. destruct a0 as [w h].
    bind_inv H. destruct a0 as [[[x1 y1] x2] y2].
    injection H as <-.
    apply get_crop_box_extent in Ha1. destruct Ha1 as [Hx Hy].
    unfold PIL.size in Hx, Hy. simpl in Hx, Hy.
    simpl. rewrite Hx, Hy. split; lia.
Qed.

(** C5.  Identity laws.  The flip operator with [flip=''] returns the
    image itself; the rotate operator with [degrees=0] returns the image
    itself whatever the other options; the crop operator with the crop box
    [(0,0,0,0)], as a tuple or as a list, in percent or in pixels, returns
    an image with the mode, the size and every pixel of the input, whatever
    the mode. *)
Theorem identity_laws :
  forall image : PIL.image,
    (forall o : processors.flip_options,
       processors.flip o = ""%string ->
       processors.flip_processor image o = Ok image) /\
    (forall o : processors.rotate_options,
       processors.degrees o = 0 ->
       processors.rotate_processor image o = Ok image) /\
    (forall (box : processors.sequence) (percent : bool),
       processors.items box
         = [Some (Int 0); Some (Int 0); Some (Int 0); Some (Int 0)] ->
       fst (PIL.size image) < 2 ^ 53 -> snd (PIL.size image) < 2 ^ 53 ->
       exists out : PIL.image,
         processors.crop_processor image
           {| processors.crop_box := Some box;
              processors.crop_percent := percent |} = Ok out /\
         PIL.same_picture out image).
Proof.
  intros image. split; [|split].
  - intros o Ho. unfold processors.flip_processor. rewrite Ho. reflexivity.
  - intros o Ho. unfold processors.rotate_processor, processors.rotate_process,
      processors.rotate_prep.
    cbn [processors.options processors.transposable]. rewrite Ho. reflexivity.
  - intros box percent Hbox Hw Hh.
    pose proof (crop_whole_same_picture image) as Hsame.
    unfold processors.crop_processor.
    assert (Hw0 : 0 <= fst (PIL.size image)) by (unfold PIL.size; simpl; lia).
    assert (Hh0 : 0 <= snd (PIL.size image)) by (unfold PIL.size; simpl; lia).
    destruct (PIL.size image) as [w h]. cbn [fst snd] in *.
    rewrite (crop_box_of_zeros box percent w h Hbox) by lia.
    cbn [Py.bind]. eexists. split; [reflexivity|exact Hsame].
Qed.

(** C6.  For the anchor ['right'] the box starts at the horizontal offset
    [image_width - target_width] and at the vertical offset that is the
    truncation of the image's vertical center [int(h * 0.5)] minus half the
    target height, the target size first clamped to the image size; and
    [crop_box(image_size=(100,100), 40, 40, 'right') = (60, 30, 100, 70)]. *)
Theorem crop_box_right :
  (forall (image : PIL.image) (w h width height : Z),
     PIL.size image = (w, h) ->
     0 <= width -> 0 <= height -> w < 2 ^ 52 -> h < 2 ^ 52 ->
     let tw := Z.min width w in
     let th := Z.min height h in
     let y1 := Z.quot (2 * (h / 2) - th) 2 in
     processors.get_crop_box image width height "right"
       = Ok (w - tw, y1, w, y1 + th)) /\
  (forall (m : string) (pixels : Z -> Z -> PIL.pixel),
     processors.get_crop_box (PIL.mk_image m 100 100 pixels) 40 40 "right"
       = Ok (60, 30, 100, 70)).
Proof.
  split.
  - intros image w h width height Hsz Hwidth Hheight Hw Hh tw th y1.
    pose proof (get_crop_box_closed image width height "right") as Hc.
    rewrite Hsz in Hc. cbv zeta in Hc.
    rewrite (Hc Hwidth Hheight Hw Hh).
    cbn [Py.str_in existsb]. simpl String.eqb. cbn [orb].
    subst tw th y1. do 2 f_equal. f_equal. lia.
  - intros m pixels. reflexivity.
Qed.

(** C2 (amended).  A zero-valued or absent bounding-box dimension does not
    make the resize operator fail: [prep] replaces it by the corresponding
    dimension of the input image, so the call is the call with that
    dimension given; on an image of positive size in fit mode it returns
    the resized image. *)
Theorem resize_zero_dimension_is_input_dimension :
  forall (image : PIL.image) (o : processors.resize_options),
    (processors.width o = Some 0 \/ processors.width o = None ->
     processors.resize_processor image o
       = processors.resize_processor image
           {| processors.width := Some (fst (PIL.size image));
              processors.height := processors.height o;
              processors.fit := processors.fit o;
              processors.upscale := processors.upscale o |}) /\
    (processors.height o = Some 0 \/ processors.height o = None ->
     processors.resize_processor image o
       = processors.resize_processor image
           {| processors.width := processors.width o;
              processors.height := Some (snd (PIL.size image));
              processors.fit := processors.fit o;
              processors.upscale := processors.upscale o |}) /\
    (forall w h H : Z,
       PIL.size image = (w, h) ->
       0 < w <= 2 ^ 16 -> 0 < h <= 2 ^ 16 -> 0 < H <= 2 ^ 16 ->
       processors.resize_processor image
         {| processors.width := Some 0; processors.height := Some H;
            processors.fit := "fit"; processors.upscale := false |}
       = Ok (PIL.resize image (fit_size w h w H))).
Proof.
  intros image o.
  assert (Hprep : forall o1 o2,
            processors.resize_prep image o1 = processors.resize_prep image o2 ->
            processors.resize_processor image o1
              = processors.resize_processor image o2).
  { intros o1 o2 E. unfold processors.resize_processor. now rewrite E. }
  split; [|split].
  - intros Hw. apply Hprep. unfold processors.resize_prep.
    destruct (PIL.size image) as [w h]. cbn [processors.width
      processors.height processors.fit processors.upscale fst snd].
    f_equal. destruct Hw as [-> | ->]; cbn [Py.int_or].
    + destruct (w =? 0) eqn:E; [apply Z.eqb_eq in E; subst|]; reflexivity.
    + destruct (w =? 0) eqn:E; [apply Z.eqb_eq in E; subst|]; reflexivity.
  - intros Hh. apply Hprep. unfold processors.resize_prep.
    destruct (PIL.size image) as [w h]. cbn [processors.width
      processors.height processors.fit processors.upscale fst snd].
    f_equal. destruct Hh as [-> | ->]; cbn [Py.int_or].
    + destruct (h =? 0) eqn:E; [apply Z.eqb_eq in E; subst|]; reflexivity.
    + destruct (h =? 0) eqn:E; [apply Z.eqb_eq in E; subst|]; reflexivity.
  - intros w h H Hsz Hw Hh HH.
    pose proof (resize_processor_fit image w H) as Hfit.
    rewrite Hsz in Hfit. rewrite <- (Hfit Hw Hh Hw HH).
    apply Hprep. unfold processors.resize_prep. rewrite Hsz.
    cbn [processors.width processors.height processors.fit
         processors.upscale Py.int_or].
    replace (w =? 0) with false by (symmetry; apply Z.eqb_neq; lia).
    reflexivity.
Qed.

(** C3.  Dimension contract of [resize(img, width=W, height=H, fit=...)],
    for an image and a box of positive sides up to 65536.  With
    [fit='fit'] the result is at most [W] wide and [H] high, so its larger
    side is at most [max(W,H)], and it keeps the aspect ratio of the [w] by
    [h] input to within one pixel: some exactly proportional size is within
    one pixel of it in both dimensions, that is
    [|w' * h - h' * w| <= w + h].  With an anchor mode ([top], [left],
    [right], [bottom], [center], [crop], [fill]) the result has exactly the
    size [(W,H)]. *)
Theorem resize_dimension_contract :
  forall (image : PIL.image) (w h W H : Z),
    PIL.size image = (w, h) ->
    0 < w <= 2 ^ 16 -> 0 < h <= 2 ^ 16 ->
    0 < W <= 2 ^ 16 -> 0 < H <= 2 ^ 16 ->
    (exists (out : PIL.image) (w' h' : Z),
       processors.resize_processor image
         {| processors.width := Some W; processors.height := Some H;
            processors.fit := "fit"; processors.upscale := false |} = Ok out /\
       PIL.size out = (w', h') /\
       0 < w' <= W /\ 0 < h' <= H /\
       Z.max w' h' <= Z.max W H /\
       Z.abs (w' * h - h' * w) <= w + h) /\
    (forall fit : string,
       Py.str_in fit
         ["center"; "crop"; "fill"; "top"; "left"; "right"; "bottom"]%string
         = true ->
       exists out : PIL.image,
         processors.resize_processor image
           {| processors.width := Some W; processors.height := Some H;
              processors.fit := fit; processors.upscale := false |} = Ok out /\
         PIL.size out = (W, H)).
Proof.
  intros image w h W H Hsz Hw Hh HW HH. split.
  - pose proof (resize_processor_fit image W H) as Hfit.
    rewrite Hsz in Hfit. specialize (Hfit Hw Hh HW HH).
    pose proof (fit_size_bounds w h W H ltac:(lia) ltac:(lia) ltac:(lia)
                  ltac:(lia)) as Hb.
    pose proof (fit_size_aspect w h W H ltac:(lia) ltac:(lia) ltac:(lia)
                  ltac:(lia)) as Ha.
    destruct (fit_size w h W H) as [w' h'].
    destruct Hb as (Hw' & Hh' & _). destruct Ha as (Ha1 & Ha2).
    exists (PIL.resize image (w', h')), w', h'.
    split; [exact Hfit|]. split.
    { unfold PIL.resize, PIL.size. cbn [PIL.width PIL.height fst snd].
      rewrite !Z2N.id by lia. reflexivity. }
    split; [exact Hw'|]. split; [exact Hh'|]. split; [lia|].
    apply Z.abs_le. split; nia.
  - intros fit Hfit.
    pose proof (resize_processor_anchor image W H fit) as Hanchor.
    rewrite Hsz in Hanchor. exact (Hanchor Hw Hh HW HH Hfit).
Qed.

(** C9.  In the max_area strategy the angle is computed from the degrees
    as they are, and only the sine and the cosine are taken in absolute
    value; consequently, with a sine that is odd and a cosine that is even,
    [get_rotated_rect_max_area] returns the same pair for [degrees] and for
    [-degrees]. *)
Theorem max_area_same_for_opposite_degrees :
  (forall x : float, PIL.libm_sin (Py.fopp x) = Py.fopp (PIL.libm_sin x)) ->
  (forall x : float, PIL.libm_cos (Py.fopp x) = PIL.libm_cos x) ->
  forall (self self' : processors.rotate_state) (rotated rotated' : PIL.image),
    processors.input_size self' = processors.input_size self ->
    processors.degrees (processors.options self')
      = - processors.degrees (processors.options self) ->
    (forall w h : Z,
       processors.input_size self = (w, h) -> 0 < w -> 0 < h ->
       processors.get_rotated_rect_max_area self rotated =
         (angle <- processors.radians
                     (processors.degrees (processors.options self)) ;;
          s <- PIL.math_sin angle ;;
          c <- PIL.math_cos angle ;;
          processors.max_area_of w h (Py.fabs s) (Py.fabs c))) /\
    processors.get_rotated_rect_max_area self' rotated'
      = processors.get_rotated_rect_max_area self rotated.
Proof.
  intros Hsin Hcos self self' rotated rotated' Hsize Hdeg. split.
  - intros w h Hwh Hw Hh. unfold processors.get_rotated_rect_max_area.
    rewrite Hwh.
    replace (w <=? 0) with false by (symmetry; apply Z.leb_gt; lia).
    replace (h <=? 0) with false by (symmetry; apply Z.leb_gt; lia).
    reflexivity.
  - unfold processors.get_rotated_rect_max_area. rewrite Hsize, Hdeg.
    destruct (processors.input_size self) as [w h].
    destruct ((w <=? 0) || (h <=? 0)); [reflexivity|].
    set (d := processors.degrees (processors.options self)).
    destruct (Z.eq_dec d 0) as [->|Hd]; [reflexivity|].
    rewrite (radians_opp d Hd).
    destruct (processors.radians d) as [angle|e]; [|reflexivity].
    cbn [Py.map Py.bind]. unfold PIL.math_sin, PIL.math_cos.
    rewrite is_inf_opp. destruct (Py.is_inf angle); [reflexivity|].
    cbn [Py.bind]. rewrite Hsin, Hcos, fabs_opp. reflexivity.
Qed.

End Claims.

(* ================================================================== *)
(** ** The properties at sample inputs *)
(* ================================================================== *)

(** The claim of C2 as stated fails here: with [width=0] the resize operator
    returns, the 100x50 image resized into the box 100x20. *)
Lemma resize_with_zero_width_returns :
  Py.map PIL.size
    (processors.resize_processor (B := sample.backend) (sample.rgb 100 50)
       (sample.box_of (Some 0) (Some 20) "fit")) = Ok (40, 20).
Proof. vm_compute. reflexivity. Qed.

Lemma resize_zero_dimension_witness :
  processors.resize_processor (B := sample.backend) (sample.rgb 100 50)
    (sample.box_of (Some 0) (Some 20) "fit")
  = Ok (PIL.resize (B := sample.backend) (sample.rgb 100 50) (40, 20)).
Proof.
  destruct (resize_zero_dimension_is_input_dimension (B := sample.backend)
              (sample.rgb 100 50) (sample.box_of (Some 0) (Some 20) "fit"))
    as (_ & _ & H).
  apply (H 100 50 20); [reflexivity|lia|lia|lia].
Defined.

Lemma resize_dimension_contract_witness :
  exists out : PIL.image,
    processors.resize_processor (B := sample.backend) (sample.rgb 200 100)
      (sample.box_of (Some 50) (Some 50) "top") = Ok out /\
    PIL.size out = (50, 50).
Proof.
  destruct (resize_dimension_contract (B := sample.backend)
              (sample.rgb 200 100) 200 100 50 50)
    as (_ & H); [reflexivity|lia|lia|lia|lia|].
  apply (H "top"%string). reflexivity.
Defined.

Lemma rotate_crop_within_rotated_canvas_witness :
  exists rotated : PIL.image,
    processors.rotate_process (B := sample.backend)
      (processors.rotate_crop_prep (sample.rgb 100 50) sample.turn_30_max_area)
      (sample.rgb 100 50) = Ok rotated /\
    N.le
      (PIL.width
         (PIL.crop (sample.turned (sample.rgb 100 50) 30 true)
            (31, 33, 81, 61)))
      (PIL.width rotated) /\
    N.le
      (PIL.height
         (PIL.crop (sample.turned (sample.rgb 100 50) 30 true)
            (31, 33, 81, 61)))
      (PIL.height rotated).
Proof.
  apply (rotate_crop_within_rotated_canvas (B := sample.backend)).
  vm_compute. reflexivity.
Defined.

Lemma identity_laws_witness :
  processors.rotate_processor (B := sample.backend) (sample.gray 8 6)
    sample.turn_30_max_area = processors.rotate_processor (B := sample.backend)
                         (sample.gray 8 6) sample.turn_30_max_area /\
  processors.rotate_processor (B := sample.backend) (sample.gray 8 6)
    (sample.turn_by 0) = Ok (sample.gray 8 6) /\
  exists out : PIL.image,
    processors.crop_processor (sample.gray 8 6)
      {| processors.crop_box :=
           Some (processors.PyTuple
                   [Some (Int 0); Some (Int 0); Some (Int 0); Some (Int 0)]);
         processors.crop_percent := true |} = Ok out /\
    PIL.same_picture out (sample.gray 8 6).
Proof.
  destruct (identity_laws (B := sample.backend) (sample.gray 8 6))
    as (_ & Hrot & Hcrop).
  split; [reflexivity|]. split.
  - apply Hrot. reflexivity.
  - apply Hcrop; [reflexivity|simpl; lia|simpl; lia].
Defined.

Lemma crop_box_right_witness :
  processors.get_crop_box (sample.gray 100 100) 40 40 "right"
    = Ok (60, 30, 100, 70).
Proof.
  destruct crop_box_right as (H & _).
  apply (H (sample.gray 100 100) 100 100 40 40); [reflexivity|lia|lia|lia|lia].
Defined.



Lemma save_converts_witness :
  engines.saved
    (engines.save (B := sample.backend) scenario_recipe (sample.gray 8 6))
  = PIL.convert (B := sample.backend) (sample.gray 8 6) "RGB" /\
  PIL.mode
    (engines.saved
       (engines.save (B := sample.backend) scenario_recipe (sample.gray 8 6)))
  = "RGB"%string.
Proof.
  destruct (save_converts_for_jpeg_only (B := sample.backend) scenario_recipe
              (sample.gray 8 6)) as (H & _).
  apply H; [reflexivity|discriminate|discriminate].
Defined.

Lemma rotate_by_minus_90_raises :
  PIL.getattr ("ROTATE_" ++ Py.format_int (-90)) = Raise Py.AttributeError /\
  processors.rotate_processor (B := sample.backend) (sample.rgb 4 2)
    (sample.turn_by (-90)) = Raise Py.AttributeError.
Proof.
  apply (rotate_other_multiples_of_90_raise (B := sample.backend)
           (sample.rgb 4 2) (sample.turn_by (-90)));
    [reflexivity|discriminate|discriminate|discriminate|discriminate].
Defined.

Lemma max_area_opposite_degrees_witness :
  processors.get_rotated_rect_max_area (B := sample.backend)
    (processors.rotate_crop_prep (sample.rgb 100 50) (sample.turn_by (-30)))
    (sample.rgb 100 50)
  = processors.get_rotated_rect_max_area (B := sample.backend)
      (processors.rotate_crop_prep (sample.rgb 100 50) (sample.turn_by 30))
      (sample.rgb 100 50).
Proof.
  apply (max_area_same_for_opposite_degrees (B := sample.backend)
           poly_sin_odd poly_cos_even); reflexivity.
Defined.

(* ================================================================== *)
(** ** Further properties of the operators, the engine and the helpers

    What the code does beyond the numbered claims above: the anchor crop
    box for every anchor, the crop operator on pixel boxes and on malformed
    boxes, the algebra of flips and quarter turns, the remaining branches
    of the rotate operators, the fit mode of the resize operator, the
    default engine as a whole, [AttrDict], and the name under which a
    processed file is stored. *)
(* ================================================================== *)

(** *** The anchor crop box *)

(** The offset [int(int(s * 0.5) - t * 0.5)] of a centred target of extent
    [t] along a side of length [s]. *)
Lemma centered_offset_bounds (s t : Z) :
  0 <= t <= s ->
  let c := Z.quot (2 * (s / 2) - t) 2 in
  0 <= c /\ c + t <= s /\ c <= s - (c + t) <= c + 2.
Proof.
  intros Ht c.
  pose proof (Z.div_mod s 2 ltac:(lia)) as Hs.
  pose proof (Z.mod_pos_bound s 2 ltac:(lia)) as Hm.
  destruct (Z_lt_le_dec (2 * (s / 2) - t) 0) as [Hneg|Hpos].
  - assert (E : 2 * (s / 2) - t = -1) by lia.
    subst c. rewrite E. change (Z.quot (-1) 2) with 0. lia.
  - subst c. rewrite Z.quot_div_nonneg by lia.
    pose proof (Z.div_mod (2 * (s / 2) - t) 2 ltac:(lia)) as Hd.
    pose proof (Z.mod_pos_bound (2 * (s / 2) - t) 2 ltac:(lia)) as Hdm.
    lia.
Qed.

Lemma str_in_cons (s a : string) (l : list string) :
  Py.str_in s (a :: l) = (String.eqb s a || Py.str_in s l)%bool.
Proof. reflexivity. Qed.

(** X1.  For every anchor the mixin knows, a target size that is not
    negative and an image with sides below [2 ^ 52], [get_crop_box] returns
    a box that lies inside the image, [0 <= x1 <= x2 <= w] and
    [0 <= y1 <= y2 <= h], and whose extent is the target size clamped to
    the image size. *)
Theorem crop_box_inside_image :
  forall (image : PIL.image) (w h width height : Z) (anchor : string),
    PIL.size image = (w, h) ->
    w < 2 ^ 52 -> h < 2 ^ 52 -> 0 <= width -> 0 <= height ->
    Py.str_in anchor
      ["center"; "crop"; "fill"; "top"; "left"; "right"; "bottom"]%string
      = true ->
    exists x1 y1 x2 y2 : Z,
      processors.get_crop_box image width height anchor
        = Ok (x1, y1, x2, y2) /\
      0 <= x1 <= x2 /\ x2 <= w /\ 0 <= y1 <= y2 /\ y2 <= h /\
      x2 - x1 = Z.min width w /\ y2 - y1 = Z.min height h.
Proof.
  intros image w h width height anchor Hsz Hw Hh Hwidth Hheight Hanchor.
  assert (Hw0 : 0 <= w) by (unfold PIL.size in Hsz; injection Hsz; lia).
  assert (Hh0 : 0 <= h) by (unfold PIL.size in Hsz; injection Hsz; lia).
  pose proof (get_crop_box_closed image width height anchor) as Hc.
  rewrite Hsz in Hc. cbv zeta in Hc.
  rewrite (Hc Hwidth Hheight Hw Hh). clear Hc.
  pose proof (centered_offset_bounds w (Z.min width w) ltac:(lia)) as Hx.
  pose proof (centered_offset_bounds h (Z.min height h) ltac:(lia)) as Hy.
  cbv zeta in Hx, Hy.
  set (cx := Z.quot (2 * (w / 2) - Z.min width w) 2) in *.
  set (cy := Z.quot (2 * (h / 2) - Z.min height h) 2) in *.
  rewrite !str_in_cons in Hanchor.
  destruct (Py.str_in anchor ["center"; "crop"; "fill"]%string) eqn:Ec.
  { do 4 eexists. split; [reflexivity|]. lia. }
  rewrite !str_in_cons in Ec.
  destruct (String.eqb anchor "center"); [discriminate|].
  destruct (String.eqb anchor "crop"); [discriminate|].
  destruct (String.eqb anchor "fill"); [discriminate|].
  cbn [orb] in Hanchor.
  destruct (String.eqb anchor "top").
  { do 4 eexists. split; [reflexivity|]. lia. }
  destruct (String.eqb anchor "left").
  { do 4 eexists. split; [reflexivity|]. lia. }
  destruct (String.eqb anchor "right").
  { do 4 eexists. split; [reflexivity|]. lia. }
  destruct (String.eqb anchor "bottom").
  { do 4 eexists. split; [reflexivity|]. lia. }
  discriminate.
Qed.

(** X2.  The centred box (anchors [center], [crop], [fill]) is never nearer
    to the right or lower edge than to the left or upper one, and the two
    margins on an axis differ by at most two pixels: the centre is
    truncated first, [int(w * 0.5)], and the offset is truncated again. *)
Theorem crop_box_center_margins :
  forall (image : PIL.image) (w h width height : Z) (anchor : string),
    PIL.size image = (w, h) ->
    w < 2 ^ 52 -> h < 2 ^ 52 -> 0 <= width -> 0 <= height ->
    Py.str_in anchor ["center"; "crop"; "fill"]%string = true ->
    exists x1 y1 x2 y2 : Z,
      processors.get_crop_box image width height anchor
        = Ok (x1, y1, x2, y2) /\
      x1 <= w - x2 <= x1 + 2 /\ y1 <= h - y2 <= y1 + 2.
Proof.
  intros image w h width height anchor Hsz Hw Hh Hwidth Hheight Hanchor.
  assert (Hw0 : 0 <= w) by (unfold PIL.size in Hsz; injection Hsz; lia).
  assert (Hh0 : 0 <= h) by (unfold PIL.size in Hsz; injection Hsz; lia).
  pose proof (get_crop_box_closed image width height anchor) as Hc.
  rewrite Hsz in Hc. cbv zeta in Hc.
  rewrite (Hc Hwidth Hheight Hw Hh), Hanchor. clear Hc.
  pose proof (centered_offset_bounds w (Z.min width w) ltac:(lia)) as Hx.
  pose proof (centered_offset_bounds h (Z.min height h) ltac:(lia)) as Hy.
  cbv zeta in Hx, Hy.
  do 4 eexists. split; [reflexivity|]. lia.
Qed.

(** X3.  The edge anchors move the centred box to the edge they name and
    keep its placement on the other axis: whenever the box for [center] is
    [(x1, y1, x2, y2)], the box for [top] starts at [y = 0], the box for
    [left] at [x = 0], the box for [right] ends at [x = w] and the box for
    [bottom] at [y = h], each with the extent of the centred box. *)
Theorem crop_box_edge_anchors :
  forall (image : PIL.image) (w h width height x1 y1 x2 y2 : Z),
    PIL.size image = (w, h) ->
    processors.get_crop_box image width height "center"
      = Ok (x1, y1, x2, y2) ->
    processors.get_crop_box image width height "top"
      = Ok (x1, 0, x2, y2 - y1) /\
    processors.get_crop_box image width height "left"
      = Ok (0, y1, x2 - x1, y2) /\
    processors.get_crop_box image width height "right"
      = Ok (w - (x2 - x1), y1, w, y2) /\
    processors.get_crop_box image width height "bottom"
      = Ok (x1, h - (y2 - y1), x2, h).
Proof.
  intros image w h width height x1 y1 x2 y2 Hsz H.
  unfold processors.get_crop_box in *. rewrite Hsz in *.
  destruct (Py.mul (Int w) (Float Py.f0_5)) as [cw|]; [|discriminate].
  cbn [Py.bind] in *.
  destruct (Py.int cw) as [center0|]; [|discriminate]. cbn [Py.bind] in *.
  destruct (Py.mul (Int h) (Float Py.f0_5)) as [ch|]; [|discriminate].
  cbn [Py.bind] in *.
  destruct (Py.int ch) as [center1|]; [|discriminate]. cbn [Py.bind] in *.
  change (Py.str_in "center" ["center"; "crop"; "fill"]%string) with true in H.
  change (Py.str_in "top" ["center"; "crop"; "fill"]%string) with false.
  change (Py.str_in "left" ["center"; "crop"; "fill"]%string) with false.
  change (Py.str_in "right" ["center"; "crop"; "fill"]%string) with false.
  change (Py.str_in "bottom" ["center"; "crop"; "fill"]%string) with false.
  cbv iota in *. simpl String.eqb. cbv iota.
  set (tw := if width >? w then w else width) in *.
  set (th := if height >? h then h else height) in *.
  destruct (hw <- Py.mul (Int tw) (Float Py.f0_5) ;;
            d <- Py.sub (Int center0) hw ;; Py.int d) as [cx|];
    [|discriminate].
  cbn [Py.bind] in *.
  destruct (hh <- Py.mul (Int th) (Float Py.f0_5) ;;
            d <- Py.sub (Int center1) hh ;; Py.int d) as [cy|];
    [|discriminate].
  cbn [Py.bind] in *.
  injection H as <- <- <- <-.
  repeat split; repeat (f_equal; try lia).
Qed.

(** *** The crop operator *)

Lemma crop_size (im : PIL.image) (x0 y0 x1 y1 : Z) :
  x0 <= x1 -> y0 <= y1 ->
  PIL.size (PIL.crop im (x0, y0, x1, y1)) = (x1 - x0, y1 - y0).
Proof.
  intros Hx Hy. unfold PIL.crop, PIL.size. cbn [PIL.width PIL.height].
  rewrite !Z2N.id by lia. reflexivity.
Qed.

Lemma fill_missing_ints (s : processors.sequence) (l : list num) :
  processors.items s = map Some l -> processors.fill_missing s = Ok l.
Proof.
  intros Hs.
  assert (Hmap : forall l : list num,
            map (fun v : option num =>
                   match v with Some x => x | None => Int 0 end)
                (map Some l) = l).
  { induction l0 as [|x l0 IH]; simpl; [reflexivity|now rewrite IH]. }
  assert (Hall : forall l : list num,
            forallb (fun v : option num =>
                       match v with Some _ => true | None => false end)
                    (map Some l) = true).
  { induction l0 as [|x l0 IH]; simpl; [reflexivity|exact IH]. }
  destruct s as [l'|l']; simpl in Hs; subst l'; simpl.
  - now rewrite Hmap.
  - now rewrite Hall, Hmap.
Qed.

(** X4.  With [crop_percent=False] a crop box [(l, t, r, b)] of integers
    counts pixels from the four edges, not coordinates from the origin: the
    PIL box is [(l, t, w - r, h - b)]; and when the amounts are not
    negative and leave something of the image, the result has the size
    [(w - l - r, h - t - b)], the mode of the input, and at [(x, y)] the
    pixel of the input at [(x + l, y + t)]. *)
Theorem crop_pixels_from_edges :
  forall (image : PIL.image) (box : processors.sequence) (w h l t r b : Z),
    PIL.size image = (w, h) ->
    processors.items box
      = [Some (Int l); Some (Int t); Some (Int r); Some (Int b)] ->
    processors.crop_get_crop_box
      {| processors.crop_box := Some box; processors.crop_percent := false |}
      w h = Ok (l, t, w - r, h - b) /\
    (0 <= l -> 0 <= t -> 0 <= r -> 0 <= b -> l + r <= w -> t + b <= h ->
     exists out : PIL.image,
       processors.crop_processor image
         {| processors.crop_box := Some box;
            processors.crop_percent := false |} = Ok out /\
       PIL.size out = (w - l - r, h - t - b) /\
       PIL.mode out = PIL.mode image /\
       forall x y : Z,
         PIL.in_bounds out x y = true ->
         PIL.getpixel out x y = PIL.getpixel image (x + l) (y + t)).
Proof.
  intros image box w h l t r b Hsz Hbox.
  assert (Hget : processors.crop_get_crop_box
            {| processors.crop_box := Some box;
               processors.crop_percent := false |} w h
          = Ok (l, t, w - r, h - b)).
  { unfold processors.crop_get_crop_box.
    cbn [processors.crop_box processors.crop_percent].
    rewrite Hbox. cbn [Py.truthy_list].
    rewrite (fill_missing_ints box [Int l; Int t; Int r; Int b] Hbox).
    reflexivity. }
  split; [exact Hget|].
  intros Hl Ht Hr Hb Hlr Htb.
  unfold processors.crop_processor. rewrite Hsz, Hget. cbn [Py.bind].
  eexists. split; [reflexivity|].
  split; [rewrite crop_size by lia; f_equal; lia|].
  split; [reflexivity|].
  intros x y Hin.
  unfold PIL.crop, PIL.in_bounds in *.
  cbn [PIL.width PIL.height PIL.getpixel PIL.mode] in *.
  unfold PIL.size in Hsz. injection Hsz as Hw Hh.
  rewrite Hw, Hh. rewrite !Z2N.id in Hin by lia.
  apply andb_prop in Hin. destruct Hin as [Hin Hy2].
  apply andb_prop in Hin. destruct Hin as [Hin Hy1].
  apply andb_prop in Hin. destruct Hin as [Hx1 Hx2].
  apply Z.leb_le in Hx1, Hy1. apply Z.ltb_lt in Hx2, Hy2.
  replace (0 <=? x + l) with true by (symmetry; apply Z.leb_le; lia).
  replace (x + l <? w) with true by (symmetry; apply Z.ltb_lt; lia).
  replace (0 <=? y + t) with true by (symmetry; apply Z.leb_le; lia).
  replace (y + t <? h) with true by (symmetry; apply Z.ltb_lt; lia).
  reflexivity.
Qed.

(** X5.  Missing items of a crop box.  A tuple that holds [None] makes the
    crop operator raise [TypeError] (the item assignment that fills in the
    zero fails on a tuple); in a list every [None] is read as [0]; an empty
    box is read as no box; and no box is the box of four zeros. *)
Theorem crop_box_missing_entries :
  forall (image : PIL.image) (percent : bool),
    (forall l : list (option num),
       In None l ->
       processors.crop_processor image
         {| processors.crop_box := Some (processors.PyTuple l);
            processors.crop_percent := percent |} = Raise Py.TypeError) /\
    (forall l : list (option num),
       processors.crop_processor image
         {| processors.crop_box := Some (processors.PyList l);
            processors.crop_percent := percent |}
       = processors.crop_processor image
           {| processors.crop_box :=
                Some (processors.PyList (map Crop.or_zero l));
              processors.crop_percent := percent |}) /\
    (forall s : processors.sequence,
       processors.items s = [] ->
       processors.crop_processor image
         {| processors.crop_box := Some s;
            processors.crop_percent := percent |}
       = processors.crop_processor image
           {| processors.crop_box := None;
              processors.crop_percent := percent |}) /\
    processors.crop_processor image
      {| processors.crop_box := None; processors.crop_percent := percent |}
    = processors.crop_processor image
        {| processors.crop_box :=
             Some (processors.PyList
                     [Some (Int 0); Some (Int 0); Some (Int 0); Some (Int 0)]);
           processors.crop_percent := percent |}.
Proof.
  intros image percent. split; [|split; [|split]].
  - intros l Hin.
    unfold processors.crop_processor, processors.crop_get_crop_box.
    destruct (PIL.size image) as [w h].
    cbn [processors.crop_box processors.items].
    assert (Hl : Py.truthy_list l = true) by (destruct l; [destruct Hin|reflexivity]).
    rewrite Hl. cbn [processors.fill_missing].
    assert (Hall : forallb (fun v : option num =>
                     match v with Some _ => true | None => false end) l = false).
    { clear Hl. induction l as [|v l IH]; [destruct Hin|].
      destruct Hin as [->|Hin]; [reflexivity|].
      simpl. rewrite (IH Hin). apply andb_false_r. }
    rewrite Hall. reflexivity.
  - intros l.
    unfold processors.crop_processor, processors.crop_get_crop_box.
    destruct (PIL.size image) as [w h].
    cbn [processors.crop_box processors.items processors.crop_percent].
    assert (Ht : Py.truthy_list (map Crop.or_zero l) = Py.truthy_list l)
      by (destruct l; reflexivity).
    rewrite Ht. destruct (Py.truthy_list l); [|reflexivity].
    cbn [processors.fill_missing].
    assert (Hmap : forall l : list (option num),
              map (fun v : option num =>
                     match v with Some x => x | None => Int 0 end)
                  (map Crop.or_zero l)
              = map (fun v : option num =>
                       match v with Some x => x | None => Int 0 end) l).
    { induction l0 as [|u l0 IH]; simpl; [reflexivity|].
      rewrite IH. destruct u; reflexivity. }
    rewrite Hmap. reflexivity.
  - intros s Hs.
    unfold processors.crop_processor, processors.crop_get_crop_box.
    cbn [processors.crop_box]. rewrite Hs. reflexivity.
  - reflexivity.
Qed.

Ltac step_bind :=
  match goal with
  | |- context [Py.bind ?c _] =>
      lazymatch c with
      | Py.bind _ _ => fail
      | _ => destruct c; cbn [Py.bind processors.index nth_error];
             try reflexivity
      end
  end.

(** X6.  The length of a crop box.  With one, two or three items the crop
    operator never returns an image, in percent and in pixels; of a list
    of more than four items only the first four are read. *)
Theorem crop_box_wrong_length :
  forall (image : PIL.image) (percent : bool),
    (forall s : processors.sequence,
       (0 < List.length (processors.items s) < 4)%nat ->
       Py.is_ok
         (processors.crop_processor image
            {| processors.crop_box := Some s;
               processors.crop_percent := percent |}) = false) /\
    (forall l extra : list (option num),
       List.length l = 4%nat ->
       processors.crop_processor image
         {| processors.crop_box := Some (processors.PyList (l ++ extra));
            processors.crop_percent := percent |}
       = processors.crop_processor image
           {| processors.crop_box := Some (processors.PyList l);
              processors.crop_percent := percent |}).
Proof.
  intros image percent. split.
  - intros s Hlen.
    unfold processors.crop_processor, processors.crop_get_crop_box.
    destruct (PIL.size image) as [w h].
    cbn [processors.crop_box processors.crop_percent].
    assert (Ht : Py.truthy_list (processors.items s) = true).
    { destruct (processors.items s); [simpl in Hlen; lia|reflexivity]. }
    rewrite Ht.
    destruct (processors.fill_missing s) as [l|e] eqn:Hfill;
      [|reflexivity].
    assert (Hl : (0 < List.length l < 4)%nat).
    { destruct s as [l0|l0]; simpl in Hfill, Hlen.
      - injection Hfill as <-. now rewrite length_map.
      - destruct (forallb _ l0); [|discriminate].
        injection Hfill as <-. now rewrite length_map. }
    cbn [Py.bind].
    destruct l as [|a [|b [|c [|d l]]]]; simpl in Hl; try lia;
      destruct percent; cbn [processors.index nth_error Py.bind];
      repeat step_bind; reflexivity.
  - intros l extra Hlen.
    destruct l as [|a [|b [|c [|d [|e l]]]]]; try discriminate.
    unfold processors.crop_processor, processors.crop_get_crop_box.
    destruct (PIL.size image) as [w h].
    cbn [processors.crop_box processors.crop_percent processors.items
         app Py.truthy_list processors.fill_missing map Py.bind
         processors.index nth_error].
    reflexivity.
Qed.

(** *** Flips and quarter turns *)

(** X7.  The flip operator never fails and keeps mode and size.  For
    [flip='x'] and [flip='h'] the result holds at [(x, y)] the pixel of the
    input at [(w - 1 - x, y)], the columns mirrored; for every other
    non-empty value, ['y'] among them, it holds the pixel at
    [(x, h - 1 - y)], the rows mirrored. *)
Theorem flip_mirrors :
  forall (image : PIL.image) (o : processors.flip_options),
    processors.flip o <> ""%string ->
    exists out : PIL.image,
      processors.flip_processor image o = Ok out /\
      PIL.mode out = PIL.mode image /\
      PIL.size out = PIL.size image /\
      forall x y : Z,
        PIL.getpixel out x y =
          if Py.str_in (processors.flip o) ["x"; "h"]%string
          then PIL.getpixel image (fst (PIL.size image) - 1 - x) y
          else PIL.getpixel image x (snd (PIL.size image) - 1 - y).
Proof.
  intros image o Ho. unfold processors.flip_processor, Py.truthy_str.
  apply String.eqb_neq in Ho. rewrite Ho. cbn [negb].
  eexists. split; [reflexivity|].
  destruct (Py.str_in (processors.flip o) ["x"; "h"]%string);
    repeat split.
Qed.

(** X8.  Flipping twice with the same option gives back the picture: mode,
    size and every pixel of the input. *)
Theorem flip_twice_same_picture :
  forall (image : PIL.image) (o : processors.flip_options),
    exists once twice : PIL.image,
      processors.flip_processor image o = Ok once /\
      processors.flip_processor once o = Ok twice /\
      PIL.same_picture twice image.
Proof.
  intros image o. unfold processors.flip_processor.
  destruct (negb (Py.truthy_str (processors.flip o))).
  - exists image, image. repeat split.
  - do 2 eexists. split; [reflexivity|]. split; [reflexivity|].
    destruct (Py.str_in (processors.flip o) ["x"; "h"]%string);
      (split; [reflexivity|]; split; [reflexivity|]);
      intros x y _; cbn [PIL.transpose PIL.getpixel PIL.width PIL.height];
      f_equal; lia.
Qed.

Section Turns.
Context {B : PIL.Backend}.

(** The rotate operator on a multiple of 90 degrees. *)
Lemma rotate_quarter (image : PIL.image) (o : processors.rotate_options) :
  processors.degrees o mod 90 = 0 ->
  processors.rotate_processor image o =
    if processors.degrees o =? 0 then Ok image
    else
      m <- PIL.getattr ("ROTATE_" ++ Py.format_int (processors.degrees o)) ;;
      Ok (PIL.transpose image m).
Proof.
  intros Hd.
  unfold processors.rotate_processor, processors.rotate_process,
    processors.rotate_prep.
  cbn [processors.options processors.transposable].
  rewrite Hd, Z.eqb_refl. reflexivity.
Qed.

(** X9.  Flipping with ['x'] and then with ['y'] gives the picture that the
    rotate operator gives for 180 degrees. *)
Theorem flip_both_axes_is_half_turn :
  forall (image : PIL.image) (o : processors.rotate_options),
    processors.degrees o = 180 ->
    exists a b c : PIL.image,
      processors.flip_processor image {| processors.flip := "x" |} = Ok a /\
      processors.flip_processor a {| processors.flip := "y" |} = Ok b /\
      processors.rotate_processor image o = Ok c /\
      PIL.same_picture b c.
Proof.
  intros image o Hd.
  rewrite rotate_quarter by (rewrite Hd; reflexivity).
  rewrite Hd, getattr_rotate. cbn [Z.eqb Pos.eqb Py.bind].
  do 3 eexists. split; [reflexivity|]. split; [reflexivity|].
  split; [reflexivity|].
  split; [reflexivity|]. split; [reflexivity|].
  intros x y _. reflexivity.
Qed.

(** X10.  Quarter turns compose by adding the degrees modulo 360: for
    [d1] and [d2] among 0, 90, 180 and 270, rotating by [d1] and then by
    [d2] succeeds and gives the picture of the single rotation by
    [(d1 + d2) mod 360]; in particular 90 then 270, and 180 twice, give
    back the input. *)
Theorem quarter_turns_compose :
  forall (image : PIL.image) (o1 o2 o3 : processors.rotate_options),
    In (processors.degrees o1) [0; 90; 180; 270] ->
    In (processors.degrees o2) [0; 90; 180; 270] ->
    processors.degrees o3
      = (processors.degrees o1 + processors.degrees o2) mod 360 ->
    exists a b c : PIL.image,
      processors.rotate_processor image o1 = Ok a /\
      processors.rotate_processor a o2 = Ok b /\
      processors.rotate_processor image o3 = Ok c /\
      PIL.same_picture b c.
Proof.
  intros image o1 o2 o3 H1 H2 H3.
  assert (Hq : forall (im : PIL.image) (o : processors.rotate_options) d,
            processors.degrees o = d -> d mod 90 = 0 ->
            processors.rotate_processor im o =
              if d =? 0 then Ok im
              else m <- (if d =? 90 then Ok PIL.ROTATE_90
                         else if d =? 180 then Ok PIL.ROTATE_180
                         else if d =? 270 then Ok PIL.ROTATE_270
                         else Raise Py.AttributeError) ;;
                   Ok (PIL.transpose im m)).
  { intros im o d <- Hd. rewrite rotate_quarter by exact Hd.
    now rewrite getattr_rotate. }
  cbn [In] in H1, H2.
  destruct H1 as [H1|[H1|[H1|[H1|[]]]]];
    destruct H2 as [H2|[H2|[H2|[H2|[]]]]];
    rewrite <- H1, <- H2 in H3; cbn in H3;
    symmetry in H1, H2;
    rewrite (Hq image o1 _ H1 eq_refl), (Hq image o3 _ H3 eq_refl);
    cbn [Z.eqb Pos.eqb Py.bind];
    do 3 eexists;
    (split; [reflexivity|]);
    (split; [rewrite (Hq _ o2 _ H2 eq_refl); cbn [Z.eqb Pos.eqb Py.bind];
             reflexivity|]);
    (split; [reflexivity|]);
    (split; [reflexivity|]; split; [reflexivity|]);
    intros x y _;
    cbn [PIL.transpose PIL.getpixel PIL.width PIL.height];
    f_equal; lia.
Qed.

(** *** The other branches of the rotate operators *)

(** [Image.new] takes a tuple of three or four band values. *)
Lemma new_of_bytes (m : string) (sz : Z * Z) (l : list Z) :
  (List.length l = 3 \/ List.length l = 4)%nat ->
  Forall (fun v => 0 <= v <= 255) l ->
  exists background : PIL.image,
    PIL.new m sz (PIL.ColorTuple l) = Ok background.
Proof.
  intros Hlen Hb. unfold PIL.new.
  assert (E : ((List.length l =? 3)%nat || (List.length l =? 4)%nat)%bool
              = true).
  { destruct Hlen as [->| ->]; reflexivity. }
  rewrite E.
  assert (F : forallb PIL.fits_int l = true).
  { apply forallb_forall. intros v Hv.
    rewrite Forall_forall in Hb. specialize (Hb v Hv).
    unfold PIL.fits_int. apply andb_true_intro.
    split; [apply Z.leb_le|apply Z.ltb_lt]; simpl; lia. }
  rewrite F. eexists. reflexivity.
Qed.

(** [Image.new] takes neither a list nor a tuple of another length. *)
Lemma new_rejects (m : string) (sz : Z * Z) (c : PIL.color_seq) :
  (exists l, c = PIL.ColorList l) \/
  (exists l, c = PIL.ColorTuple l /\
             List.length l <> 3%nat /\ List.length l <> 4%nat) ->
  PIL.new m sz c = Raise Py.TypeError.
Proof.
  intros [[l ->]|(l & -> & H3 & H4)]; [reflexivity|].
  unfold PIL.new.
  apply Nat.eqb_neq in H3, H4. rewrite H3, H4. reflexivity.
Qed.

(** X11.  Rotation by an angle that is not a multiple of 90 with a fill
    color.  The background is made by [Image.new] before the fourth
    component of the color is read, so a color that [Image.new] does not
    take, a list or a tuple of two or of more than four components, raises
    [TypeError] whatever [preserve_transparency] says.  For a tuple of
    band values: with three components the operator raises [IndexError]
    when [preserve_transparency] is on, and returns an image in the mode of
    the input when it is off; with four components it returns an image in
    the mode of the input when [preserve_transparency] is off or the fourth
    component is 255, and the composite in the mode of the rotated RGBA
    image otherwise.  A returned image has the size of the rotated
    canvas. *)
Theorem rotate_with_fill_color :
  forall (image : PIL.image) (o : processors.rotate_options)
         (c : PIL.color_seq),
    processors.degrees o mod 90 <> 0 ->
    processors.color o = Some c -> PIL.components c <> [] ->
    let rotated :=
      PIL.rotate (PIL.convert image "RGBA") (processors.degrees o)
        (processors.extend o) in
    ((exists l, c = PIL.ColorList l) \/
     (exists l, c = PIL.ColorTuple l /\
                (List.length l = 2 \/ 4 < List.length l)%nat) ->
     processors.rotate_processor image o = Raise Py.TypeError) /\
    (forall l : list Z,
       c = PIL.ColorTuple l -> Forall (fun v => 0 <= v <= 255) l ->
       (List.length l = 3%nat ->
        processors.preserve_transparency o = true ->
        processors.rotate_processor image o = Raise Py.IndexError) /\
       (List.length l = 3%nat ->
        processors.preserve_transparency o = false ->
        exists out : PIL.image,
          processors.rotate_processor image o = Ok out /\
          PIL.mode out = PIL.mode image /\
          PIL.size out = PIL.size rotated) /\
       (List.length l = 4%nat ->
        processors.preserve_transparency o = false \/
        nth_error l 3 = Some 255 ->
        exists out : PIL.image,
          processors.rotate_processor image o = Ok out /\
          PIL.mode out = PIL.mode image /\
          PIL.size out = PIL.size rotated) /\
       (List.length l = 4%nat ->
        processors.preserve_transparency o = true ->
        nth_error l 3 <> Some 255 ->
        exists out : PIL.image,
          processors.rotate_processor image o = Ok out /\
          PIL.mode out = PIL.mode rotated /\
          PIL.size out = PIL.size rotated)).
Proof.
  intros image o c Hd Hc Hne rotated.
  unfold processors.rotate_processor, processors.rotate_process,
    processors.rotate_prep.
  cbn [processors.options processors.transposable].
  apply Z.eqb_neq in Hd. rewrite Hd, Hc.
  assert (Ht : processors.truthy_color (Some c) = true).
  { unfold processors.truthy_color.
    destruct (PIL.components c); [contradiction|reflexivity]. }
  rewrite Ht. fold rotated. split.
  - intros Hbad.
    rewrite (new_rejects "RGBA" (PIL.size rotated) c); [reflexivity|].
    destruct Hbad as [Hl|(l & -> & Hlen)]; [left; exact Hl|].
    right. exists l. split; [reflexivity|lia].
  - intros l -> Hb.
    assert (Hnew : (List.length l = 3 \/ List.length l = 4)%nat ->
              exists background : PIL.image,
                PIL.new "RGBA" (PIL.size rotated) (PIL.ColorTuple l)
                = Ok background).
    { intros Hlen. apply new_of_bytes; assumption. }
    split; [|split; [|split]].
    + intros Hlen Hp.
      destruct (Hnew (or_introl Hlen)) as (bg & ->). cbn [Py.bind].
      rewrite Hp. cbn [negb processors.alpha_is_opaque PIL.components].
      assert (Hn : nth_error l 3 = None) by (apply nth_error_None; lia).
      rewrite Hn. reflexivity.
    + intros Hlen Hp.
      destruct (Hnew (or_introl Hlen)) as (bg & ->). cbn [Py.bind].
      rewrite Hp. cbn [negb Py.bind].
      eexists. split; [reflexivity|]. split; reflexivity.
    + intros Hlen Hback.
      destruct (Hnew (or_intror Hlen)) as (bg & ->). cbn [Py.bind].
      assert (E : (if negb (processors.preserve_transparency o) then Ok true
                   else processors.alpha_is_opaque
                          (Some (PIL.ColorTuple l))) = Ok true).
      { destruct Hback as [->|Hn]; [reflexivity|].
        destruct (processors.preserve_transparency o); [|reflexivity].
        cbn [negb processors.alpha_is_opaque PIL.components].
        rewrite Hn. reflexivity. }
      rewrite E. cbn [Py.bind].
      eexists. split; [reflexivity|]. split; reflexivity.
    + intros Hlen Hp Hn.
      destruct (Hnew (or_intror Hlen)) as (bg & ->). cbn [Py.bind].
      rewrite Hp. cbn [negb processors.alpha_is_opaque PIL.components].
      destruct (nth_error l 3) as [a|] eqn:Ea;
        [|apply nth_error_None in Ea; lia].
      assert (Ha : (a =? 255) = false).
      { apply Z.eqb_neq. intros ->. apply Hn. reflexivity. }
      rewrite Ha. cbn [Py.bind].
      eexists. split; [reflexivity|]. split; reflexivity.
Qed.

(** X12.  The rotate+crop operator looks its crop strategy up by name: for
    degrees that are not a multiple of 90 and a [crop_mode] other than
    [aspect_ratio] and [max_area], it raises [AttributeError]. *)
Theorem rotate_crop_unknown_mode_raises :
  forall (image : PIL.image) (o : processors.rotate_options),
    processors.degrees o mod 90 <> 0 ->
    Py.str_in (processors.crop_mode o) ["aspect_ratio"; "max_area"]%string
      = false ->
    processors.rotate_crop_processor image o = Raise Py.AttributeError.
Proof.
  intros image o Hd Hm.
  unfold processors.rotate_crop_processor, processors.rotate_crop_process,
    processors.rotate_process, processors.rotate_crop_prep,
    processors.rotate_prep, processors.get_rotated_rect.
  cbn [processors.options processors.transposable processors.color
       processors.crop_mode processors.truthy_color].
  apply Z.eqb_neq in Hd. rewrite Hd. cbn [Py.bind].
  rewrite !str_in_cons in Hm. cbn [Py.str_in existsb] in Hm.
  apply orb_false_elim in Hm. destruct Hm as [Ha Hm].
  apply orb_false_elim in Hm. destruct Hm as [Hm _].
  simpl String.eqb. rewrite Ha, Hm. reflexivity.
Qed.

(** X13.  The rotate+crop operator on an empty image, for degrees that are
    not a multiple of 90.  The [max_area] strategy guards against an input
    without width or height and crops to the empty size [(0, 0)]; the
    [aspect_ratio] strategy divides by the input height and raises
    [ZeroDivisionError] when it is zero. *)
Theorem rotate_crop_of_empty_image :
  forall (image : PIL.image) (o : processors.rotate_options) (w h : Z),
    PIL.size image = (w, h) ->
    processors.degrees o mod 90 <> 0 ->
    (processors.crop_mode o = "max_area"%string ->
     w = 0 \/ h = 0 ->
     fst (PIL.size (PIL.rotate image (processors.degrees o) true)) < 2 ^ 52 ->
     snd (PIL.size (PIL.rotate image (processors.degrees o) true)) < 2 ^ 52 ->
     exists out : PIL.image,
       processors.rotate_crop_processor image o = Ok out /\
       PIL.size out = (0, 0)) /\
    (processors.crop_mode o = "aspect_ratio"%string ->
     h = 0 -> w < 2 ^ 53 ->
     processors.rotate_crop_processor image o = Raise Py.ZeroDivisionError).
Proof.
  intros image o w h Hsz Hd.
  assert (Hw0 : 0 <= w) by (unfold PIL.size in Hsz; injection Hsz; lia).
  assert (Hh0 : 0 <= h) by (unfold PIL.size in Hsz; injection Hsz; lia).
  apply Z.eqb_neq in Hd.
  unfold processors.rotate_crop_processor, processors.rotate_crop_process,
    processors.rotate_process, processors.rotate_crop_prep,
    processors.rotate_prep, processors.get_rotated_rect.
  cbn [processors.options processors.transposable processors.color
       processors.crop_mode processors.truthy_color processors.degrees
       processors.extend processors.input_size].
  rewrite Hd. cbn [Py.bind]. split.
  - intros -> Hempty Hrw Hrh. simpl String.eqb. cbv iota.
    unfold processors.get_rotated_rect_max_area.
    cbn [processors.input_size]. rewrite Hsz.
    assert (E : ((w <=? 0) || (h <=? 0))%bool = true).
    { destruct Hempty as [->| ->]; [reflexivity|apply orb_true_r]. }
    rewrite E. cbn [Py.bind].
    set (rotated := PIL.rotate image (processors.degrees o) true) in *.
    pose proof (get_crop_box_closed rotated 0 0 "center") as Hbox.
    destruct (PIL.size rotated) as [rw rh] eqn:Hrs. cbn [fst snd] in *.
    cbv zeta in Hbox.
    assert (Hrw0 : 0 <= rw) by (unfold PIL.size in Hrs; injection Hrs; lia).
    assert (Hrh0 : 0 <= rh) by (unfold PIL.size in Hrs; injection Hrs; lia).
    rewrite (Hbox ltac:(lia) ltac:(lia) Hrw Hrh).
    change (Py.str_in "center" ["center"; "crop"; "fill"]%string) with true.
    cbv iota. cbn [Py.bind].
    eexists. split; [reflexivity|].
    rewrite crop_size by lia. f_equal; lia.
  - intros -> -> Hw. simpl String.eqb. cbv iota.
    unfold processors.get_rotated_rect_aspect_ratio.
    cbn [processors.input_size]. rewrite Hsz.
    cbn [Py.to_float].
    destruct (float_of_nonneg w ltac:(lia)) as (f & -> & _).
    cbn [Py.bind]. reflexivity.
Qed.

End Turns.

(** *** The fit mode of the resize operator *)

Lemma gtb_le (a b : Z) : a <= b -> (a >? b) = false.
Proof. intros H. rewrite Z.gtb_ltb. apply Z.ltb_ge. exact H. Qed.

Lemma gtb_true_lt (a b : Z) : (a >? b) = true -> b < a.
Proof. rewrite Z.gtb_ltb. apply Z.ltb_lt. Qed.

Lemma gtb_false_le (a b : Z) : (a >? b) = false -> a <= b.
Proof. rewrite Z.gtb_ltb. apply Z.ltb_ge. Qed.

(** The fit size of an image that is inside the box is its own size. *)
Lemma fit_size_inside (w h W H : Z) :
  0 < w -> 0 < h -> w <= W -> h <= H -> fit_size w h W H = (w, h).
Proof.
  intros Hw Hh HW HH. unfold fit_size.
  replace (w >? W) with false by (symmetry; apply gtb_le; lia).
  replace (h >? H) with false by (symmetry; apply gtb_le; lia).
  reflexivity.
Qed.

(** The fit size of an image that is outside the box touches the box. *)
Lemma fit_size_touches (w h W H : Z) :
  0 < w -> 0 < h -> 0 < W -> 0 < H ->
  W < w \/ H < h ->
  let '(w2, h2) := fit_size w h W H in
  (w2 = W \/ h2 = H) /\ (W * h = H * w -> (w2, h2) = (W, H)).
Proof.
  intros Hw Hh HW HH Hl. unfold fit_size.
  destruct (w >? W) eqn:E1.
  - apply gtb_true_lt in E1.
    destruct (Z.max (h * W / w) 1 >? H) eqn:E2.
    + split; [right; reflexivity|]. intros Hp.
      apply gtb_true_lt in E2.
      replace (h * W) with (H * w) in E2 by lia.
      rewrite Z.div_mul in E2 by lia. lia.
    + split; [left; reflexivity|]. intros Hp.
      replace (h * W) with (H * w) by lia.
      rewrite Z.div_mul by lia. f_equal. lia.
  - apply gtb_false_le in E1.
    destruct (h >? H) eqn:E2.
    + split; [right; reflexivity|]. intros Hp.
      apply gtb_true_lt in E2. nia.
    + apply gtb_false_le in E2. lia.
Qed.

Lemma resize_size (B : PIL.Backend) (im : PIL.image) (a b : Z) :
  0 <= a -> 0 <= b -> PIL.size (PIL.resize im (a, b)) = (a, b).
Proof.
  intros Ha Hb. unfold PIL.resize, PIL.size.
  cbn [PIL.width PIL.height fst snd]. rewrite !Z2N.id by lia. reflexivity.
Qed.

Section Fit.
Context {B : PIL.Backend}.

(** X14.  Without [upscale] the fit mode never enlarges: the result is at
    most as wide and as high as the input, and an input that is already
    inside the box keeps its size. *)
Theorem resize_fit_never_enlarges :
  forall (image : PIL.image) (w h W H : Z),
    PIL.size image = (w, h) ->
    0 < w <= 2 ^ 16 -> 0 < h <= 2 ^ 16 ->
    0 < W <= 2 ^ 16 -> 0 < H <= 2 ^ 16 ->
    exists (out : PIL.image) (w' h' : Z),
      processors.resize_processor image
        {| processors.width := Some W; processors.height := Some H;
           processors.fit := "fit"; processors.upscale := false |} = Ok out /\
      PIL.size out = (w', h') /\
      w' <= w /\ h' <= h /\
      (w <= W -> h <= H -> (w', h') = (w, h)).
Proof.
  intros image w h W H Hsz Hw Hh HW HH.
  pose proof (resize_processor_fit image W H) as Hfit.
  rewrite Hsz in Hfit. specialize (Hfit Hw Hh HW HH).
  pose proof (fit_size_bounds w h W H ltac:(lia) ltac:(lia) ltac:(lia)
                ltac:(lia)) as Hb.
  pose proof (fit_size_inside w h W H ltac:(lia) ltac:(lia)) as Hin.
  destruct (fit_size w h W H) as [w' h'].
  exists (PIL.resize image (w', h')), w', h'.
  split; [exact Hfit|].
  split; [apply resize_size; lia|].
  split; [lia|]. split; [lia|]. exact Hin.
Qed.

(** X15.  In fit mode an image that is wider or higher than the box is
    scaled until it touches the box: the result is exactly [W] wide or
    exactly [H] high; and when the box has the proportions of the image,
    [W * h = H * w], the result is the box, [(W, H)]. *)
Theorem resize_fit_touches_box :
  forall (image : PIL.image) (w h W H : Z),
    PIL.size image = (w, h) ->
    0 < w <= 2 ^ 16 -> 0 < h <= 2 ^ 16 ->
    0 < W <= 2 ^ 16 -> 0 < H <= 2 ^ 16 ->
    W < w \/ H < h ->
    exists (out : PIL.image) (w' h' : Z),
      processors.resize_processor image
        {| processors.width := Some W; processors.height := Some H;
           processors.fit := "fit"; processors.upscale := false |} = Ok out /\
      PIL.size out = (w', h') /\
      (w' = W \/ h' = H) /\
      (W * h = H * w -> (w', h') = (W, H)).
Proof.
  intros image w h W H Hsz Hw Hh HW HH Hl.
  pose proof (resize_processor_fit image W H) as Hfit.
  rewrite Hsz in Hfit. specialize (Hfit Hw Hh HW HH).
  pose proof (fit_size_bounds w h W H ltac:(lia) ltac:(lia) ltac:(lia)
                ltac:(lia)) as Hb.
  pose proof (fit_size_touches w h W H ltac:(lia) ltac:(lia) ltac:(lia)
                ltac:(lia) Hl) as Ht.
  destruct (fit_size w h W H) as [w' h'].
  exists (PIL.resize image (w', h')), w', h'.
  split; [exact Hfit|].
  split; [apply resize_size; lia|]. exact Ht.
Qed.

(** X16.  Resizing the result again into the same box, in fit mode, keeps
    its size. *)
Theorem resize_fit_twice_keeps_size :
  forall (image : PIL.image) (w h W H : Z),
    PIL.size image = (w, h) ->
    0 < w <= 2 ^ 16 -> 0 < h <= 2 ^ 16 ->
    0 < W <= 2 ^ 16 -> 0 < H <= 2 ^ 16 ->
    let o := {| processors.width := Some W; processors.height := Some H;
                processors.fit := "fit"; processors.upscale := false |} in
    exists once twice : PIL.image,
      processors.resize_processor image o = Ok once /\
      processors.resize_processor once o = Ok twice /\
      PIL.size twice = PIL.size once.
Proof.
  intros image w h W H Hsz Hw Hh HW HH o. subst o.
  pose proof (resize_processor_fit image W H) as Hfit.
  rewrite Hsz in Hfit. specialize (Hfit Hw Hh HW HH).
  pose proof (fit_size_bounds w h W H ltac:(lia) ltac:(lia) ltac:(lia)
                ltac:(lia)) as Hb.
  destruct (fit_size w h W H) as [w' h'].
  destruct Hb as (Hw' & Hh' & Hw'' & Hh'' & _).
  set (once := PIL.resize image (w', h')) in *.
  assert (Hs1 : PIL.size once = (w', h')) by (apply resize_size; lia).
  pose proof (resize_processor_fit once W H) as Hfit2.
  rewrite Hs1 in Hfit2.
  specialize (Hfit2 ltac:(lia) ltac:(lia) HW HH).
  rewrite fit_size_inside in Hfit2 by lia.
  exists once, (PIL.resize once (w', h')).
  split; [exact Hfit|]. split; [exact Hfit2|].
  rewrite Hs1. apply resize_size; lia.
Qed.

(** X17.  A [fit] that is neither [fit] nor one of the seven anchors is not
    read as [fit]: the resize operator scales the image as for an anchor
    and then raises [ValueError], the error of [get_crop_box] for an anchor
    it does not know. *)
Theorem resize_unknown_fit_raises :
  forall (image : PIL.image) (w h W H : Z) (fit : string),
    PIL.size image = (w, h) ->
    0 < w <= 2 ^ 16 -> 0 < h <= 2 ^ 16 ->
    0 < W <= 2 ^ 16 -> 0 < H <= 2 ^ 16 ->
    Py.str_in fit
      ["fit"; "center"; "crop"; "fill"; "top"; "left"; "right"; "bottom"]%string
      = false ->
    processors.resize_processor image
      {| processors.width := Some W; processors.height := Some H;
         processors.fit := fit; processors.upscale := false |}
    = Raise Py.ValueError.
Proof.
  intros image w h W H fit Hsz Hw Hh HW HH Hfit.
  rewrite str_in_cons in Hfit. apply orb_false_elim in Hfit.
  destruct Hfit as [Hnf Hfit].
  unfold processors.resize_processor, processors.resize_process,
    processors.resize_prep.
  rewrite Hsz.
  cbn [processors.width processors.height processors.fit processors.upscale
       Py.int_or processors.rs_fit processors.rs_width processors.rs_height].
  replace (W =? 0) with false by (symmetry; apply Z.eqb_neq; lia).
  replace (H =? 0) with false by (symmetry; apply Z.eqb_neq; lia).
  destruct (get_scaled_size_anchor w h W H fit Hw Hh HW HH Hnf)
    as (sw & sh & -> & Hsw & Hsh).
  cbn [Py.bind]. rewrite Hnf. cbn [negb].
  set (resized := PIL.resize image (sw, sh)).
  assert (Hrs : PIL.size resized = (sw, sh)) by (apply resize_size; lia).
  assert (H52 : 2 ^ 32 < 2 ^ 52) by (apply Z.pow_lt_mono_r; lia).
  pose proof (get_crop_box_closed resized W H fit) as Hbox.
  rewrite Hrs in Hbox. cbv zeta in Hbox.
  rewrite (Hbox ltac:(lia) ltac:(lia) ltac:(lia) ltac:(lia)).
  rewrite !str_in_cons in Hfit.
  repeat (apply orb_false_elim in Hfit;
          let E := fresh "E" in destruct Hfit as [E Hfit]).
  rewrite !str_in_cons. rewrite E, E0, E1, E2, E3, E4, E5. reflexivity.
Qed.

(** *** The engine *)

Lemma transpose_mode (im : PIL.image) (m : PIL.transpose_method) :
  PIL.mode (PIL.transpose im m) = PIL.mode im.
Proof. destruct m; reflexivity. Qed.

Lemma flip_mode (im out : PIL.image) (o : processors.flip_options) :
  processors.flip_processor im o = Ok out -> PIL.mode out = PIL.mode im.
Proof.
  unfold processors.flip_processor.
  destruct (negb (Py.truthy_str (processors.flip o)));
    intros E; injection E as <-.
  - reflexivity.
  - apply transpose_mode.
Qed.

Lemma crop_mode_kept (im out : PIL.image) (o : processors.crop_options) :
  processors.crop_processor im o = Ok out -> PIL.mode out = PIL.mode im.
Proof.
  unfold processors.crop_processor. destruct (PIL.size im) as [w h].
  intros E. bind_inv E. injection E as <-.
  destruct a as [[[x0 y0] x1] y1]. reflexivity.
Qed.

Lemma resize_mode (im out : PIL.image) (o : processors.resize_options) :
  processors.resize_processor im o = Ok out -> PIL.mode out = PIL.mode im.
Proof.
  unfold processors.resize_processor, processors.resize_process.
  intros E. bind_inv E.
  destruct (negb (String.eqb (processors.rs_fit (processors.resize_prep im o))
                    "fit")).
  - bind_inv E. injection E as <-.
    destruct a0 as [[[x0 y0] x1] y1]. reflexivity.
  - injection E as <-. reflexivity.
Qed.

Lemma rotate_quarter_mode (im out : PIL.image) (o : processors.rotate_options) :
  processors.degrees o mod 90 = 0 ->
  processors.rotate_processor im o = Ok out -> PIL.mode out = PIL.mode im.
Proof.
  intros Hd.
  unfold processors.rotate_processor, processors.rotate_process,
    processors.rotate_prep.
  cbn [processors.options processors.transposable].
  rewrite Hd, Z.eqb_refl.
  destruct (processors.degrees o =? 0); intros E.
  - injection E as <-. reflexivity.
  - bind_inv E. injection E as <-. apply transpose_mode.
Qed.

Lemma rotate_crop_quarter_mode (im out : PIL.image)
    (o : processors.rotate_options) :
  processors.degrees o mod 90 = 0 ->
  processors.rotate_crop_processor im o = Ok out ->
  PIL.mode out = PIL.mode im.
Proof.
  intros Hd.
  unfold processors.rotate_crop_processor, processors.rotate_crop_process,
    processors.rotate_process, processors.rotate_crop_prep,
    processors.rotate_prep.
  cbn [processors.options processors.transposable processors.degrees].
  rewrite Hd, Z.eqb_refl.
  destruct (processors.degrees o =? 0); intros E.
  - injection E as <-. reflexivity.
  - bind_inv E. bind_inv Ha. injection Ha as <-. injection E as <-.
    apply transpose_mode.
Qed.

(** X18.  The default engine does not change the color mode while it
    processes: when the recipe has no rotation, or a rotation by a multiple
    of 90, or an uncropped rotation with a fill color, the image that
    [process] returns has the mode of the source.  The engine passes
    [preserve_transparency=False] for every file type, png included, so
    the RGBA image that carries the fill color is always converted back. *)
Theorem engine_process_keeps_mode :
  forall (r : engines.recipe) (image out : PIL.image),
    (forall d : Z,
       engines.rotate r = Some d ->
       d mod 90 = 0 \/
       (engines.rotate_crop r = ""%string /\
        PIL.components (engines.rotate_color r) <> [])) ->
    engines.process r image = Ok out ->
    PIL.mode out = PIL.mode image.
Proof.
  intros r image out Hrot H.
  unfold engines.process in H.
  bind_inv H. bind_inv H. bind_inv H. bind_inv H. injection H as <-.
  assert (M0 : PIL.mode a = PIL.mode image).
  { destruct (Py.truthy_str (engines.flip r)); [exact (flip_mode _ _ _ Ha)|].
    injection Ha as <-. reflexivity. }
  assert (M1 : PIL.mode a0 = PIL.mode a).
  { destruct (engines.rotate r) as [d|] eqn:Er;
      [|injection Ha0 as <-; reflexivity].
    destruct (Py.truthy_int (Some d)); [|injection Ha0 as <-; reflexivity].
    destruct (Hrot d eq_refl) as [Hd|[Hc Hcol]].
    - destruct (negb (Py.truthy_str (engines.rotate_crop r))).
      + eapply rotate_quarter_mode; [|exact Ha0]. exact Hd.
      + eapply rotate_crop_quarter_mode; [|exact Ha0]. exact Hd.
    - rewrite Hc in Ha0. cbn [Py.truthy_str String.eqb negb] in Ha0.
      destruct (Z.eq_dec (d mod 90) 0) as [Hd|Hd];
        [eapply rotate_quarter_mode; [|exact Ha0]; exact Hd|].
      unfold processors.rotate_processor, processors.rotate_process,
        processors.rotate_prep in Ha0.
      cbn [processors.options processors.transposable processors.degrees
           processors.color processors.preserve_transparency] in Ha0.
      apply Z.eqb_neq in Hd. rewrite Hd in Ha0.
      destruct (PIL.components (engines.rotate_color r)) as [|c0 cs] eqn:Ec;
        [contradiction|].
      cbn [Py.truthy_list] in Ha0. unfold processors.truthy_color in Ha0.
      rewrite Ec in Ha0. cbn [Py.truthy_list] in Ha0.
      destruct (PIL.new _ _ _) as [background|e]; [|discriminate].
      cbn [negb Py.bind] in Ha0.
      injection Ha0 as <-. reflexivity. }
  assert (M2 : PIL.mode a1 = PIL.mode a0).
  { destruct (engines.truthy_crop (engines.crop r));
      [exact (crop_mode_kept _ _ _ Ha1)|].
    injection Ha1 as <-. reflexivity. }
  assert (M3 : PIL.mode a2 = PIL.mode a1).
  { destruct (Py.truthy_int (engines.width r)
              || Py.truthy_int (engines.height r))%bool;
      [exact (resize_mode _ _ _ Ha2)|].
    injection Ha2 as <-. reflexivity. }
  congruence.
Qed.

(** The engine on a recipe that only resizes. *)
Lemma process_resize_only (r : engines.recipe) (image : PIL.image) :
  engines.flip r = ""%string ->
  Py.truthy_int (engines.rotate r) = false ->
  engines.truthy_crop (engines.crop r) = false ->
  engines.process r image =
    if (Py.truthy_int (engines.width r) || Py.truthy_int (engines.height r))%bool
    then
      processors.resize_processor image
        {| processors.width :=
             Some (Py.int_or (engines.width r) (fst (PIL.size image)));
           processors.height :=
             Some (Py.int_or (engines.height r) (snd (PIL.size image)));
           processors.fit := engines.fit r;
           processors.upscale := engines.upscale r |}
    else Ok image.
Proof.
  intros Hflip Hrot Hcrop. unfold engines.process.
  rewrite Hflip. cbn [Py.truthy_str String.eqb negb Py.bind].
  revert Hrot. destruct (engines.rotate r) as [d|]; intros Hrot;
    [rewrite Hrot|]; cbn [Py.bind]; rewrite Hcrop; cbn [Py.bind];
    destruct (Py.truthy_int (engines.width r)
              || Py.truthy_int (engines.height r))%bool;
    try reflexivity;
    destruct (processors.resize_processor _ _); reflexivity.
Qed.

(** X19.  A recipe that gives only one dimension of the box.  The engine
    takes the missing dimension from the image, so in fit mode a recipe
    with only a width [W] scales an image that is wider than [W] to
    [(W, max(h * W // w, 1))] and leaves the size of any other image, and
    a recipe with only a height [H] does the same along the other axis. *)
Theorem engine_single_dimension_recipe :
  forall (r : engines.recipe) (image : PIL.image) (w h : Z),
    PIL.size image = (w, h) ->
    0 < w <= 2 ^ 16 -> 0 < h <= 2 ^ 16 ->
    engines.flip r = ""%string ->
    Py.truthy_int (engines.rotate r) = false ->
    engines.truthy_crop (engines.crop r) = false ->
    engines.fit r = "fit"%string -> engines.upscale r = false ->
    (forall W : Z,
       engines.width r = Some W -> 0 < W <= 2 ^ 16 ->
       Py.truthy_int (engines.height r) = false ->
       engines.process r image
         = Ok (PIL.resize image
                 (if w >? W then (W, Z.max (h * W / w) 1) else (w, h)))) /\
    (forall H : Z,
       engines.height r = Some H -> 0 < H <= 2 ^ 16 ->
       Py.truthy_int (engines.width r) = false ->
       engines.process r image
         = Ok (PIL.resize image
                 (if h >? H then (Z.max (w * H / h) 1, H) else (w, h)))).
Proof.
  intros r image w h Hsz Hw Hh Hflip Hrot Hcrop Hfit Hup.
  assert (Hor : forall o v, Py.truthy_int o = false -> Py.int_or o v = v).
  { intros [z|] v E; [|reflexivity]. cbn in E |- *.
    destruct (z =? 0); [reflexivity|discriminate]. }
  split.
  - intros W HWr HW Hhr.
    rewrite (process_resize_only r image Hflip Hrot Hcrop).
    rewrite HWr, Hhr, Hfit, Hup, Hsz. cbn [fst snd].
    rewrite (Hor _ h Hhr).
    replace (Py.truthy_int (Some W)) with true
      by (cbn; destruct (Z.eqb_spec W 0); [lia|reflexivity]).
    cbn [orb Py.int_or].
    replace (W =? 0) with false by (symmetry; apply Z.eqb_neq; lia).
    pose proof (resize_processor_fit image W h) as E.
    rewrite Hsz in E. rewrite (E Hw Hh HW Hh). cbn [Py.bind].
    do 2 f_equal. unfold fit_size.
    destruct (w >? W) eqn:E1.
    + apply gtb_true_lt in E1.
      assert (h * W / w <= h).
      { apply Z.div_le_upper_bound; nia. }
      replace (Z.max (h * W / w) 1 >? h) with false
        by (symmetry; apply gtb_le; lia).
      reflexivity.
    + replace (h >? h) with false
        by (symmetry; apply gtb_le; lia).
      reflexivity.
  - intros H HHr HH Hwr.
    rewrite (process_resize_only r image Hflip Hrot Hcrop).
    rewrite HHr, Hwr, Hfit, Hup, Hsz. cbn [fst snd].
    rewrite (Hor _ w Hwr).
    replace (Py.truthy_int (Some H)) with true
      by (cbn; destruct (Z.eqb_spec H 0); [lia|reflexivity]).
    rewrite orb_true_r. cbn [Py.int_or].
    replace (H =? 0) with false by (symmetry; apply Z.eqb_neq; lia).
    pose proof (resize_processor_fit image w H) as E.
    rewrite Hsz in E. rewrite (E Hw Hh Hw HH). cbn [Py.bind].
    do 2 f_equal. unfold fit_size.
    replace (w >? w) with false
      by (symmetry; apply gtb_le; lia).
    reflexivity.
Qed.

End Fit.

(** *** AttrDict *)

(** The traversal of [AttrDict] is the check for a dictionary inside a
    tuple followed by the marking of every dictionary. *)
Lemma convert_item_spec (v : utils.value) :
  forall assignable : bool,
    utils.convert_item assignable v =
      if utils.tuple_holds_dict v || (utils.is_dict v && negb assignable)
      then Raise Py.TypeError
      else Ok (utils.marked v).
Proof.
  induction v as [repr|attr entries IH|items IH|items IH]
    using utils.value_induction; intros assignable.
  - reflexivity.
  - cbn [utils.convert_item utils.tuple_holds_dict utils.marked
         utils.is_dict].
    assert (E :
      (fix convert_entries (es : list (string * utils.value))
           : result (list (string * utils.value)) :=
         match es with
         | [] => Ok []
         | (k, x) :: rest =>
             x' <- utils.convert_item true x ;;
             rest' <- convert_entries rest ;;
             Ok ((k, x') :: rest')
         end) entries
      = if existsb (fun kv => utils.tuple_holds_dict (snd kv)) entries
        then Raise Py.TypeError
        else Ok (map (fun kv => (fst kv, utils.marked (snd kv))) entries)).
    { induction IH as [|[k x] rest Hx Hrest IHrest]; [reflexivity|].
      cbn [snd] in Hx.
      cbn [existsb map fst snd]. rewrite (Hx true), IHrest.
      cbn [snd negb andb]. rewrite andb_false_r, orb_false_r.
      destruct (utils.tuple_holds_dict x); [reflexivity|].
      cbn [Py.bind orb].
      destruct (existsb _ rest); reflexivity. }
    rewrite E. cbn [andb].
    destruct (existsb _ entries); [reflexivity|].
    cbn [Py.bind orb]. destruct assignable; reflexivity.
  - cbn [utils.convert_item utils.tuple_holds_dict utils.marked
         utils.is_dict andb].
    rewrite orb_false_r.
    assert (E :
      (fix convert_items (l : list utils.value) : result (list utils.value) :=
         match l with
         | [] => Ok []
         | x :: rest =>
             x' <- utils.convert_item true x ;;
             rest' <- convert_items rest ;;
             Ok (x' :: rest')
         end) items
      = if existsb utils.tuple_holds_dict items
        then Raise Py.TypeError
        else Ok (map utils.marked items)).
    { induction IH as [|x rest Hx Hrest IHrest]; [reflexivity|].
      cbn [existsb map]. rewrite (Hx true), IHrest.
      cbn [negb]. rewrite andb_false_r, orb_false_r.
      destruct (utils.tuple_holds_dict x); [reflexivity|].
      cbn [Py.bind orb].
      destruct (existsb _ rest); reflexivity. }
    rewrite E. destruct (existsb _ items); reflexivity.
  - cbn [utils.convert_item utils.tuple_holds_dict utils.marked
         utils.is_dict andb].
    rewrite orb_false_r.
    assert (E :
      (fix convert_items (l : list utils.value) : result (list utils.value) :=
         match l with
         | [] => Ok []
         | x :: rest =>
             x' <- utils.convert_item false x ;;
             rest' <- convert_items rest ;;
             Ok (x' :: rest')
         end) items
      = if existsb (fun x => utils.is_dict x || utils.tuple_holds_dict x)
             items
        then Raise Py.TypeError
        else Ok (map utils.marked items)).
    { induction IH as [|x rest Hx Hrest IHrest]; [reflexivity|].
      cbn [existsb map]. rewrite (Hx false), IHrest.
      cbn [negb]. rewrite andb_true_r.
      rewrite (orb_comm (utils.tuple_holds_dict x)).
      destruct (utils.is_dict x || utils.tuple_holds_dict x)%bool;
        [reflexivity|].
      cbn [Py.bind orb].
      destruct (existsb _ rest); reflexivity. }
    rewrite E. destruct (existsb _ items); reflexivity.
Qed.

Lemma marked_no_tuple_dict (v : utils.value) :
  utils.tuple_holds_dict (utils.marked v) = utils.tuple_holds_dict v.
Proof.
  induction v as [repr|attr entries IH|items IH|items IH]
    using utils.value_induction.
  - reflexivity.
  - cbn [utils.marked utils.tuple_holds_dict].
    induction IH as [|[k x] rest Hx Hrest IHrest]; [reflexivity|].
    cbn [map existsb fst snd]. cbn [snd] in Hx. now rewrite Hx, IHrest.
  - cbn [utils.marked utils.tuple_holds_dict].
    induction IH as [|x rest Hx Hrest IHrest]; [reflexivity|].
    cbn [map existsb]. now rewrite Hx, IHrest.
  - cbn [utils.marked utils.tuple_holds_dict].
    induction IH as [|x rest Hx Hrest IHrest]; [reflexivity|].
    cbn [map existsb]. rewrite Hx, IHrest. f_equal. f_equal.
    destruct x; reflexivity.
Qed.

Lemma marked_idempotent (v : utils.value) :
  utils.marked (utils.marked v) = utils.marked v.
Proof.
  induction v as [repr|attr entries IH|items IH|items IH]
    using utils.value_induction.
  - reflexivity.
  - cbn [utils.marked]. f_equal.
    induction IH as [|[k x] rest Hx Hrest IHrest]; [reflexivity|].
    cbn [map fst snd]. cbn [snd] in Hx. now rewrite Hx, IHrest.
  - cbn [utils.marked]. f_equal.
    induction IH as [|x rest Hx Hrest IHrest]; [reflexivity|].
    cbn [map]. now rewrite Hx, IHrest.
  - cbn [utils.marked]. f_equal.
    induction IH as [|x rest Hx Hrest IHrest]; [reflexivity|].
    cbn [map]. now rewrite Hx, IHrest.
Qed.

(** X20.  [AttrDict(data)] raises [TypeError] when some tuple inside
    [data] has a dictionary among its items (the item assignment on the
    tuple fails), and raises nothing else: otherwise it returns [data] with
    every dictionary in it, at any depth of dictionaries, lists and tuples,
    turned into an [AttrDict]. *)
Theorem attrdict_converts_or_fails_on_tuple :
  forall data : list (string * utils.value),
    (utils.tuple_holds_dict (utils.VDict false data) = true ->
     utils.AttrDict data = Raise Py.TypeError) /\
    (utils.tuple_holds_dict (utils.VDict false data) = false ->
     utils.AttrDict data = Ok (utils.marked (utils.VDict false data))).
Proof.
  intros data. unfold utils.AttrDict. rewrite convert_item_spec.
  cbn [utils.is_dict negb andb]. rewrite orb_false_r.
  split; intros ->; reflexivity.
Qed.

(** X21.  Converting twice changes nothing: when [AttrDict(data)] returns
    the dictionary [d], it is an [AttrDict], [AttrDict(d)] returns [d]
    again, and every entry of [d] that is a dictionary is itself an
    [AttrDict], so that attribute access chains. *)
Theorem attrdict_is_idempotent :
  forall (data entries : list (string * utils.value)) (attr : bool),
    utils.AttrDict data = Ok (utils.VDict attr entries) ->
    attr = true /\
    utils.AttrDict entries = Ok (utils.VDict attr entries) /\
    forall (key : string) (v : utils.value),
      utils.entry (utils.VDict attr entries) key = Some v ->
      utils.is_dict v = true ->
      exists es, v = utils.VDict true es.
Proof.
  intros data entries attr H.
  unfold utils.AttrDict in *. rewrite convert_item_spec in H |- *.
  cbn [utils.is_dict negb andb] in *. rewrite orb_false_r in *.
  destruct (utils.tuple_holds_dict (utils.VDict false data)) eqn:E;
    [discriminate|].
  injection H as <- <-.
  split; [reflexivity|]. split.
  - change (utils.tuple_holds_dict
              (utils.VDict false
                 (map (fun kv => (fst kv, utils.marked (snd kv))) data)))
      with (utils.tuple_holds_dict (utils.marked (utils.VDict false data))).
    rewrite marked_no_tuple_dict, E.
    change (utils.marked
              (utils.VDict false
                 (map (fun kv => (fst kv, utils.marked (snd kv))) data)))
      with (utils.marked (utils.marked (utils.VDict false data))).
    now rewrite marked_idempotent.
  - intros key v Hget Hd. cbn [utils.entry] in Hget.
    destruct (find _ _) as [[k x]|] eqn:Hf; [|discriminate].
    cbn [option_map snd] in Hget.
    injection Hget as <-. cbn [snd] in Hd |- *.
    apply find_some in Hf. destruct Hf as [Hin _].
    apply in_map_iff in Hin. destruct Hin as ([k0 x0] & Heq & _).
    injection Heq as _ <-. cbn [snd] in *.
    destruct x0; try discriminate. eexists. reflexivity.
Qed.

(** *** The name of the stored file *)

(** The pieces of [split] hold no separator and join back to the string. *)
Lemma split_pieces (sep : ascii) (s : string) :
  let '(piece, pieces) := fields.split sep s in
  fields.contains sep piece = false /\
  Forall (fun p => fields.contains sep p = false) pieces /\
  String.concat (String sep EmptyString) (piece :: pieces) = s.
Proof.
  induction s as [|c rest IH]; [cbn; auto|].
  cbn [fields.split]. destruct (fields.split sep rest) as [piece pieces].
  destruct IH as (Hp & Hps & Hcat).
  destruct (Ascii.eqb c sep) eqn:E.
  - apply Ascii.eqb_eq in E. subst c.
    split; [reflexivity|]. split; [constructor; assumption|].
    cbn [String.concat] in *.
    destruct pieces; cbn [append] in *; now rewrite Hcat.
  - split; [cbn [fields.contains]; now rewrite E|].
    split; [assumption|].
    cbn [String.concat] in *.
    destruct pieces; cbn [append] in *; now rewrite Hcat.
Qed.

Lemma string_append_assoc (a b c : string) :
  ((a ++ b) ++ c)%string = (a ++ b ++ c)%string.
Proof.
  induction a as [|ch a IH]; [reflexivity|].
  cbn [append]. now rewrite IH.
Qed.

Lemma last_cons (A : Type) (y x : A) (l : list A) :
  last (y :: l) x = last l y.
Proof.
  revert x y. induction l as [|z l IH]; intros x y; [reflexivity|].
  change (last (y :: z :: l) x) with (last (z :: l) x).
  rewrite (IH x z), (IH y z). reflexivity.
Qed.

Lemma concat_ends_with_last (sep : string) (l : list string) :
  forall x : string,
    String.concat sep (x :: l) = last l x \/
    exists stem : string,
      String.concat sep (x :: l) = (stem ++ sep ++ last l x)%string.
Proof.
  induction l as [|y l IH]; intros x; [left; reflexivity|].
  right. rewrite last_cons.
  change (String.concat sep (x :: y :: l))
    with (x ++ sep ++ String.concat sep (y :: l))%string.
  destruct (IH y) as [E|(stem & E)]; rewrite E.
  - exists x. reflexivity.
  - exists (x ++ sep ++ stem)%string.
    rewrite !string_append_assoc. reflexivity.
Qed.

Lemma last_piece_spec (sep : ascii) (s : string) :
  let ext := fields.last_piece sep s in
  fields.contains sep ext = false /\
  (s = ext \/
   exists stem : string, s = (stem ++ String sep EmptyString ++ ext)%string).
Proof.
  unfold fields.last_piece.
  pose proof (split_pieces sep s) as H.
  destruct (fields.split sep s) as [piece pieces].
  destruct H as (Hp & Hps & Hcat). cbv zeta. split.
  - destruct pieces as [|q pieces]; [exact Hp|].
    rewrite Forall_forall in Hps. apply Hps.
    rewrite last_cons.
    destruct (exists_last (l := q :: pieces) ltac:(discriminate))
      as (l' & a & E).
    rewrite <- (last_cons _ q piece), E, last_last, <- E.
    rewrite E. apply in_or_app. right. left. reflexivity.
  - rewrite <- Hcat.
    destruct (concat_ends_with_last (String sep EmptyString) pieces piece)
      as [E|(stem & E)].
    + left. exact E.
    + right. exists stem. exact E.
Qed.

Lemma split_without_separator (sep : ascii) (s : string) :
  fields.contains sep s = false -> fields.split sep s = (s, []).
Proof.
  induction s as [|c rest IH]; [reflexivity|].
  cbn [fields.contains fields.split]. intros H.
  apply orb_false_elim in H. destruct H as [Hc Hrest].
  rewrite (IH Hrest), Hc. reflexivity.
Qed.

(** X22.  The upload handler names the stored file after a uuid and the
    last extension of the given name.  The extension is what follows the
    last dot, the whole name when it has no dot, and holds no dot itself;
    the uuid is the attribute of the instance when lazy entropy is on and
    the instance has it, and a fresh one otherwise; the result is the uuid,
    a dot and the extension, joined to the upload path. *)
Theorem upload_name_is_uuid_and_last_extension :
  forall (path field fresh filename : string) (lazy_entropy : bool)
         (instance : string -> option string),
    let ext := fields.last_piece "." filename in
    let uuid :=
      if lazy_entropy
      then match instance field with Some u => u | None => fresh end
      else fresh in
    fields.contains "." ext = false /\
    (filename = ext \/
     exists stem : string, filename = (stem ++ "." ++ ext)%string) /\
    fields.upload_to path (Some field) lazy_entropy instance fresh filename
      = Ok (fields.os_path_join path (uuid ++ "." ++ ext)) /\
    exists dir : string,
      fields.os_path_join path (uuid ++ "." ++ ext)
        = (dir ++ uuid ++ "." ++ ext)%string /\
      (dir = ""%string \/ dir = path \/ dir = (path ++ "/")%string).
Proof.
  intros path field fresh filename lazy_entropy instance ext uuid.
  destruct (last_piece_spec "." filename) as [Hext Hname]. fold ext in Hext, Hname.
  split; [exact Hext|]. split; [exact Hname|]. split.
  - unfold fields.upload_to. fold ext. subst uuid.
    destruct lazy_entropy; reflexivity.
  - unfold fields.os_path_join.
    destruct (fields.startswith "/" (uuid ++ "." ++ ext)).
    + exists ""%string. split; [reflexivity|]. left. reflexivity.
    + destruct (String.eqb path "" || fields.endswith "/" path)%bool.
      * exists path. split; [reflexivity|]. right. left. reflexivity.
      * exists (path ++ "/")%string. split.
        -- rewrite string_append_assoc. reflexivity.
        -- right. right. reflexivity.
Qed.

Section Upload.
Context {B : PIL.Backend}.

(** X23.  The file the default engine returns is stored under the
    extension of its file type: the engine names it by a dot and the
    extension, so the upload handler, given that name, stores it as
    [<uuid>.jpg] for a jpeg recipe, and as [<uuid>.<file_type>] for png
    and for any other file type without a dot. *)
Theorem engine_file_is_stored_by_extension :
  forall (r : engines.recipe) (image : PIL.image)
         (path field fresh : string) (lazy_entropy : bool)
         (instance : string -> option string),
    fields.contains "." (engines.file_type r) = false ->
    let uuid :=
      if lazy_entropy
      then match instance field with Some u => u | None => fresh end
      else fresh in
    fields.upload_to path (Some field) lazy_entropy instance fresh
      (engines.name (engines.save r image))
    = Ok (fields.os_path_join path
            (uuid ++ "." ++
             (if String.eqb (engines.file_type r) "jpeg" then "jpg"
              else engines.file_type r))).
Proof.
  intros r image path field fresh lazy_entropy instance Hdot uuid.
  assert (Hext : fields.contains "."
                   (engines.file_type_ext (engines.file_type r)) = false).
  { unfold engines.file_type_ext.
    destruct (String.eqb (engines.file_type r) "jpeg"); [reflexivity|].
    destruct (String.eqb (engines.file_type r) "png"); [reflexivity|].
    exact Hdot. }
  assert (Hlast : fields.last_piece "." (engines.name (engines.save r image))
                  = engines.file_type_ext (engines.file_type r)).
  { unfold engines.save. cbn [engines.name].
    unfold fields.last_piece.
    change ("." ++ engines.file_type_ext (engines.file_type r))%string
      with (String "." (engines.file_type_ext (engines.file_type r))).
    cbn [fields.split]. rewrite (split_without_separator _ _ Hext).
    reflexivity. }
  unfold fields.upload_to. rewrite Hlast. subst uuid.
  assert (E : engines.file_type_ext (engines.file_type r)
              = if String.eqb (engines.file_type r) "jpeg" then "jpg"%string
                else engines.file_type r).
  { unfold engines.file_type_ext.
    destruct (String.eqb (engines.file_type r) "jpeg"); [reflexivity|].
    destruct (String.eqb_spec (engines.file_type r) "png") as [->|];
      reflexivity. }
  rewrite E. destruct lazy_entropy; reflexivity.
Qed.

End Upload.

(** *** The crop box in percent *)

(** A difference of two normal floats with a positive result is one of the
    two floats next to the exact difference. *)
Lemma fsub_faithful (x y : float) :
  normal 60 x -> normal 60 y -> V y < V x ->
  Binary64.finite (Py.fsub x y) /\
  faithful (V x - V y) 1 (V (Py.fsub x y)).
Proof.
  intros Hx Hy Hlt.
  destruct (normal_inv 60 x Hx) as (mx & ex & -> & Hdx & Hex & Hmx).
  destruct (normal_inv 60 y Hy) as (my & ey & -> & Hdy & Hey & Hmy).
  unfold Py.fsub, Py.prec, Py.emax. cbn [SFsub cond_Zopp].
  set (ez := Z.min ex ey).
  rewrite !shl_align_fst by (subst ez; lia).
  set (z := Z.pos mx * 2 ^ (ex - ez) - Z.pos my * 2 ^ (ey - ez)).
  assert (Hzv : z * 2 ^ (ez + 1074)
                = V (S754_finite false mx ex) - V (S754_finite false my ey)).
  { subst z. cbn [V Py.signed]. rewrite Z.mul_sub_distr_r.
    rewrite <- !Z.mul_assoc, <- !Z.pow_add_r by (subst ez; lia).
    f_equal; do 2 f_equal; lia. }
  rewrite <- Hzv.
  assert (Hp1 : 0 < 2 ^ (ez + 1074)) by (apply pow2_pos; subst ez; lia).
  assert (Hz0 : 0 < z) by nia.
  assert (Hzb : z < 2 ^ 174).
  { assert (Hb : Zpos mx * 2 ^ (ex - ez) < 2 ^ 174).
    { assert (2 ^ (ex - ez) <= 2 ^ 120)
        by (apply Z.pow_le_mono_r; subst ez; lia).
      pose proof (pow2_pos (ex - ez) ltac:(subst ez; lia)).
      change (2 ^ 174) with (2 ^ 53 * 2 ^ 121).
      assert (2 ^ 120 < 2 ^ 121) by (apply Z.pow_lt_mono_r; lia).
      set (c := 2 ^ 53) in *. set (c' := 2 ^ 121) in *.
      set (c'' := 2 ^ 120) in *. set (u := 2 ^ (ex - ez)) in *.
      clearbody c c' c'' u. nia. }
    pose proof (pow2_pos (ey - ez) ltac:(subst ez; lia)).
    subst z. nia. }
  destruct z as [|pz|pz]; try lia.
  cbn [binary_normalize].
  set (d := Zpos (digits2_pos pz)).
  assert (Hd : 0 < d <= 174).
  { apply digits_of_bounds; [lia|]. change (2 ^ 0) with 1. lia. }
  destruct (Z.le_gt_cases d 53) as [Hsmall|Hbig].
  - (* at most 53 digits: the difference is a float *)
    assert (Hpz : Zpos pz < 2 ^ 53).
    { pose proof (digits2_pos_bounds pz) as Hb. fold d in Hb.
      assert (2 ^ d <= 2 ^ 53) by (apply Z.pow_le_mono_r; lia). lia. }
    pose proof (binary_round_exact false pz ez (Zpos pz) 0) as Hr.
    cbv zeta in Hr. fold d in Hr.
    destruct Hr as (m & Hr & Hdm & Hv); try lia; try (subst ez; lia).
    rewrite Hr. split; [simpl; subst ez; lia|].
    cbn [V Py.signed]. rewrite Hv.
    split; [|split].
    + exists (Zpos pz), (ez + 1074). repeat split; subst ez; lia.
    + intros t _ Ht. lia.
    + intros t _ Ht. lia.
  - (* more digits: rounded *)
    unfold binary_round.
    rewrite fexp_normal by (fold d; subst ez; lia). fold d.
    unfold shl_align.
    replace (d + ez - 53 - ez) with (d - 53) by lia.
    destruct (d - 53) as [|n|n] eqn:Hn; try lia.
    destruct (round_faithful false pz ez loc_Exact (Zpos pz) 1
                (2 ^ (ez + 1074)) (Zpos pz * 2 ^ (ez + 1074)) 1)
      as (m & e & Hr & Hdm & He & Hf); fold d; rewrite ?Hn; try lia;
      try (subst ez; lia).
    + intros _. reflexivity.
    + rewrite !Z.mul_1_r, <- Z.pow_add_r by (subst ez; lia).
      f_equal. lia.
    + rewrite Hr. split; [simpl; subst ez; lia|].
      cbn [V Py.signed]. exact Hf.
Qed.

Lemma normal_f100 : normal 52 Py.f100.
Proof. simpl. split; [reflexivity|lia]. Qed.

Lemma V_f100 : V Py.f100 = 100 * K.
Proof. reflexivity. Qed.

(** [l / 100. * w] for a percentage [l] and a side [w]: the product is a
    float within [2 ^ -26] hundredths of [l * w] hundredths. *)
Lemma percent_of_side (l w : Z) :
  0 < l <= 100 -> 0 < w <= 2 ^ 16 ->
  exists q p : float,
    Py.div (Int l) (Float Py.f100) = Ok (Float q) /\
    Py.mul (Float q) (Int w) = Ok (Float p) /\
    normal 60 p /\
    (l * w * 2 ^ 36 - 2 ^ 10) * 2 ^ 1038 <= 100 * V p
      <= (l * w * 2 ^ 36 + 2 ^ 10) * 2 ^ 1038.
Proof.
  intros Hl Hw.
  assert (H16 : 2 ^ 16 < 2 ^ 53) by (apply Z.pow_lt_mono_r; lia).
  destruct (float_of_int_spec l ltac:(lia)) as (fl & Efl & Hfl & Vfl).
  destruct (float_of_int_spec w ltac:(lia)) as (fw & Efw & Hfw & Vfw).
  destruct (fquo_spec 52 52 fl Py.f100 Hfl normal_f100 ltac:(lia) ltac:(lia)
              ltac:(lia)) as [Hq Fq].
  set (q := Py.fquo fl Py.f100) in *.
  destruct (fmul_spec 157 52 q fw Hq Hfw ltac:(lia) ltac:(lia) ltac:(lia))
    as [Hp Fp].
  set (p := Py.fmul q fw) in *.
  exists q, p.
  assert (Ediv : Py.div (Int l) (Float Py.f100) = Ok (Float q)).
  { rewrite div_float_r. cbn [Py.to_float]. rewrite Efl. reflexivity. }
  assert (Emul : Py.mul (Float q) (Int w) = Ok (Float p)).
  { unfold Py.mul, Py.arith. cbn [Py.to_float Py.bind]. rewrite Efw.
    reflexivity. }
  split; [exact Ediv|]. split; [exact Emul|].
  (* the quotient, between two neighbours on the grid of 2 ^ -50 *)
  rewrite Vfl, V_f100 in Fq. rewrite Vfw in Fp.
  destruct Fq as (_ & Hqlo & Hqhi). destruct Fp as (_ & Hplo & Hphi).
  set (mq := l * 2 ^ 50 / 100).
  assert (Hmq : 100 * mq <= l * 2 ^ 50 < 100 * (mq + 1)).
  { subst mq. pose proof (Z.div_mod (l * 2 ^ 50) 100 ltac:(lia)).
    pose proof (Z.mod_pos_bound (l * 2 ^ 50) 100 ltac:(lia)). lia. }
  clearbody mq.
  assert (Hmqb : 0 < mq <= 2 ^ 50).
  { clear - Hl Hmq. change (2 ^ 50) with 1125899906842624 in *. lia. }
  assert (EK : K = 2 ^ 50 * 2 ^ 1024).
  { unfold K. rewrite <- Z.pow_add_r by lia. reflexivity. }
  assert (HA : 0 < 2 ^ 1024) by (apply pow2_pos; lia).
  assert (Hq1 : mq * 2 ^ 1024 <= V q).
  { apply Hqlo; [exists mq, 1024; repeat split; try lia;
                 rewrite Z.abs_eq by lia;
                 change (2 ^ 53) with (2 ^ 50 * 8); lia|].
    rewrite EK. set (A := 2 ^ 1024) in *. set (c := 2 ^ 50) in *.
    assert (Hc : 0 < c) by reflexivity. clearbody A c.
    replace (mq * A * (100 * (c * A))) with (100 * mq * (c * A * A)) by ring.
    replace (l * (c * A) * (c * A)) with (l * c * (c * A * A)) by ring.
    apply Z.mul_le_mono_nonneg_r; [|lia].
    apply Z.mul_nonneg_nonneg; [apply Z.mul_nonneg_nonneg|]; lia. }
  assert (Hq2 : V q <= (mq + 1) * 2 ^ 1024).
  { apply Hqhi; [exists (mq + 1), 1024; repeat split; try lia;
                 rewrite Z.abs_eq by lia;
                 change (2 ^ 53) with (2 ^ 50 * 8); lia|].
    rewrite EK. set (A := 2 ^ 1024) in *. set (c := 2 ^ 50) in *.
    assert (Hc : 0 < c) by reflexivity. clearbody A c.
    replace ((mq + 1) * A * (100 * (c * A)))
      with (100 * (mq + 1) * (c * A * A)) by ring.
    replace (l * (c * A) * (c * A)) with (l * c * (c * A * A)) by ring.
    apply Z.mul_le_mono_nonneg_r; [|lia].
    apply Z.mul_nonneg_nonneg; [apply Z.mul_nonneg_nonneg|]; lia. }
  (* the product, between two neighbours on the grid of 2 ^ -36 *)
  set (tlo := mq * w / 2 ^ 14).
  set (thi := (mq + 1) * w / 2 ^ 14 + 1).
  assert (Htlo : tlo * 2 ^ 14 <= mq * w < (tlo + 1) * 2 ^ 14).
  { subst tlo. pose proof (Z.div_mod (mq * w) (2 ^ 14) ltac:(lia)).
    pose proof (Z.mod_pos_bound (mq * w) (2 ^ 14) ltac:(lia)). lia. }
  assert (Hthi : (thi - 1) * 2 ^ 14 <= (mq + 1) * w < thi * 2 ^ 14).
  { subst thi. pose proof (Z.div_mod ((mq + 1) * w) (2 ^ 14) ltac:(lia)).
    pose proof (Z.mod_pos_bound ((mq + 1) * w) (2 ^ 14) ltac:(lia)). lia. }
  clearbody tlo thi.
  assert (Hmw : 0 < mq * w /\ (mq + 1) * w <= (2 ^ 53 - 1) * 2 ^ 14).
  { clear - Hmqb Hw.
    change (2 ^ 50) with 1125899906842624 in *.
    change (2 ^ 53) with 9007199254740992.
    change (2 ^ 14) with 16384.
    change (2 ^ 16) with 65536 in *. nia. }
  assert (Htb : 0 <= tlo /\ 0 < thi <= 2 ^ 53).
  { clear - Hmw Htlo Hthi Hw.
    set (c := 2 ^ 53) in *. set (c' := 2 ^ 14) in *.
    assert (0 < c') by reflexivity. assert (0 < c) by reflexivity.
    clearbody c c'. destruct Hmw as [Hm1 Hm2].
    destruct Htlo as [_ Ht]. destruct Hthi as [Hh1 Hh2].
    assert (H1 : 0 < (tlo + 1) * c') by lia.
    assert (H2 : 0 < thi * c') by lia.
    assert (H3 : (thi - 1) * c' <= (c - 1) * c') by lia.
    assert (0 < tlo + 1) by (apply (Z.mul_pos_cancel_r _ c'); assumption).
    assert (0 < thi) by (apply (Z.mul_pos_cancel_r _ c'); assumption).
    assert (thi - 1 <= c - 1)
      by (apply (Z.mul_le_mono_pos_r _ _ c'); assumption).
    lia. }
  assert (EK2 : K = 2 ^ 36 * 2 ^ 1038).
  { unfold K. rewrite <- Z.pow_add_r by lia. reflexivity. }
  assert (EA : 2 ^ 1038 = 2 ^ 14 * 2 ^ 1024).
  { rewrite <- Z.pow_add_r by lia. reflexivity. }
  assert (HU : 0 < 2 ^ 1038) by (apply pow2_pos; lia).
  assert (HK : 0 < K) by exact K_pos.
  assert (Hp1 : tlo * 2 ^ 1038 <= V p).
  { apply Hplo; [exists tlo, 1038; repeat split; try lia;
                 rewrite Z.abs_eq by lia; lia|].
    rewrite (Z.mul_assoc (V q) w K).
    apply Z.mul_le_mono_nonneg_r; [lia|].
    rewrite EA. set (A := 2 ^ 1024) in *. set (c := 2 ^ 14) in *.
    clearbody A c.
    apply Z.le_trans with (mq * w * A).
    - replace (tlo * (c * A)) with (tlo * c * A) by ring.
      apply Z.mul_le_mono_nonneg_r; lia.
    - replace (mq * w * A) with (mq * A * w) by ring.
      apply Z.mul_le_mono_nonneg_r; lia. }
  assert (Hp2 : V p <= thi * 2 ^ 1038).
  { apply Hphi; [exists thi, 1038; repeat split; try lia;
                 rewrite Z.abs_eq by lia; lia|].
    rewrite (Z.mul_assoc (V q) w K).
    apply Z.mul_le_mono_nonneg_r; [lia|].
    rewrite EA. set (A := 2 ^ 1024) in *. set (c := 2 ^ 14) in *.
    clearbody A c.
    apply Z.le_trans with ((mq + 1) * w * A).
    - replace ((mq + 1) * w * A) with ((mq + 1) * A * w) by ring.
      apply Z.mul_le_mono_nonneg_r; lia.
    - replace (thi * (c * A)) with (thi * c * A) by ring.
      apply Z.mul_le_mono_nonneg_r; lia. }
  assert (Hbounds :
            (l * w * 2 ^ 36 - 2 ^ 10) * 2 ^ 1038 <= 100 * V p
              <= (l * w * 2 ^ 36 + 2 ^ 10) * 2 ^ 1038).
  { assert (Hlo : l * w * 2 ^ 36 - 2 ^ 10 <= 100 * tlo).
    { change (2 ^ 50) with (2 ^ 36 * 2 ^ 14) in Hmq.
      change (2 ^ 16) with 65536 in Hw. change (2 ^ 10) with 1024.
      change (2 ^ 14) with 16384 in *.
      set (c := 2 ^ 36) in *. clearbody c. nia. }
    assert (Hhi : 100 * thi <= l * w * 2 ^ 36 + 2 ^ 10).
    { change (2 ^ 50) with (2 ^ 36 * 2 ^ 14) in Hmq.
      change (2 ^ 16) with 65536 in Hw. change (2 ^ 10) with 1024.
      change (2 ^ 14) with 16384 in *.
      set (c := 2 ^ 36) in *. clearbody c. nia. }
    set (U := 2 ^ 1038) in *. clearbody U. nia. }
  split; [|exact Hbounds].
  apply (normal_of_value 263 p Hp ltac:(lia)).
  destruct Hbounds as [Hb1 Hb2].
  assert (E1 : 2 ^ 1066 = 2 ^ 28 * 2 ^ 1038)
    by (rewrite <- Z.pow_add_r by lia; reflexivity).
  assert (E2 : 2 ^ 1186 = 2 ^ 148 * 2 ^ 1038)
    by (rewrite <- Z.pow_add_r by lia; reflexivity).
  rewrite E1, E2.
  assert (Hlw : 1 <= l * w <= 100 * 2 ^ 16) by nia.
  assert (H148 : 2 ^ 60 < 2 ^ 148) by (apply Z.pow_lt_mono_r; lia).
  change (2 ^ 36) with 68719476736 in *. change (2 ^ 10) with 1024 in *.
  change (2 ^ 28) with 268435456. change (2 ^ 16) with 65536 in *.
  change (2 ^ 60) with 1152921504606846976 in H148.
  set (U := 2 ^ 1038) in *. set (c := 2 ^ 148) in *. clearbody U c.
  split; nia.
Qed.

(** [int(x)] of a float between two whole numbers. *)
Lemma trunc_between (f : float) (lo hi : Z) :
  Binary64.finite f -> 0 <= lo -> lo * K <= V f < (hi + 1) * K ->
  exists x, Py.trunc f = Ok x /\ lo <= x <= hi.
Proof.
  intros Hf Hlo Hv. pose proof K_pos as HK.
  rewrite (trunc_V f Hf). exists (Z.quot (V f) K). split; [reflexivity|].
  assert (H0 : 0 <= V f) by nia.
  rewrite Z.quot_div_nonneg by lia. split.
  - apply Z.div_le_lower_bound; lia.
  - apply Z.lt_succ_r. apply Z.div_lt_upper_bound; lia.
Qed.

(** A value within [2 ^ -26] hundredths of [E] hundredths is not below the
    whole number under it (one less when [E] hundredths is whole) and below
    the next one by [2 ^ -20] at least. *)
Lemma hundredths_bounds (E N : Z) :
  0 < E ->
  (E * 2 ^ 36 - 2 ^ 10) * 2 ^ 1038 <= 100 * N
    <= (E * 2 ^ 36 + 2 ^ 10) * 2 ^ 1038 ->
  (E mod 100 = 0 -> (E / 100 - 1) * K <= N) /\
  (E mod 100 <> 0 -> E / 100 * K <= N) /\
  N <= ((E / 100 + 1) * 2 ^ 20 - 1) * 2 ^ 1054.
Proof.
  intros HE HN.
  pose proof (Z.div_mod E 100 ltac:(lia)) as Hdm.
  pose proof (Z.mod_pos_bound E 100 ltac:(lia)) as Hr.
  set (G := E / 100) in *. set (r := E mod 100) in *. clearbody G r.
  assert (EK : K = 2 ^ 36 * 2 ^ 1038).
  { unfold K. rewrite <- Z.pow_add_r by lia. reflexivity. }
  assert (EU : 2 ^ 1054 = 2 ^ 16 * 2 ^ 1038).
  { rewrite <- Z.pow_add_r by lia. reflexivity. }
  assert (HU : 0 < 2 ^ 1038) by (apply pow2_pos; lia).
  rewrite EK, EU. subst E.
  change (2 ^ 36) with 68719476736 in *. change (2 ^ 10) with 1024 in *.
  change (2 ^ 20) with 1048576. change (2 ^ 16) with 65536.
  set (U := 2 ^ 1038) in *. clearbody U.
  repeat split; intros; nia.
Qed.

Lemma below_next_pixel (G : Z) :
  ((G + 1) * 2 ^ 20 - 1) * 2 ^ 1054 < (G + 1) * K.
Proof.
  assert (EK : K = 2 ^ 20 * 2 ^ 1054).
  { unfold K. rewrite <- Z.pow_add_r by lia. reflexivity. }
  assert (HU : 0 < 2 ^ 1054) by (apply pow2_pos; lia).
  rewrite EK. set (U := 2 ^ 1054) in *. clearbody U.
  change (2 ^ 20) with 1048576. nia.
Qed.

(** [int(x)] of a float within the bounds of [hundredths_bounds]. *)
Lemma trunc_hundredths (percent side : Z) (f : float) :
  0 < percent < 100 -> 0 < side ->
  Binary64.finite f ->
  ((percent * side) mod 100 = 0 -> (percent * side / 100 - 1) * K <= V f) ->
  ((percent * side) mod 100 <> 0 -> percent * side / 100 * K <= V f) ->
  V f <= ((percent * side / 100 + 1) * 2 ^ 20 - 1) * 2 ^ 1054 ->
  exists x, Py.trunc f = Ok x /\ Crop.percent_pixels percent side x.
Proof.
  intros Hp Hs Hf H0 H1 Hhi.
  assert (HE : 0 < percent * side) by nia.
  pose proof (Z.div_mod (percent * side) 100 ltac:(lia)) as Hdm.
  pose proof (Z.mod_pos_bound (percent * side) 100 ltac:(lia)) as Hr.
  pose proof (below_next_pixel (percent * side / 100)) as Hnext.
  unfold Crop.percent_pixels.
  set (E := percent * side) in *. clearbody E.
  assert (HG : 0 <= E / 100) by (apply Z.div_pos; lia).
  destruct (Z.eq_dec (E mod 100) 0) as [Hz|Hnz].
  - assert (HG1 : 1 <= E / 100) by lia.
    destruct (trunc_between f (E / 100 - 1) (E / 100) Hf ltac:(lia))
      as (x & Hx & Hb); [specialize (H0 Hz); lia|].
    exists x. split; [exact Hx|].
    destruct (Z.eq_dec x (E / 100)) as [->|Hne]; [left; reflexivity|].
    right. repeat split; lia.
  - destruct (trunc_between f (E / 100) (E / 100) Hf HG)
      as (x & Hx & Hb); [specialize (H1 Hnz); lia|].
    exists x. split; [exact Hx|]. left. lia.
Qed.

(** [100 / 100. * w] is [w]. *)
Lemma whole_of_side (w : Z) :
  0 < w <= 2 ^ 16 ->
  exists q p : float,
    Py.div (Int 100) (Float Py.f100) = Ok (Float q) /\
    Py.mul (Float q) (Int w) = Ok (Float p) /\
    normal 60 p /\ V p = w * K.
Proof.
  intros Hw. pose proof K_pos as HK.
  assert (H16 : 2 ^ 16 < 2 ^ 53) by (apply Z.pow_lt_mono_r; lia).
  destruct (float_of_int_spec w ltac:(lia)) as (fw & Efw & Hfw & Vfw).
  set (q := S754_finite false 4503599627370496 (-52)).
  assert (Hq : normal 52 q) by (simpl; split; [reflexivity|lia]).
  assert (Vq : V q = K) by reflexivity.
  destruct (fmul_spec 52 52 q fw Hq Hfw ltac:(lia) ltac:(lia) ltac:(lia))
    as [Hp Fp].
  exists q, (Py.fmul q fw).
  split; [reflexivity|]. split.
  { unfold Py.mul, Py.arith. cbn [Py.to_float Py.bind]. rewrite Efw.
    reflexivity. }
  assert (Vp : V (Py.fmul q fw) = w * K).
  { apply (faithful_exact _ _ _ _ Fp).
    - apply representable_int; lia.
    - rewrite Vq, Vfw. ring. }
  split; [|exact Vp].
  apply (normal_of_value _ _ Hp ltac:(lia)). rewrite Vp. unfold K.
  assert (E1 : 2 ^ 1074 = 2 ^ 8 * 2 ^ 1066)
    by (rewrite <- Z.pow_add_r by lia; reflexivity).
  assert (E2 : 2 ^ 1186 = 2 ^ 112 * 2 ^ 1074)
    by (rewrite <- Z.pow_add_r by lia; reflexivity).
  assert (H112 : 2 ^ 16 < 2 ^ 112) by (apply Z.pow_lt_mono_r; lia).
  assert (HU : 0 < 2 ^ 1066) by (apply pow2_pos; lia).
  split.
  - rewrite E1. change (2 ^ 8) with 256. nia.
  - rewrite E2. apply Z.mul_lt_mono_pos_r; [exact HK|lia].
Qed.

(** [int(l / 100. * w)] *)
Lemma percent_low (l w : Z) :
  0 <= l <= 100 -> 0 < w <= 2 ^ 16 ->
  exists (q a : num) (x : Z),
    Py.div (Int l) (Float Py.f100) = Ok q /\
    Py.mul q (Int w) = Ok a /\
    Py.int a = Ok x /\ Crop.percent_pixels l w x.
Proof.
  intros Hl Hw. pose proof K_pos as HK.
  assert (H16 : 2 ^ 16 < 2 ^ 53) by (apply Z.pow_lt_mono_r; lia).
  destruct (Z.eq_dec l 0) as [->|Hl0]; [|destruct (Z.eq_dec l 100) as [->|Hl1]].
  - exists (Float (S754_zero false)), (Float (S754_zero false)), 0.
    split; [exact zero_percent|]. split; [apply mul_zero_int; lia|].
    split; [reflexivity|]. left. reflexivity.
  - destruct (whole_of_side w Hw) as (q & p & Hq & Hp & Np & Vp).
    exists (Float q), (Float p), w.
    split; [exact Hq|]. split; [exact Hp|]. split.
    + cbn [Py.int]. rewrite trunc_V by (apply (normal_finite 60); [lia|exact Np]).
      rewrite Vp, Z.quot_mul by lia. reflexivity.
    + left. rewrite Z.mul_comm, Z.div_mul by lia. reflexivity.
  - destruct (percent_of_side l w ltac:(lia) Hw) as (q & p & Hq & Hp & Np & Vp).
    assert (HE : 0 < l * w) by nia.
    destruct (hundredths_bounds (l * w) (V p) HE Vp) as (B0 & B1 & B2).
    destruct (trunc_hundredths l w p ltac:(lia) ltac:(lia)
                (normal_finite 60 p ltac:(lia) Np) B0 B1 B2) as (x & Hx & Px).
    exists (Float q), (Float p), x.
    split; [exact Hq|]. split; [exact Hp|]. split; [exact Hx|exact Px].
Qed.

(** [int(w - r / 100. * w)] *)
Lemma percent_high (r w : Z) :
  0 <= r <= 100 -> 0 < w <= 2 ^ 16 ->
  exists (q p c : num) (x : Z),
    Py.div (Int r) (Float Py.f100) = Ok q /\
    Py.mul q (Int w) = Ok p /\
    Py.sub (Int w) p = Ok c /\
    Py.int c = Ok x /\ Crop.percent_pixels (100 - r) w x.
Proof.
  intros Hr Hw. pose proof K_pos as HK.
  assert (H16 : 2 ^ 16 < 2 ^ 53) by (apply Z.pow_lt_mono_r; lia).
  destruct (float_of_int_spec w ltac:(lia)) as (fw & Efw & Hfw & Vfw).
  assert (Hsub : forall p, Py.sub (Int w) (Float p) = Ok (Float (Py.fsub fw p))).
  { intros p. unfold Py.sub, Py.arith. cbn [Py.to_float]. rewrite Efw.
    reflexivity. }
  assert (Nfw : normal 60 fw) by (apply (normal_weaken 52); [lia|exact Hfw]).
  destruct (Z.eq_dec r 0) as [->|Hr0]; [|destruct (Z.eq_dec r 100) as [->|Hr1]].
  - destruct (sub_zero_float w ltac:(lia)) as (c & Hc & Hx).
    exists (Float (S754_zero false)), (Float (S754_zero false)), c, w.
    split; [exact zero_percent|]. split; [apply mul_zero_int; lia|].
    split; [exact Hc|]. split; [exact Hx|].
    left. change (100 - 0) with 100.
    rewrite Z.mul_comm, Z.div_mul by lia. reflexivity.
  - destruct (whole_of_side w Hw) as (q & p & Hq & Hp & Np & Vp).
    destruct (fsub_exact fw p 0 0 (or_intror Nfw) (or_intror Np)
                ltac:(lia) ltac:(simpl; lia) ltac:(lia)) as [Fs Vs].
    exists (Float q), (Float p), (Float (Py.fsub fw p)), 0.
    split; [exact Hq|]. split; [exact Hp|]. split; [apply Hsub|]. split.
    + cbn [Py.int]. rewrite (trunc_V _ Fs), Vs, Vfw, Vp.
      rewrite Z.sub_diag. reflexivity.
    + left. reflexivity.
  - destruct (percent_of_side r w ltac:(lia) Hw) as (q & p & Hq & Hp & Np & Vp).
    assert (EK : K = 2 ^ 36 * 2 ^ 1038).
    { unfold K. rewrite <- Z.pow_add_r by lia. reflexivity. }
    assert (HU : 0 < 2 ^ 1038) by (apply pow2_pos; lia).
    assert (Hlt : V p < V fw).
    { rewrite Vfw, EK. revert Vp. generalize (V p). intros v Vp.
      change (2 ^ 36) with 68719476736 in *. change (2 ^ 10) with 1024 in *.
      set (U := 2 ^ 1038) in *. clearbody U. clear - Vp Hr Hr1 Hw HU. nia. }
    destruct (fsub_faithful fw p Nfw Np Hlt) as [Fs (Rs & Hlo & Hhi)].
    assert (HE : 0 < (100 - r) * w) by nia.
    assert (HN : ((100 - r) * w * 2 ^ 36 - 2 ^ 10) * 2 ^ 1038
                 <= 100 * (V fw - V p)
                 <= ((100 - r) * w * 2 ^ 36 + 2 ^ 10) * 2 ^ 1038).
    { rewrite Vfw, EK. clear - Vp. lia. }
    destruct (hundredths_bounds ((100 - r) * w) (V fw - V p) HE HN)
      as (B0 & B1 & B2).
    assert (HG : 0 <= (100 - r) * w / 100 <= 2 ^ 16).
    { split; [apply Z.div_pos; lia|].
      apply Z.div_le_upper_bound; [lia|]. nia. }
    destruct (trunc_hundredths (100 - r) w (Py.fsub fw p)
                ltac:(lia) ltac:(lia) Fs) as (x & Hx & Px).
    + intros Hz. apply Hlo; [|specialize (B0 Hz); lia].
      assert (1 <= (100 - r) * w / 100).
      { pose proof (Z.div_mod ((100 - r) * w) 100 ltac:(lia)). lia. }
      apply representable_int; lia.
    + intros Hnz. apply Hlo; [|specialize (B1 Hnz); lia].
      apply representable_int; lia.
    + apply Hhi; [|lia].
      apply representable_int; [|lia].
      change (2 ^ 16) with 65536 in HG. change (2 ^ 20) with 1048576.
      change (2 ^ 53) with 9007199254740992. lia.
    + exists (Float q), (Float p), (Float (Py.fsub fw p)), x.
      split; [exact Hq|]. split; [exact Hp|]. split; [apply Hsub|].
      split; [exact Hx|exact Px].
Qed.

(** X24.  A crop box in percent is cut at the whole pixels of the exact
    percentages, or one pixel before.  For a box of four integers
    [(l, t, r, b)] between 0 and 100 and an image with sides up to 65536,
    the crop box is [(x1, y1, x2, y2)] where [x1] is the floor of
    [l * w / 100] and [x2] the floor of [(100 - r) * w / 100] (on the other
    axis [t], [b] and [h]), except that a coordinate whose exact value is a
    whole number of pixels can come out one pixel less, as the quotient by
    [100.] is rounded before it is truncated; 0 and 100 percent are
    exact. *)
Theorem crop_percent_within_one_pixel (s : processors.sequence)
    (l t r b w h : Z) :
  processors.items s
  = [Some (Int l); Some (Int t); Some (Int r); Some (Int b)] ->
  0 <= l <= 100 -> 0 <= t <= 100 -> 0 <= r <= 100 -> 0 <= b <= 100 ->
  0 < w <= 2 ^ 16 -> 0 < h <= 2 ^ 16 ->
  exists x1 y1 x2 y2 : Z,
    processors.crop_get_crop_box
      {| processors.crop_box := Some s; processors.crop_percent := true |} w h
    = Ok (x1, y1, x2, y2) /\
    Crop.percent_pixels l w x1 /\
    Crop.percent_pixels t h y1 /\
    Crop.percent_pixels (100 - r) w x2 /\
    Crop.percent_pixels (100 - b) h y2.
Proof.
  intros Hs Hl Ht Hr Hb Hw Hh.
  destruct (percent_low l w Hl Hw) as (q0 & a & x1 & Hq0 & Ha & Hx1 & P1).
  destruct (percent_low t h Ht Hh) as (q1 & a' & y1 & Hq1 & Ha' & Hy1 & P2).
  destruct (percent_high r w Hr Hw)
    as (q2 & p2 & c & x2 & Hq2 & Hp2 & Hc & Hx2 & P3).
  destruct (percent_high b h Hb Hh)
    as (q3 & p3 & d & y2 & Hq3 & Hp3 & Hd & Hy2 & P4).
  exists x1, y1, x2, y2.
  split; [|repeat split; assumption].
  unfold processors.crop_get_crop_box.
  cbn [processors.crop_box processors.crop_percent].
  rewrite Hs. cbn [Py.truthy_list].
  assert (Hfill : processors.fill_missing s
                  = Ok [Int l; Int t; Int r; Int b]).
  { destruct s as [k|k]; simpl in Hs; subst k; reflexivity. }
  rewrite Hfill. cbn [Py.bind processors.index nth_error].
  rewrite Hq0. cbn [Py.bind]. rewrite Ha. cbn [Py.bind].
  rewrite Hq1. cbn [Py.bind]. rewrite Ha'. cbn [Py.bind].
  rewrite Hq2. cbn [Py.bind]. rewrite Hp2. cbn [Py.bind].
  rewrite Hc. cbn [Py.bind].
  rewrite Hq3. cbn [Py.bind]. rewrite Hp3. cbn [Py.bind].
  rewrite Hd. cbn [Py.bind].
  rewrite Hx1. cbn [Py.bind]. rewrite Hy1. cbn [Py.bind].
  rewrite Hx2. cbn [Py.bind]. rewrite Hy2. reflexivity.
Qed.

(** The lower value occurs: 29 percent of 100 pixels are 28 pixels. *)
Lemma crop_percent_loses_a_pixel :
  processors.crop_get_crop_box
    {| processors.crop_box :=
         Some (processors.PyList
                 [Some (Int 29); Some (Int 0); Some (Int 43); Some (Int 0)]);
       processors.crop_percent := true |} 100 10
  = Ok (28, 0, 57, 10).
Proof. vm_compute. reflexivity. Qed.

(* ================================================================== *)
(** ** The further properties at sample inputs *)
(* ================================================================== *)

Lemma crop_box_inside_image_witness :
  exists x1 y1 x2 y2 : Z,
    processors.get_crop_box (sample.gray 9 7) 4 20 "bottom"
      = Ok (x1, y1, x2, y2) /\
    0 <= x1 <= x2 /\ x2 <= 9 /\ 0 <= y1 <= y2 /\ y2 <= 7 /\
    x2 - x1 = Z.min 4 9 /\ y2 - y1 = Z.min 20 7.
Proof.
  apply (crop_box_inside_image (sample.gray 9 7) 9 7 4 20 "bottom");
    [reflexivity|lia|lia|lia|lia|reflexivity].
Defined.

Lemma crop_box_center_margins_witness :
  exists x1 y1 x2 y2 : Z,
    processors.get_crop_box (sample.gray 5 5) 3 1 "center"
      = Ok (x1, y1, x2, y2) /\
    x1 <= 5 - x2 <= x1 + 2 /\ y1 <= 5 - y2 <= y1 + 2.
Proof.
  apply (crop_box_center_margins (sample.gray 5 5) 5 5 3 1 "center");
    [reflexivity|lia|lia|lia|lia|reflexivity].
Defined.

Lemma crop_box_edge_anchors_witness :
  processors.get_crop_box (sample.gray 100 100) 40 40 "top"
    = Ok (30, 0, 70, 70 - 30) /\
  processors.get_crop_box (sample.gray 100 100) 40 40 "left"
    = Ok (0, 30, 70 - 30, 70) /\
  processors.get_crop_box (sample.gray 100 100) 40 40 "right"
    = Ok (100 - (70 - 30), 30, 100, 70) /\
  processors.get_crop_box (sample.gray 100 100) 40 40 "bottom"
    = Ok (30, 100 - (70 - 30), 70, 100).
Proof.
  apply (crop_box_edge_anchors (sample.gray 100 100) 100 100 40 40 30 30 70 70);
    reflexivity.
Defined.

Lemma crop_pixels_from_edges_witness :
  exists out : PIL.image,
    processors.crop_processor (sample.rgb 10 8)
      {| processors.crop_box :=
           Some (processors.PyTuple
                   [Some (Int 1); Some (Int 2); Some (Int 3); Some (Int 4)]);
         processors.crop_percent := false |} = Ok out /\
    PIL.size out = (10 - 1 - 3, 8 - 2 - 4) /\
    PIL.mode out = PIL.mode (sample.rgb 10 8) /\
    forall x y : Z,
      PIL.in_bounds out x y = true ->
      PIL.getpixel out x y = PIL.getpixel (sample.rgb 10 8) (x + 1) (y + 2).
Proof.
  destruct (crop_pixels_from_edges (sample.rgb 10 8)
              (processors.PyTuple
                 [Some (Int 1); Some (Int 2); Some (Int 3); Some (Int 4)])
              10 8 1 2 3 4 eq_refl eq_refl) as [_ H].
  apply H; lia.
Defined.

Lemma crop_box_missing_entries_witness :
  processors.crop_processor (sample.gray 8 6)
    {| processors.crop_box :=
         Some (processors.PyTuple [Some (Int 10); None; None; None]);
       processors.crop_percent := true |} = Raise Py.TypeError.
Proof.
  destruct (crop_box_missing_entries (sample.gray 8 6) true) as [H _].
  apply H. right. left. reflexivity.
Defined.

Lemma crop_box_wrong_length_witness :
  Py.is_ok
    (processors.crop_processor (sample.gray 8 6)
       {| processors.crop_box :=
            Some (processors.PyList [Some (Int 10); Some (Int 10)]);
          processors.crop_percent := true |}) = false.
Proof.
  destruct (crop_box_wrong_length (sample.gray 8 6) true) as [H _].
  apply H. cbn. lia.
Defined.

Lemma flip_mirrors_witness :
  exists out : PIL.image,
    processors.flip_processor (sample.gray 8 6) {| processors.flip := "y" |}
      = Ok out /\
    PIL.mode out = PIL.mode (sample.gray 8 6) /\
    PIL.size out = PIL.size (sample.gray 8 6) /\
    forall x y : Z,
      PIL.getpixel out x y =
        if Py.str_in "y" ["x"; "h"]%string
        then PIL.getpixel (sample.gray 8 6)
               (fst (PIL.size (sample.gray 8 6)) - 1 - x) y
        else PIL.getpixel (sample.gray 8 6) x
               (snd (PIL.size (sample.gray 8 6)) - 1 - y).
Proof.
  apply (flip_mirrors (sample.gray 8 6) {| processors.flip := "y" |}).
  discriminate.
Defined.

Lemma flip_both_axes_is_half_turn_witness :
  exists a b c : PIL.image,
    processors.flip_processor (sample.rgb 4 2) {| processors.flip := "x" |}
      = Ok a /\
    processors.flip_processor a {| processors.flip := "y" |} = Ok b /\
    processors.rotate_processor (B := sample.backend) (sample.rgb 4 2)
      (sample.turn_by 180) = Ok c /\
    PIL.same_picture b c.
Proof.
  apply (flip_both_axes_is_half_turn (B := sample.backend) (sample.rgb 4 2)
           (sample.turn_by 180)).
  reflexivity.
Defined.

Lemma quarter_turns_compose_witness :
  exists a b c : PIL.image,
    processors.rotate_processor (B := sample.backend) (sample.rgb 4 2)
      (sample.turn_by 90) = Ok a /\
    processors.rotate_processor (B := sample.backend) a (sample.turn_by 270)
      = Ok b /\
    processors.rotate_processor (B := sample.backend) (sample.rgb 4 2)
      (sample.turn_by 0) = Ok c /\
    PIL.same_picture b c.
Proof.
  apply (quarter_turns_compose (B := sample.backend) (sample.rgb 4 2)
           (sample.turn_by 90) (sample.turn_by 270) (sample.turn_by 0));
    [right; left; reflexivity
    |right; right; right; left; reflexivity
    |reflexivity].
Defined.

Lemma rotate_with_fill_color_witness :
  exists out : PIL.image,
    processors.rotate_processor (B := sample.backend) (sample.gray 8 6)
      sample.turn_30_max_area = Ok out /\
    PIL.mode out = PIL.mode (sample.gray 8 6) /\
    PIL.size out
      = PIL.size
          (PIL.rotate (B := sample.backend)
             (PIL.convert (B := sample.backend) (sample.gray 8 6) "RGBA")
             30 false).
Proof.
  destruct (rotate_with_fill_color (B := sample.backend) (sample.gray 8 6)
              sample.turn_30_max_area (PIL.ColorTuple [0; 0; 0; 255]))
    as [_ H]; [discriminate|reflexivity|discriminate|].
  destruct (H [0; 0; 0; 255] eq_refl) as (_ & _ & H4 & _).
  - repeat constructor; lia.
  - apply H4; [reflexivity|]. right. reflexivity.
Defined.

Lemma rotate_crop_unknown_mode_raises_witness :
  processors.rotate_crop_processor (B := sample.backend) (sample.gray 8 6)
    (sample.turn_30_by_mode "largest") = Raise Py.AttributeError.
Proof.
  apply (rotate_crop_unknown_mode_raises (B := sample.backend)
           (sample.gray 8 6) (sample.turn_30_by_mode "largest"));
    [discriminate|reflexivity].
Defined.

Lemma rotate_crop_of_empty_image_witness :
  (exists out : PIL.image,
     processors.rotate_crop_processor (B := sample.backend) (sample.gray 5 0)
       (sample.turn_30_by_mode "max_area") = Ok out /\
     PIL.size out = (0, 0)) /\
  processors.rotate_crop_processor (B := sample.backend) (sample.gray 5 0)
    (sample.turn_30_by_mode "aspect_ratio") = Raise Py.ZeroDivisionError.
Proof.
  split.
  - destruct (rotate_crop_of_empty_image (B := sample.backend)
                (sample.gray 5 0) (sample.turn_30_by_mode "max_area") 5 0)
      as [H _]; [reflexivity|discriminate|].
    apply H; [reflexivity|right; reflexivity
             |vm_compute; reflexivity|vm_compute; reflexivity].
  - destruct (rotate_crop_of_empty_image (B := sample.backend)
                (sample.gray 5 0) (sample.turn_30_by_mode "aspect_ratio") 5 0)
      as [_ H]; [reflexivity|discriminate|].
    apply H; [reflexivity|reflexivity|lia].
Defined.

Lemma resize_fit_never_enlarges_witness :
  exists (out : PIL.image) (w' h' : Z),
    processors.resize_processor (B := sample.backend) (sample.rgb 40 30)
      (sample.box_of (Some 50) (Some 50) "fit") = Ok out /\
    PIL.size out = (w', h') /\
    w' <= 40 /\ h' <= 30 /\
    (40 <= 50 -> 30 <= 50 -> (w', h') = (40, 30)).
Proof.
  apply (resize_fit_never_enlarges (B := sample.backend) (sample.rgb 40 30)
           40 30 50 50); [reflexivity|lia|lia|lia|lia].
Defined.

Lemma resize_fit_touches_box_witness :
  exists (out : PIL.image) (w' h' : Z),
    processors.resize_processor (B := sample.backend) (sample.rgb 200 100)
      (sample.box_of (Some 50) (Some 25) "fit") = Ok out /\
    PIL.size out = (w', h') /\
    (w' = 50 \/ h' = 25) /\
    (50 * 100 = 25 * 200 -> (w', h') = (50, 25)).
Proof.
  apply (resize_fit_touches_box (B := sample.backend) (sample.rgb 200 100)
           200 100 50 25); [reflexivity|lia|lia|lia|lia|left; lia].
Defined.

Lemma resize_fit_twice_keeps_size_witness :
  exists once twice : PIL.image,
    processors.resize_processor (B := sample.backend) (sample.rgb 200 100)
      (sample.box_of (Some 50) (Some 50) "fit") = Ok once /\
    processors.resize_processor (B := sample.backend) once
      (sample.box_of (Some 50) (Some 50) "fit") = Ok twice /\
    PIL.size twice = PIL.size once.
Proof.
  apply (resize_fit_twice_keeps_size (B := sample.backend)
           (sample.rgb 200 100) 200 100 50 50);
    [reflexivity|lia|lia|lia|lia].
Defined.

Lemma resize_unknown_fit_raises_witness :
  processors.resize_processor (B := sample.backend) (sample.rgb 200 100)
    (sample.box_of (Some 50) (Some 50) "stretch") = Raise Py.ValueError.
Proof.
  apply (resize_unknown_fit_raises (B := sample.backend) (sample.rgb 200 100)
           200 100 50 50 "stretch");
    [reflexivity|lia|lia|lia|lia|reflexivity].
Defined.

Lemma engine_process_keeps_mode_witness :
  exists out : PIL.image,
    engines.process (B := sample.backend) sample.fill_png_recipe
      (sample.gray 8 6) = Ok out /\
    PIL.mode out = PIL.mode (sample.gray 8 6).
Proof.
  destruct (engines.process (B := sample.backend) sample.fill_png_recipe
              (sample.gray 8 6)) as [out|e] eqn:E.
  - exists out. split; [reflexivity|].
    apply (engine_process_keeps_mode (B := sample.backend)
             sample.fill_png_recipe (sample.gray 8 6) out); [|exact E].
    intros d Hd. right. split; [reflexivity|discriminate].
  - vm_compute in E. discriminate.
Defined.

Lemma engine_single_dimension_recipe_witness :
  engines.process (B := sample.backend) (sample.width_only_recipe 50)
    (sample.rgb 200 100)
  = Ok (PIL.resize (B := sample.backend) (sample.rgb 200 100)
          (if 200 >? 50 then (50, Z.max (100 * 50 / 200) 1) else (200, 100))).
Proof.
  assert (H16 : 0 < 200 <= 2 ^ 16 /\ 0 < 100 <= 2 ^ 16 /\ 0 < 50 <= 2 ^ 16)
    by lia.
  destruct H16 as (Hw & Hh & HW).
  destruct (engine_single_dimension_recipe (B := sample.backend)
              (sample.width_only_recipe 50) (sample.rgb 200 100) 200 100
              eq_refl Hw Hh eq_refl eq_refl eq_refl eq_refl eq_refl)
    as [H _].
  exact (H 50 eq_refl HW eq_refl).
Defined.

Lemma attrdict_converts_or_fails_on_tuple_witness :
  utils.AttrDict sample.options_in_tuple = Raise Py.TypeError /\
  utils.AttrDict sample.nested_options
    = Ok (utils.marked (utils.VDict false sample.nested_options)).
Proof.
  split.
  - destruct (attrdict_converts_or_fails_on_tuple sample.options_in_tuple)
      as [H _].
    apply H. reflexivity.
  - destruct (attrdict_converts_or_fails_on_tuple sample.nested_options)
      as [_ H].
    apply H. reflexivity.
Defined.

Lemma attrdict_is_idempotent_witness :
  true = true /\
  utils.AttrDict
    (map (fun kv => (fst kv, utils.marked (snd kv))) sample.nested_options)
  = Ok (utils.VDict true
          (map (fun kv => (fst kv, utils.marked (snd kv)))
             sample.nested_options)) /\
  forall (key : string) (v : utils.value),
    utils.entry
      (utils.VDict true
         (map (fun kv => (fst kv, utils.marked (snd kv)))
            sample.nested_options)) key = Some v ->
    utils.is_dict v = true ->
    exists es, v = utils.VDict true es.
Proof.
  apply (attrdict_is_idempotent sample.nested_options).
  reflexivity.
Defined.

Lemma engine_file_is_stored_by_extension_witness :
  fields.upload_to "multires/images/" (Some "uuid"%string) true
    sample.instance_with_uuid "9c1d"
    (engines.name
       (engines.save (B := sample.backend) scenario_recipe (sample.gray 8 6)))
  = Ok "multires/images/0f3a.jpg"%string.
Proof.
  apply (engine_file_is_stored_by_extension (B := sample.backend)
           scenario_recipe (sample.gray 8 6) "multires/images/" "uuid" "9c1d"
           true sample.instance_with_uuid).
  reflexivity.
Defined.

Lemma crop_percent_within_one_pixel_witness :
  exists x1 y1 x2 y2 : Z,
    processors.crop_get_crop_box
      {| processors.crop_box :=
           Some (processors.PyList
                   [Some (Int 29); Some (Int 0); Some (Int 43); Some (Int 0)]);
         processors.crop_percent := true |} 100 10
    = Ok (x1, y1, x2, y2) /\
    Crop.percent_pixels 29 100 x1 /\
    Crop.percent_pixels 0 10 y1 /\
    Crop.percent_pixels (100 - 43) 100 x2 /\
    Crop.percent_pixels (100 - 0) 10 y2.
Proof.
  apply (crop_percent_within_one_pixel
           (processors.PyList
              [Some (Int 29); Some (Int 0); Some (Int 43); Some (Int 0)])
           29 0 43 0 100 10).
  - reflexivity.
  - lia.
  - lia.
  - lia.
  - lia.
  - split; [lia|discriminate].
  - split; [lia|discriminate].
Defined.
